(** * A caching reverse proxy for OpenAI clients: [agentica/cache.py]

    The development embeds the request handler [CacheHandler], its two cache
    stores (the sqlite table [cache] and the directory of snapshot files) and
    the client hook [RequestCache.hook_openai], and proves the properties
    that the design document states about them.

    Conventions of the embedding:
    - a Python [str] is a Rocq [string] whose characters are the code points
      U+0000 to U+00FF; text decoded from a request body can hold any code
      point and is a list of code points ([ustr]);
    - [bytes] are lists of [byte];
    - a [dict] is an association list in insertion order, updated with
      [dict_set]; a multidict (aiohttp's [CIMultiDict]) is a list of items
      that may repeat a name;
    - code that raises is written in a state-and-exception monad: the state
      survives an exception, as the fields of a Python object do. *)

From Stdlib Require Import ZArith Ascii String DecimalString.
From Stdlib.Strings Require Import Byte.
From stdpp Require Import gmap strings list sorting.

Local Open Scope Z_scope.
Local Open Scope string_scope.

(** ** Python's built-ins and standard library, as far as [cache.py] uses them *)

Module Py.

Definition bytes := list byte.

(** Unicode text: a list of code points. *)
Definition ustr := list N.

Definition ord (c : ascii) : N := N_of_ascii c.
Definition chr (n : N) : ascii := ascii_of_N n.

Definition ustr_of_str (s : string) : ustr := ord <$> list_ascii_of_string s.

Definition dquote : ascii := "034"%char.
Definition backslash : ascii := "092"%char.
Definition newline : ascii := "010"%char.

(** [str.lower()] on the code points below U+0100: the letters A-Z and the
    Latin-1 capitals U+00C0-U+00DE (the multiplication sign U+00D7 apart)
    move up by 32. *)
Definition lower_char (c : ascii) : ascii :=
  let n := ord c in
  if ((65 <=? n) && (n <=? 90))%N then chr (n + 32)
  else if ((192 <=? n) && (n <=? 222) && negb (n =? 215))%N then chr (n + 32)
  else c.

Fixpoint lower (s : string) : string :=
  match s with
  | EmptyString => EmptyString
  | String c r => String (lower_char c) (lower r)
  end.

(** [s.rstrip('/')] *)
Fixpoint rstrip_slash (s : string) : string :=
  match s with
  | EmptyString => EmptyString
  | String c r =>
      match rstrip_slash r with
      | EmptyString => if Ascii.eqb c "/" then EmptyString else String c EmptyString
      | r' => String c r'
      end
  end.

(** [s in (a, b, ...)] for strings *)
Definition str_in (s : string) (l : list string) : bool :=
  existsb (String.eqb s) l.

(** [str(n)] for a number that is not negative *)
Definition str_of_N (n : N) : string := NilEmpty.string_of_uint (N.to_uint n).

Definition str_of_nat (n : nat) : string := str_of_N (N.of_nat n).

(** *** dict and multidict *)

Definition dict := list (string * string).

Fixpoint dict_get (d : dict) (k : string) : option string :=
  match d with
  | [] => None
  | (k', v) :: r => if String.eqb k' k then Some v else dict_get r k
  end.

Definition dict_contains (d : dict) (k : string) : bool :=
  match dict_get d k with Some _ => true | None => false end.

(** [d[k] = v]: the value of an existing key is replaced where it stands, a
    new key goes to the end. *)
Fixpoint dict_set (d : dict) (k v : string) : dict :=
  match d with
  | [] => [(k, v)]
  | (k', v') :: r =>
      if String.eqb k' k then (k', v) :: r else (k', v') :: dict_set r k v
  end.

(** [{k: v for k, v in items}] *)
Definition dict_of_items (items : list (string * string)) : dict :=
  fold_left (fun d kv => dict_set d kv.1 kv.2) items [].

Definition multidict := list (string * string).

(** [md.get(k)] on a case-insensitive multidict: the first item whose name
    matches [k] whatever the case. *)
Fixpoint ci_get (md : multidict) (k : string) : option string :=
  match md with
  | [] => None
  | (k', v) :: r => if String.eqb (lower k') (lower k) then Some v else ci_get r k
  end.

(** [dict(md)] for a case-insensitive multidict: [dict] walks [md.keys()]
    and reads [md[k]] for each, which is the first value under that name. *)
Definition dict_of_multidict (md : multidict) : dict :=
  fold_left (fun d kv => dict_set d kv.1 (default EmptyString (ci_get md kv.1))) md [].

(** [md[k] = v] on a case-insensitive multidict: the first item of that name
    is replaced, the other items of that name go, a new name is appended. *)
Fixpoint ci_remove (md : multidict) (k : string) : multidict :=
  match md with
  | [] => []
  | (k', v') :: r =>
      if String.eqb (lower k') (lower k) then ci_remove r k else (k', v') :: ci_remove r k
  end.

Fixpoint ci_set (md : multidict) (k v : string) : multidict :=
  match md with
  | [] => [(k, v)]
  | (k', v') :: r =>
      if String.eqb (lower k') (lower k) then (k, v) :: ci_remove r k
      else (k', v') :: ci_set r k v
  end.

(** *** [bytes.decode('utf-8', errors='ignore')]

    A malformed sequence is dropped up to the byte that breaks it (that byte
    is read again as the start of the next sequence); a sequence cut short
    by the end of the input is dropped whole. *)

Definition is_cont (b : N) : bool := ((128 <=? b) && (b <=? 191))%N.

Definition second_ok (b0 b1 : N) : bool :=
  (if b0 =? 224 then (160 <=? b1) && (b1 <=? 191)
   else if b0 =? 237 then (128 <=? b1) && (b1 <=? 159)
   else if b0 =? 240 then (144 <=? b1) && (b1 <=? 191)
   else if b0 =? 244 then (128 <=? b1) && (b1 <=? 143)
   else is_cont b1)%N.

Definition low6 (b : N) : N := N.land b 63.

Fixpoint utf8_decode_ignore (bs : list N) : ustr :=
  match bs with
  | [] => []
  | b0 :: r0 =>
      if (b0 <? 128)%N then b0 :: utf8_decode_ignore r0
      else if ((b0 <? 194) || (244 <? b0))%N then utf8_decode_ignore r0
      else
        match r0 with
        | [] => []
        | b1 :: r1 =>
            if negb (second_ok b0 b1) then utf8_decode_ignore r0
            else if (b0 <? 224)%N then
              (N.land b0 31 * 64 + low6 b1)%N :: utf8_decode_ignore r1
            else
              match r1 with
              | [] => []
              | b2 :: r2 =>
                  if negb (is_cont b2) then utf8_decode_ignore r1
                  else if (b0 <? 240)%N then
                    (N.land b0 15 * 4096 + low6 b1 * 64 + low6 b2)%N
                      :: utf8_decode_ignore r2
                  else
                    match r2 with
                    | [] => []
                    | b3 :: r3 =>
                        if negb (is_cont b3) then utf8_decode_ignore r2
                        else
                          (N.land b0 7 * 262144 + low6 b1 * 4096
                           + low6 b2 * 64 + low6 b3)%N
                            :: utf8_decode_ignore r3
                    end
              end
        end
  end.

Definition decode_utf8_ignore (b : bytes) : ustr :=
  utf8_decode_ignore (Byte.to_N <$> b).

(** *** [json.dumps] (with [ensure_ascii], the default) on dicts of strings *)

Definition hex_digit (n : N) : ascii :=
  if (n <? 10)%N then chr (48 + n) else chr (87 + n).

Definition hex4 (n : N) : string :=
  String (hex_digit (N.land (N.shiftr n 12) 15))
    (String (hex_digit (N.land (N.shiftr n 8) 15))
       (String (hex_digit (N.land (N.shiftr n 4) 15))
          (String (hex_digit (N.land n 15)) EmptyString))).

Definition bs (c : ascii) : string := String backslash (String c EmptyString).

Definition json_escape (n : N) : string :=
  (if n =? 34 then bs dquote
   else if n =? 92 then bs backslash
   else if n =? 10 then bs "n"
   else if n =? 13 then bs "r"
   else if n =? 9 then bs "t"
   else if n =? 8 then bs "b"
   else if n =? 12 then bs "f"
   else if (32 <=? n) && (n <=? 126) then String (chr n) EmptyString
   else if n <? 65536 then bs "u" ++ hex4 n
   else
     let m := n - 65536 in
     bs "u" ++ hex4 (N.lor 55296 (N.land (N.shiftr m 10) 1023))
       ++ bs "u" ++ hex4 (N.lor 56320 (N.land m 1023)))%N.

Fixpoint json_escape_all (u : ustr) : string :=
  match u with
  | [] => EmptyString
  | n :: r => json_escape n ++ json_escape_all r
  end.

Definition json_str (u : ustr) : string :=
  String dquote (json_escape_all u ++ String dquote EmptyString).

Definition json_member (kv : string * ustr) : string :=
  json_str (ustr_of_str kv.1) ++ ": " ++ json_str kv.2.

Definition json_object (items : list (string * ustr)) : string :=
  "{" ++ String.concat ", " (json_member <$> items) ++ "}".

(** [sort_keys=True] orders the items by key; keys compare as strings do,
    code point by code point. *)
Definition key_le (a b : string * ustr) : Prop := String.le a.1 b.1.

#[global] Instance key_le_dec : RelDecision key_le.
Proof. intros a b. unfold key_le. apply _. Defined.

Definition json_dumps_sort_keys (items : list (string * ustr)) : string :=
  json_object (merge_sort key_le items).

Definition json_dumps (d : dict) : string :=
  json_object ((fun kv => (kv.1, ustr_of_str kv.2)) <$> d).

(** The members of the object [json_dumps] writes, and what follows the
    first of them. *)
Definition members_str (items : list (string * string)) : string :=
  String.concat ", " (json_member <$> ((fun kv => (kv.1, ustr_of_str kv.2)) <$> items)).

Definition members_tail (r : list (string * string)) : string :=
  match r with
  | [] => "}"
  | _ => ", " ++ members_str r ++ "}"
  end.

(** *** [json.loads] on the documents [json.dumps] writes for a dict of
    strings: one object whose members are strings.  The reader is an
    automaton over the characters; [None] stands for [JSONDecodeError].
    Escapes above U+00FF are outside the embedding of [str]. *)

Inductive jesc :=
| ENone
| EBack
| EHex (n : nat) (v : N).

Inductive str_out :=
| SCont (acc : string) (e : jesc)
| SDone (s : string)
| SFail.

Definition snoc (acc : string) (c : ascii) : string := acc ++ String c EmptyString.

Definition hex_val (c : ascii) : option N :=
  let n := ord c in
  (if (48 <=? n) && (n <=? 57) then Some (n - 48)
   else if (97 <=? n) && (n <=? 102) then Some (n - 87)
   else if (65 <=? n) && (n <=? 70) then Some (n - 55)
   else None)%N.

Definition str_step (acc : string) (e : jesc) (c : ascii) : str_out :=
  match e with
  | ENone =>
      if Ascii.eqb c dquote then SDone acc
      else if Ascii.eqb c backslash then SCont acc EBack
      else if (ord c <? 32)%N then SFail
      else SCont (snoc acc c) ENone
  | EBack =>
      if Ascii.eqb c dquote then SCont (snoc acc dquote) ENone
      else if Ascii.eqb c backslash then SCont (snoc acc backslash) ENone
      else if Ascii.eqb c "/" then SCont (snoc acc "/") ENone
      else if Ascii.eqb c "b" then SCont (snoc acc (chr 8)) ENone
      else if Ascii.eqb c "f" then SCont (snoc acc (chr 12)) ENone
      else if Ascii.eqb c "n" then SCont (snoc acc (chr 10)) ENone
      else if Ascii.eqb c "r" then SCont (snoc acc (chr 13)) ENone
      else if Ascii.eqb c "t" then SCont (snoc acc (chr 9)) ENone
      else if Ascii.eqb c "u" then SCont acc (EHex 0 0)
      else SFail
  | EHex n v =>
      match hex_val c with
      | None => SFail
      | Some h =>
          let v' := (v * 16 + h)%N in
          if (n =? 3)%nat then
            if (v' <? 256)%N then SCont (snoc acc (chr v')) ENone else SFail
          else SCont acc (EHex (S n) v')
      end
  end.

Inductive jstate :=
| JStart
| JOpen
| JKeyStr (d : dict) (acc : string) (e : jesc)
| JColon (d : dict) (k : string)
| JBeforeValue (d : dict) (k : string)
| JValStr (d : dict) (k : string) (acc : string) (e : jesc)
| JAfterValue (d : dict)
| JBeforeKey (d : dict)
| JEnd (d : dict).

Definition is_ws (c : ascii) : bool :=
  let n := ord c in ((n =? 32) || (n =? 9) || (n =? 10) || (n =? 13))%N.

Definition jstep (st : jstate) (c : ascii) : option jstate :=
  match st with
  | JStart =>
      if is_ws c then Some JStart
      else if Ascii.eqb c "{" then Some JOpen else None
  | JOpen =>
      if is_ws c then Some JOpen
      else if Ascii.eqb c dquote then Some (JKeyStr [] EmptyString ENone)
      else if Ascii.eqb c "}" then Some (JEnd []) else None
  | JKeyStr d acc e =>
      match str_step acc e c with
      | SCont a e' => Some (JKeyStr d a e')
      | SDone k => Some (JColon d k)
      | SFail => None
      end
  | JColon d k =>
      if is_ws c then Some (JColon d k)
      else if Ascii.eqb c ":" then Some (JBeforeValue d k) else None
  | JBeforeValue d k =>
      if is_ws c then Some (JBeforeValue d k)
      else if Ascii.eqb c dquote then Some (JValStr d k EmptyString ENone) else None
  | JValStr d k acc e =>
      match str_step acc e c with
      | SCont a e' => Some (JValStr d k a e')
      | SDone v => Some (JAfterValue (dict_set d k v))
      | SFail => None
      end
  | JAfterValue d =>
      if is_ws c then Some (JAfterValue d)
      else if Ascii.eqb c "," then Some (JBeforeKey d)
      else if Ascii.eqb c "}" then Some (JEnd d) else None
  | JBeforeKey d =>
      if is_ws c then Some (JBeforeKey d)
      else if Ascii.eqb c dquote then Some (JKeyStr d EmptyString ENone) else None
  | JEnd d => if is_ws c then Some (JEnd d) else None
  end.

Fixpoint jrun (st : jstate) (s : string) : option jstate :=
  match s with
  | EmptyString => Some st
  | String c r =>
      match jstep st c with
      | Some st' => jrun st' r
      | None => None
      end
  end.

Definition json_loads (s : string) : option dict :=
  match jrun JStart s with
  | Some (JEnd d) => Some d
  | _ => None
  end.

(** *** [hashlib.sha256(b).hexdigest()]

    Words are 32-bit integers carried in [Z]; every sum is reduced modulo
    [2^32] and every rotation is masked. *)

Module Sha256.

Definition mask32 : Z := 0xffffffff.

Definition add32 (a b : Z) : Z := (a + b) mod 4294967296.

Definition rotr (n x : Z) : Z :=
  Z.lor (Z.shiftr x n) (Z.land (Z.shiftl x (32 - n)) mask32).

Definition xor3 (a b c : Z) : Z := Z.lxor (Z.lxor a b) c.

Definition Ch (x y z : Z) : Z :=
  Z.lxor (Z.land x y) (Z.land (Z.lxor x mask32) z).

Definition Maj (x y z : Z) : Z :=
  xor3 (Z.land x y) (Z.land x z) (Z.land y z).

Definition Sig0 (x : Z) : Z := xor3 (rotr 2 x) (rotr 13 x) (rotr 22 x).
Definition Sig1 (x : Z) : Z := xor3 (rotr 6 x) (rotr 11 x) (rotr 25 x).
Definition sig0 (x : Z) : Z := xor3 (rotr 7 x) (rotr 18 x) (Z.shiftr x 3).
Definition sig1 (x : Z) : Z := xor3 (rotr 17 x) (rotr 19 x) (Z.shiftr x 10).

(** The round constants are the first 32 bits of the fractional parts of
    the cube roots of the first 64 primes, the initial hash value those of
    the square roots of the first 8 primes. *)
Definition is_prime (n : nat) : bool :=
  forallb (fun d => negb (n mod d =? 0)%nat) (seq 2 (n - 2)).

Definition primes : list Z :=
  Z.of_nat <$> List.filter is_prime (seq 2 310).

(** The integer cube root, found bit by bit from the top. *)
Fixpoint cbrt_bits (bits : nat) (acc n : Z) : Z :=
  match bits with
  | O => acc
  | S b =>
      let c := acc + Z.shiftl 1 (Z.of_nat b) in
      cbrt_bits b (if (c * c * c <=? n)%Z then c else acc) n
  end.

Definition first_bits_cbrt (p : Z) : Z :=
  Z.land (cbrt_bits 36 0 (Z.shiftl p 96)) mask32.

Definition first_bits_sqrt (p : Z) : Z :=
  Z.land (Z.sqrt (Z.shiftl p 64)) mask32.

Definition K : list Z := Eval vm_compute in first_bits_cbrt <$> primes.

Definition H0 : list Z := Eval vm_compute in first_bits_sqrt <$> take 8 primes.

(** The message, a [1] bit, zeros up to 56 modulo 64, and the length in
    bits as eight bytes, most significant first. *)
Definition be_bytes (n : nat) (x : Z) : list Z :=
  (fun i => Z.land (Z.shiftr x (8 * Z.of_nat i)) 255) <$> rev (seq 0 n).

Definition pad (msg : list Z) : list Z :=
  let len := Z.of_nat (length msg) in
  let zeros := Z.to_nat ((55 - len) mod 64) in
  (msg ++ [128] ++ replicate zeros 0 ++ be_bytes 8 (8 * len))%list.

Fixpoint words (bs : list Z) : list Z :=
  match bs with
  | a :: b :: c :: d :: r =>
      Z.lor (Z.shiftl a 24) (Z.lor (Z.shiftl b 16) (Z.lor (Z.shiftl c 8) d))
        :: words r
  | _ => []
  end.

(** The schedule, newest word first: [W t] from [W (t-2)], [W (t-7)],
    [W (t-15)] and [W (t-16)]. *)
Fixpoint schedule (n : nat) (rw : list Z) : list Z :=
  match n with
  | O => rw
  | S n' =>
      let w :=
        add32 (add32 (sig1 (nth 1 rw 0)) (nth 6 rw 0))
              (add32 (sig0 (nth 14 rw 0)) (nth 15 rw 0)) in
      schedule n' (w :: rw)
  end.

Definition regs : Type := Z * Z * Z * Z * Z * Z * Z * Z.

Definition round (s : regs) (kw : Z * Z) : regs :=
  let '(a, b, c, d, e, f, g, h) := s in
  let t1 := add32 (add32 (add32 h (Sig1 e)) (add32 (Ch e f g) kw.1)) kw.2 in
  let t2 := add32 (Sig0 a) (Maj a b c) in
  (add32 t1 t2, a, b, c, add32 d t1, e, f, g).

Definition regs_of (l : list Z) : regs :=
  (nth 0 l 0, nth 1 l 0, nth 2 l 0, nth 3 l 0,
   nth 4 l 0, nth 5 l 0, nth 6 l 0, nth 7 l 0).

Definition list_of (s : regs) : list Z :=
  let '(a, b, c, d, e, f, g, h) := s in [a; b; c; d; e; f; g; h].

Definition compress (hs : list Z) (block : list Z) : list Z :=
  let w := rev (schedule 48 (rev (words block))) in
  let s := fold_left round (zip K w) (regs_of hs) in
  zip_with add32 hs (list_of s).

Fixpoint blocks (n : nat) (hs : list Z) (bs : list Z) : list Z :=
  match n with
  | O => hs
  | S n' => blocks n' (compress hs (take 64 bs)) (drop 64 bs)
  end.

Definition digest (msg : list Z) : list Z :=
  let p := pad msg in
  blocks (length p / 64) H0 p.

Definition hex8 (x : Z) : string :=
  let n := Z.to_N x in hex4 (N.shiftr n 16) ++ hex4 (N.land n 65535).

Definition hexdigest (b : bytes) : string :=
  String.concat EmptyString (hex8 <$> digest ((fun x => Z.of_N (Byte.to_N x)) <$> b)).

End Sha256.

(** [s.encode()] for text that is ASCII, as [json.dumps] writes it *)
Definition encode (s : string) : bytes := list_byte_of_string s.

(** *** [base64.b64encode] and [base64.b64decode] *)

Definition b64_char (n : N) : ascii :=
  (if n <? 26 then chr (65 + n)
   else if n <? 52 then chr (71 + n)
   else if n <? 62 then chr (n - 4)
   else if n =? 62 then "+" else "/")%N%char.

Fixpoint b64encode_N (bs : list N) : string :=
  match bs with
  | [] => EmptyString
  | [a] =>
      String (b64_char (N.shiftr a 2))
        (String (b64_char (N.land (N.shiftl a 4) 63)) "==")
  | [a; b] =>
      String (b64_char (N.shiftr a 2))
        (String (b64_char (N.land (N.lor (N.shiftl a 4) (N.shiftr b 4)) 63))
           (String (b64_char (N.land (N.shiftl b 2) 63)) "="))
  | a :: b :: c :: r =>
      String (b64_char (N.shiftr a 2))
        (String (b64_char (N.land (N.lor (N.shiftl a 4) (N.shiftr b 4)) 63))
           (String (b64_char (N.land (N.lor (N.shiftl b 2) (N.shiftr c 6)) 63))
              (String (b64_char (N.land c 63)) (b64encode_N r))))
  end.

Definition b64encode (b : bytes) : string := b64encode_N (Byte.to_N <$> b).

Definition b64_val (c : ascii) : option N :=
  let n := ord c in
  (if (65 <=? n) && (n <=? 90) then Some (n - 65)
   else if (97 <=? n) && (n <=? 122) then Some (n - 71)
   else if (48 <=? n) && (n <=? 57) then Some (n + 4)
   else if n =? 43 then Some 62
   else if n =? 47 then Some 63
   else None)%N.

Definition to_byte (n : N) : byte := default x00 (Byte.of_N (N.land n 255)).

(** The lenient decoder ([validate=False]): characters outside the alphabet
    are skipped, a [=] that completes a group of four ends the input, and
    the data must not stop inside a group. [quad] is the position in the
    group, [left] the bits carried over, [pads] the run of [=] seen and
    [count] the number of data characters read. *)
Fixpoint a2b_base64 (s : string) (quad : nat) (left pads count : N)
    (out : bytes) : string + bytes :=
  match s with
  | EmptyString =>
      match quad with
      | O => inr out
      | 1%nat =>
          inl ("Invalid base64-encoded string: number of data characters ("
               ++ str_of_N count
               ++ ") cannot be 1 more than a multiple of 4")
      | _ => inl "Incorrect padding"
      end
  | String c r =>
      if Ascii.eqb c "=" then
        if ((2 <=? quad)%nat && (4 <=? N.of_nat quad + (pads + 1))%N)%bool
        then inr out
        else a2b_base64 r quad left (if (2 <=? quad)%nat then pads + 1 else pads)%N count out
      else
        match b64_val c with
        | None => a2b_base64 r quad left pads count out
        | Some v =>
            match quad with
            | O => a2b_base64 r 1 v 0%N (count + 1)%N out
            | 1%nat =>
                a2b_base64 r 2 (N.land v 15) 0%N (count + 1)%N
                  (out ++ [to_byte (N.lor (N.shiftl left 2) (N.shiftr v 4))])%list
            | 2%nat =>
                a2b_base64 r 3 (N.land v 3) 0%N (count + 1)%N
                  (out ++ [to_byte (N.lor (N.shiftl left 4) (N.shiftr v 2))])%list
            | _ =>
                a2b_base64 r 0 0%N 0%N (count + 1)%N
                  (out ++ [to_byte (N.lor (N.shiftl left 6) v)])%list
            end
        end
  end.

Definition is_ascii (s : string) : bool :=
  forallb (fun c => (ord c <? 128)%N) (list_ascii_of_string s).

(** [inl msg] stands for the [ValueError] (or its subclass
    [binascii.Error]) whose text is [msg]. *)
Definition b64decode (s : string) : string + bytes :=
  if is_ascii s then a2b_base64 s 0 0%N 0%N 0%N []
  else inl "string argument should contain only ASCII characters".

End Py.

(** ** The cache server and the client hook *)

Module Cache.
Import Py.

Definition REDIRECT_HEADER : string := "X-Cache-Redirect-To".

(** [Path(__file__).parent / "tests/file_cache"], relative to the package. *)
Definition FILE_CACHE_DIR : string := "tests/file_cache".

(** *** Exceptions and the monad of stateful code *)

(** The exceptions the code meets; each is a subclass of [Exception], and
    [JSONDecodeError] is a subclass of [ValueError].  An exception carries
    its message, [KeyError] the missing key and [JSONDecodeError] the
    document that could not be decoded. *)
Inductive exn :=
| ValueError (msg : string)
| JSONDecodeError (doc : string)
| KeyError (k : string)
| RuntimeError (msg : string)
| AssertionError (msg : string)
| TimeoutError (msg : string)
| OSError (msg : string)
| ClientError (msg : string).

Inductive result (A : Type) :=
| Ok (a : A)
| Raise (e : exn).
Arguments Ok {A} a.
Arguments Raise {A} e.

Definition M (S A : Type) : Type := S -> S * result A.

Definition ret {S A} (a : A) : M S A := fun s => (s, Ok a).
Definition raise {S A} (e : exn) : M S A := fun s => (s, Raise e).
Definition bind {S A B} (c : M S A) (k : A -> M S B) : M S B :=
  fun s =>
    match c s with
    | (s', Ok a) => k a s'
    | (s', Raise e) => (s', Raise e)
    end.
Definition get_state {S} : M S S := fun s => (s, Ok s).
Definition modify {S} (f : S -> S) : M S unit := fun s => (f s, Ok tt).

Notation "'let*' x ':=' c 'in' k" := (bind c (fun x => k))
  (at level 10, x pattern, c at level 100, k at level 200).
Notation "c ';;' k" := (bind c (fun _ => k))
  (at level 100, k at level 200, right associativity).

(** *** The world the server runs in *)

(** A row of the table [cache]; [r_headers] is the JSON text of the column
    [headers]. *)
Record row := Row {
  r_key : string;
  r_status_code : Z;
  r_headers : string;
  r_body : bytes;
  r_created_at : Z
}.

(** A snapshot file, as [json.load] sees it: text that is not JSON, or an
    object whose members, when present, have the types the writer gives
    them ([body] is the base64 text). An absent member is [None]. *)
Record snapshot := Snapshot {
  snap_status_code : option Z;
  snap_headers : option dict;
  snap_body : option string;
  snap_timestamp : option Z
}.

Inductive file_content :=
| Garbled (text : string)
| Document (doc : snapshot).

(** A line written by [print]: the two f-strings of the handler, with the
    path and the exception they format. *)
Inductive printed :=
| ErrorReading (file_path : string) (e : exn)
| ErrorWriting (file_path : string) (e : exn).

Record upstream_request := UpstreamRequest {
  up_method : string;
  up_url : string;
  up_headers : dict;
  up_data : bytes
}.

(** What [session.request] gives: a response with its status, its headers
    and the chunks of its body, or a transport failure, raised when the
    request is sent (a failure in the middle of a body is not modelled). *)
Inductive upstream_outcome :=
| UpResponse (status : Z) (headers : multidict) (chunks : list bytes)
| UpFailure (e : exn).

(** What the handler does to its surroundings, in order. *)
Inductive event :=
| EvHash (method path : string) (body : bytes) (redirect_url : string)
| EvSelect (cache_key : string)
| EvInsertOrReplace (cache_key : string)
| EvFileRead (file_path : string)
| EvFileWrite (file_path : string)
| EvUpstream (req : upstream_request).

(** The state outside the handler: the table, the snapshot directory (one
    file per path), what was printed, what was appended to the file named
    by [GITHUB_OUTPUT], and the trace of events.  Directories are not
    modelled: the [mkdir] calls (the snapshot directory is made when the
    handler is constructed, and made again with [exist_ok] before each
    write), the reading of a file that exists and the appending to the
    file of [GITHUB_OUTPUT] are taken to succeed; the one file operation
    that can fail is the one the code guards, the writing of a
    snapshot. *)
Record world := World {
  cache_table : list row;
  files : gmap string file_content;
  stdout : list printed;
  github_output : list string;
  trace : list event
}.

(** How the writing of a snapshot file fails.  [open(file_path, 'w')]
    raises, and the file is neither created nor truncated; or the file was
    opened, which empties it, and [json.dump] or the closing of the file
    raises: what was written until then, a part of the document that may
    be empty, is what the file holds afterwards. *)
Inductive write_failure :=
| OpenFails (e : exn)
| WriteFails (e : exn) (written : string).

Definition failure_exn (f : write_failure) : exn :=
  match f with OpenFails e | WriteFails e _ => e end.

(** What the handler reads from its surroundings and cannot change: the
    environment variables, the upstream (which may answer the n-th call
    differently from the first), the reading of the clock, and the
    failure, if any, of the writing of a file at a path. *)
Record environ := Environ {
  FILE_CACHE : option string;
  GITHUB_OUTPUT : option string;
  upstream : nat -> upstream_request -> upstream_outcome;
  time_time : Z;
  write_fault : string -> option write_failure
}.

Definition add_event (ev : event) (w : world) : world :=
  World (cache_table w) (files w) (stdout w) (github_output w) (trace w ++ [ev]).

Definition add_line (line : printed) (w : world) : world :=
  World (cache_table w) (files w) (stdout w ++ [line]) (github_output w) (trace w).

Definition add_github_line (line : string) (w : world) : world :=
  World (cache_table w) (files w) (stdout w) (github_output w ++ [line]) (trace w).

Definition set_table (t : list row) (w : world) : world :=
  World t (files w) (stdout w) (github_output w) (trace w).

Definition set_file (file_path : string) (c : file_content) (w : world) : world :=
  World (cache_table w) (<[file_path := c]> (files w)) (stdout w)
        (github_output w) (trace w).

Definition log (ev : event) : M world unit := modify (add_event ev).

Definition print (line : printed) : M world unit := modify (add_line line).

Definition is_upstream (ev : event) : bool :=
  match ev with EvUpstream _ => true | _ => false end.

Definition upstream_calls (t : list event) : nat :=
  length (filter (fun ev => is_upstream ev = true) t).

(** *** Requests and responses of aiohttp *)

Record Request := {
  method : string;
  path_qs : string;
  req_headers : multidict;
  req_body : bytes
}.

(** [web.StreamResponse()]: status 200, no header, not yet prepared. *)
Record StreamResponse := {
  sr_status : Z;
  sr_headers : multidict;
  sr_prepared : bool;
  sr_written : list bytes
}.

Definition new_StreamResponse : StreamResponse :=
  {| sr_status := 200; sr_headers := []; sr_prepared := false; sr_written := [] |}.

Inductive response :=
| Response (status : Z) (headers : dict) (body : bytes)
| TextResponse (status : Z) (text : string)
| Streamed (sr : StreamResponse).

(** *** CacheHandler *)

Inductive Connection := Connect (db_path : string).

Record CacheHandler := {
  db_path : string;
  db : option Connection;
  file_cache_mode : string
}.

Definition modes : list string := [EmptyString; "read"; "write"].

Definition __init__ (E : environ) (path : string) : result CacheHandler :=
  let mode := lower (default EmptyString (FILE_CACHE E)) in
  if negb (str_in mode modes) then
    Raise (ValueError ("Invalid FILE_CACHE value: " ++ mode
                       ++ ". Must be '', 'read', or 'write'"))
  else
    Ok {| db_path := path; db := None; file_cache_mode := mode |}.

(** [CREATE TABLE IF NOT EXISTS] keeps the rows of an existing table. *)
Definition _init_database (self : CacheHandler) : M world unit :=
  match db self with
  | None => ret tt
  | Some _ => ret tt
  end.

Definition initialize (self : CacheHandler) : M world CacheHandler :=
  let self' := {| db_path := db_path self;
                  db := Some (Connect (db_path self));
                  file_cache_mode := file_cache_mode self |} in
  _init_database self' ;; ret self'.

Definition request_data (method path : string) (body : bytes)
    (redirect_url : string) : list (string * ustr) :=
  [ ("method", ustr_of_str method);
    ("path", ustr_of_str path);
    ("body", match body with [] => [] | _ => decode_utf8_ignore body end);
    ("redirect_url", ustr_of_str redirect_url) ].

Definition _hash_request (self : CacheHandler) (method path : string)
    (body : bytes) (redirect_url : string) : string * string :=
  let request_str := json_dumps_sort_keys (request_data method path body redirect_url) in
  (Sha256.hexdigest (encode request_str), request_str).

Definition select_by_key (cache_key : string) (t : list row) : option row :=
  List.find (fun r => String.eqb (r_key r) cache_key) t.

Definition _get_cached_response (self : CacheHandler) (cache_key : string)
    : M world (option (Z * dict * bytes)) :=
  match db self with
  | None => ret None
  | Some _ =>
      log (EvSelect cache_key) ;;
      let* w := get_state in
      match select_by_key cache_key (cache_table w) with
      | Some r =>
          match json_loads (r_headers r) with
          | Some hd => ret (Some (r_status_code r, hd, r_body r))
          | None => raise (JSONDecodeError (r_headers r))
          end
      | None => ret None
      end
  end.

(** [INSERT OR REPLACE]: the rows that hold the key go, the new row is
    added. *)
Definition insert_or_replace (r : row) (t : list row) : list row :=
  List.filter (fun r' => negb (String.eqb (r_key r') (r_key r))) t ++ [r].

Definition _save_response (E : environ) (self : CacheHandler) (cache_key : string)
    (status_code : Z) (headers : dict) (body : bytes) : M world unit :=
  match db self with
  | None => ret tt
  | Some _ =>
      let headers_json := json_dumps headers in
      log (EvInsertOrReplace cache_key) ;;
      modify (fun w =>
        set_table (insert_or_replace
                     (Row cache_key status_code headers_json body (time_time E))
                     (cache_table w)) w)
  end.

Definition _get_file_cache_path (self : CacheHandler) (cache_key : string) : string :=
  FILE_CACHE_DIR ++ "/" ++ cache_key ++ ".json".

(** The body of the [try] in [_get_file_cached_response]. *)
Definition load_snapshot (c : file_content) : result (Z * dict * bytes) :=
  match c with
  | Garbled text => Raise (JSONDecodeError text)
  | Document doc =>
      match snap_status_code doc with
      | None => Raise (KeyError "status_code")
      | Some status_code =>
          match snap_headers doc with
          | None => Raise (KeyError "headers")
          | Some headers =>
              match snap_body doc with
              | None => Raise (KeyError "body")
              | Some b64 =>
                  match b64decode b64 with
                  | inl msg => Raise (ValueError msg)
                  | inr body => Ok (status_code, headers, body)
                  end
              end
          end
      end
  end.

(** [except (json.JSONDecodeError, KeyError, ValueError)] *)
Definition read_error (e : exn) : bool :=
  match e with
  | JSONDecodeError _ | KeyError _ | ValueError _ => true
  | _ => false
  end.

Definition _get_file_cached_response (self : CacheHandler) (cache_key : string)
    : M world (option (Z * dict * bytes)) :=
  let file_path := _get_file_cache_path self cache_key in
  log (EvFileRead file_path) ;;
  let* w := get_state in
  match files w !! file_path with
  | None => ret None
  | Some c =>
      match load_snapshot c with
      | Ok t => ret (Some t)
      | Raise e =>
          if read_error e then
            print (ErrorReading file_path e) ;;
            ret None
          else raise e
      end
  end.

(** The [mkdir] before the [try] finds the directory that [__init__] made
    and is taken to succeed.  Inside the [try], [open] creates or empties
    the file before [json.dump] writes to it: a failure of [open] leaves
    the files as they were, a later failure leaves the part of the document
    that was written; either way the exception is caught and printed. *)
Definition _save_file_cached_response (E : environ) (self : CacheHandler)
    (cache_key : string) (status_code : Z) (headers : dict) (body : bytes)
    : M world unit :=
  let file_path := _get_file_cache_path self cache_key in
  let cache_data :=
    {| snap_status_code := Some status_code;
       snap_headers := Some headers;
       snap_body := Some (b64encode body);
       snap_timestamp := Some (time_time E) |} in
  log (EvFileWrite file_path) ;;
  match write_fault E file_path with
  | Some (OpenFails e) => print (ErrorWriting file_path e)
  | Some (WriteFails e written) =>
      modify (set_file file_path (Garbled written)) ;;
      print (ErrorWriting file_path e)
  | None =>
      modify (set_file file_path (Document cache_data))
  end.

Definition hop_headers : list string := ["host"; "x-cache-redirect-to"].

Definition framing_headers : list string :=
  ["transfer-encoding"; "content-length"; "content-encoding"].

(** [{k: v for k, v in items if k.lower() not in names}] *)
Definition without (names : list string) (items : list (string * string)) : dict :=
  dict_of_items (List.filter (fun kv => negb (str_in (lower kv.1) names)) items).

Definition set_status (sr : StreamResponse) (status : Z) : StreamResponse :=
  {| sr_status := status; sr_headers := sr_headers sr;
     sr_prepared := sr_prepared sr; sr_written := sr_written sr |}.

Definition set_header (sr : StreamResponse) (kv : string * string) : StreamResponse :=
  {| sr_status := sr_status sr; sr_headers := ci_set (sr_headers sr) kv.1 kv.2;
     sr_prepared := sr_prepared sr; sr_written := sr_written sr |}.

(** [prepare] sends the status line and the headers; what aiohttp adds of
    its own for the hop to the caller is not modelled. *)
Definition prepare (sr : StreamResponse) : StreamResponse :=
  {| sr_status := sr_status sr; sr_headers := sr_headers sr;
     sr_prepared := true; sr_written := sr_written sr |}.

Definition write (sr : StreamResponse) (chunk : bytes) : StreamResponse :=
  {| sr_status := sr_status sr; sr_headers := sr_headers sr;
     sr_prepared := sr_prepared sr; sr_written := (sr_written sr ++ [chunk])%list |}.

(** The stream response is an object the caller created and the forwarder
    fills in: the filled-in object is returned next to the result. *)
Definition _forward_request (E : environ) (self : CacheHandler)
    (method path : string) (headers : dict) (body : bytes) (redirect_url : string)
    (stream_response : StreamResponse) (request : Request)
    : M world ((Z * dict * bytes) * StreamResponse) :=
  let url := rstrip_slash redirect_url ++ path in
  let forward_headers := without hop_headers headers in
  let req := UpstreamRequest method url forward_headers body in
  let* w := get_state in
  log (EvUpstream req) ;;
  match upstream E (upstream_calls (trace w)) req with
  | UpFailure e => raise e
  | UpResponse status response_headers chunks =>
      let sr1 := set_status stream_response status in
      let clean_headers := without framing_headers response_headers in
      let sr2 := fold_left set_header clean_headers sr1 in
      let sr3 := prepare sr2 in
      let sr4 := fold_left write chunks sr3 in
      ret ((status, dict_of_multidict response_headers, concat chunks), sr4)
  end.

(** The reply on a hit; the handler has this code twice, once per store. *)
Definition replay (db_cached : Z * dict * bytes) : response :=
  let '(status_code, headers, response_body) := db_cached in
  let clean_headers := without framing_headers headers in
  let clean_headers :=
    dict_set clean_headers "Content-Length" (str_of_nat (length response_body)) in
  Response status_code clean_headers response_body.

Definition miss_message (cache_key cache_key_str : string) : string :=
  "Cache miss in read mode for key: " ++ cache_key
    ++ String newline (String newline cache_key_str).

Definition append_github_output (E : environ) (message : string) : M world unit :=
  match GITHUB_OUTPUT E with
  | None | Some EmptyString => ret tt
  | Some _ =>
      modify (add_github_line (message ++ String newline EmptyString))
  end.

Definition is_2xx (status_code : Z) : bool :=
  ((200 <=? status_code) && (status_code <? 300))%Z.

Definition handle_request (E : environ) (self : CacheHandler) (request : Request)
    : M world response :=
  match ci_get (req_headers request) "X-Cache-Redirect-To" with
  | None | Some EmptyString =>
      ret (TextResponse 400 "Missing X-Cache-Redirect-To header")
  | Some redirect_url =>
      let body := req_body request in
      log (EvHash (method request) (path_qs request) body redirect_url) ;;
      let '(cache_key, cache_key_str) :=
        _hash_request self (method request) (path_qs request) body redirect_url in
      if String.eqb (file_cache_mode self) "read" then
        let* db_cached := _get_file_cached_response self cache_key in
        match db_cached with
        | Some hit => ret (replay hit)
        | None =>
            let message := miss_message cache_key cache_key_str in
            append_github_output E message ;;
            raise (RuntimeError message)
        end
      else
        let* db_cached := _get_cached_response self cache_key in
        match db_cached with
        | Some hit => ret (replay hit)
        | None =>
            let stream_response := new_StreamResponse in
            let* ((status_code, headers, response_body), stream_response) :=
              _forward_request E self (method request) (path_qs request)
                (dict_of_multidict (req_headers request)) body redirect_url
                stream_response request in
            (if is_2xx status_code then
               _save_response E self cache_key status_code headers response_body ;;
               if String.eqb (file_cache_mode self) "write" then
                 _save_file_cached_response E self cache_key status_code headers
                   response_body
               else ret tt
             else ret tt) ;;
            ret (Streamed stream_response)
        end
  end.

(** [create_cache_app]: the handler the server runs is constructed and then
    initialized. *)
Definition create_cache_app (E : environ) (cache_db : string)
    : M world CacheHandler :=
  match __init__ E cache_db with
  | Raise e => raise e
  | Ok cache_handler => initialize cache_handler
  end.

(** *** RequestCache and the client hook *)

(** [client._custom_headers] is any mapping; only a [dict] can be written. *)
Inductive mapping :=
| PlainDict (d : dict)
| OtherMapping (d : dict).

Definition mapping_contains (m : mapping) (k : string) : bool :=
  match m with PlainDict d | OtherMapping d => dict_contains d k end.

Record AsyncOpenAI := {
  base_url : string;
  _custom_headers : mapping
}.

Record RequestCache := {
  __port : option N;
  __cache_db : string
}.

(** A process started with [multiprocessing.Process(target=cache_server)]. *)
Record process := {
  proc_port : N;
  proc_cache_db : string;
  proc_daemon : bool
}.

(** The objects the hook works on: the [RequestCache] itself, the client it
    is given, and the processes started so far. *)
Record hook_state := HookState {
  rc : RequestCache;
  client : AsyncOpenAI;
  processes : list process
}.

(** The port the system hands out for a bind to port 0, and whether a
    server on a port accepts a connection before the wait gives up. *)
Record hook_env := {
  free_port : N;
  server_ready : N -> bool
}.

Definition _wait_for_server (H : hook_env) (port : N) : M hook_state unit :=
  if server_ready H port then ret tt
  else raise (TimeoutError ("Server did not start on port " ++ str_of_N port
                            ++ " within 5.0 seconds")).

Definition __start_idempotently (H : hook_env) : M hook_state unit :=
  let* s := get_state in
  match __port (rc s) with
  | Some _ => ret tt
  | None =>
      let port := free_port H in
      modify (fun s =>
        HookState {| __port := Some port; __cache_db := __cache_db (rc s) |}
                  (client s)
                  (processes s ++ [ {| proc_port := port;
                                      proc_cache_db := __cache_db (rc s);
                                      proc_daemon := true |} ])) ;;
      _wait_for_server H port
  end.

Definition proxy_url (port : N) : string :=
  "http://localhost:" ++ str_of_N port ++ "/".

Definition hook_openai (H : hook_env) : M hook_state unit :=
  __start_idempotently H ;;
  let* s := get_state in
  match __port (rc s) with
  | None => raise (AssertionError "Server start should've set port number")
  | Some port =>
      let c := client s in
      if mapping_contains (_custom_headers c) REDIRECT_HEADER then
        if String.eqb (base_url c) (proxy_url port) then ret tt
        else raise (AssertionError EmptyString)
      else
        match _custom_headers c with
        | OtherMapping _ => raise (AssertionError "Generic mappings not supported")
        | PlainDict d =>
            modify (fun s =>
              HookState (rc s)
                {| base_url := proxy_url port;
                   _custom_headers := PlainDict (dict_set d REDIRECT_HEADER (base_url c)) |}
                (processes s))
        end
  end.

(** *** Vocabulary of the statements *)

(** The upstream target a request names, when it names one: the branch
    [if not redirect_url] treats an empty value like an absent header. *)
Definition routing_header (request : Request) : option string :=
  match ci_get (req_headers request) "X-Cache-Redirect-To" with
  | None | Some EmptyString => None
  | Some redirect_url => Some redirect_url
  end.

Definition cache_key_of (self : CacheHandler) (request : Request)
    (redirect_url : string) : string :=
  (_hash_request self (method request) (path_qs request) (req_body request)
     redirect_url).1.

(** The request that goes upstream on a miss. *)
Definition forwarded_request (request : Request) (redirect_url : string)
    : upstream_request :=
  UpstreamRequest (method request) (rstrip_slash redirect_url ++ path_qs request)
    (without hop_headers (dict_of_multidict (req_headers request)))
    (req_body request).

(** The entry the store of the current mode holds for a key: the snapshot
    file in read-only mode, the row of the table otherwise. *)
Definition stored_entry (self : CacheHandler) (cache_key : string) (w : world)
    : option (Z * dict * bytes) :=
  if String.eqb (file_cache_mode self) "read" then
    match files w !! _get_file_cache_path self cache_key with
    | Some c => match load_snapshot c with Ok t => Some t | Raise _ => None end
    | None => None
    end
  else
    match db self, select_by_key cache_key (cache_table w) with
    | Some _, Some r =>
        match json_loads (r_headers r) with
        | Some hd => Some (r_status_code r, hd, r_body r)
        | None => None
        end
    | _, _ => None
    end.

(** The events a request adds to the trace. *)
Definition new_events (w w' : world) : list event :=
  drop (length (trace w)) (trace w').

Definition is_store_or_upstream (ev : event) : bool :=
  match ev with
  | EvSelect _ | EvInsertOrReplace _ | EvUpstream _ => true
  | EvHash _ _ _ _ | EvFileRead _ | EvFileWrite _ => false
  end.

Definition is_framing (name : string) : bool := str_in (lower name) framing_headers.

(** A sequence of [put] calls on the persistent store. *)
Definition put_args : Type := string * Z * dict * bytes.

Definition put_key (p : put_args) : string := p.1.1.1.

Definition put_row (E : environ) (p : put_args) : row :=
  let '(cache_key, status_code, headers, body) := p in
  Row cache_key status_code (json_dumps headers) body (time_time E).

Fixpoint put_all (E : environ) (self : CacheHandler) (ps : list put_args)
    : M world unit :=
  match ps with
  | [] => ret tt
  | (cache_key, status_code, headers, body) :: r =>
      _save_response E self cache_key status_code headers body ;;
      put_all E self r
  end.

Definition rows_with_key (cache_key : string) (t : list row) : list row :=
  List.filter (fun r => String.eqb (r_key r) cache_key) t.

(** The stream response the caller holds after a forward: the upstream
    status, the upstream headers without the framing ones, every chunk. *)
Definition relayed (status : Z) (response_headers : multidict)
    (chunks : list bytes) : StreamResponse :=
  fold_left write chunks
    (prepare (fold_left set_header (without framing_headers response_headers)
                (set_status new_StreamResponse status))).

(** The row and the snapshot that a forward writes for a response. *)
Definition row_of (E : environ) (cache_key : string) (status : Z)
    (response_headers : multidict) (chunks : list bytes) : row :=
  Row cache_key status (json_dumps (dict_of_multidict response_headers))
      (concat chunks) (time_time E).

Definition snapshot_of (E : environ) (status : Z) (response_headers : multidict)
    (chunks : list bytes) : file_content :=
  Document {| snap_status_code := Some status;
              snap_headers := Some (dict_of_multidict response_headers);
              snap_body := Some (b64encode (concat chunks));
              snap_timestamp := Some (time_time E) |}.

(** The world after the attempt to write a snapshot file. *)
Definition after_file_write (E : environ) (file_path : string) (c : file_content)
    (w : world) : world :=
  match write_fault E file_path with
  | Some (OpenFails e) =>
      add_line (ErrorWriting file_path e) (add_event (EvFileWrite file_path) w)
  | Some (WriteFails e written) =>
      add_line (ErrorWriting file_path e)
        (set_file file_path (Garbled written)
           (add_event (EvFileWrite file_path) w))
  | None => set_file file_path c (add_event (EvFileWrite file_path) w)
  end.

(** The world after a miss in standard mode was forwarded and answered. *)
Definition after_forward (E : environ) (self : CacheHandler) (request : Request)
    (redirect_url : string) (status : Z) (response_headers : multidict)
    (chunks : list bytes) (w : world) : world :=
  let cache_key := cache_key_of self request redirect_url in
  let w1 :=
    add_event (EvUpstream (forwarded_request request redirect_url))
      (add_event (EvSelect cache_key)
         (add_event (EvHash (method request) (path_qs request) (req_body request)
                            redirect_url) w)) in
  if is_2xx status then
    let w2 :=
      set_table (insert_or_replace
                   (row_of E cache_key status response_headers chunks)
                   (cache_table w1))
                (add_event (EvInsertOrReplace cache_key) w1) in
    if String.eqb (file_cache_mode self) "write" then
      after_file_write E (_get_file_cache_path self cache_key)
        (snapshot_of E status response_headers chunks) w2
    else w2
  else w1.

(** The world after a miss in read-only mode was reported. *)
Definition after_miss_report (E : environ) (message : string) (w : world) : world :=
  match GITHUB_OUTPUT E with
  | None | Some EmptyString => w
  | Some _ => add_github_line (message ++ String newline EmptyString) w
  end.

(** The headers of a reply built from a stored entry. *)
Definition replay_headers (headers : dict) (response_body : bytes) : dict :=
  dict_set (without framing_headers headers) "Content-Length"
           (str_of_nat (length response_body)).

End Cache.

(** ** Sample data

    The scenario of the design document: [POST /v1/thing] with the body
    [{"a":1}], routed to a stub upstream that answers 200 with the body
    [{"ok":true}]. *)

Module Demo.
Import Py Cache.

Definition q : string := String dquote EmptyString.

Definition body_a1 : bytes := encode ("{" ++ q ++ "a" ++ q ++ ":1}").
Definition body_ok : bytes := encode ("{" ++ q ++ "ok" ++ q ++ ":true}").

Definition request : Request :=
  {| method := "POST";
     path_qs := "/v1/thing";
     req_headers := [ ("Host", "localhost:40123");
                      ("X-Cache-Redirect-To", "http://stub/");
                      ("Content-Type", "application/json") ];
     req_body := body_a1 |}.

Definition bare_request : Request :=
  {| method := "POST";
     path_qs := "/v1/thing";
     req_headers := [ ("Host", "localhost:40123");
                      ("Content-Type", "application/json") ];
     req_body := body_a1 |}.

Definition upstream_headers : multidict :=
  [ ("Content-Type", "application/json"); ("Content-Length", "11") ].

Definition stub (status : Z) : nat -> upstream_request -> upstream_outcome :=
  fun _ _ => UpResponse status upstream_headers [body_ok].

Definition env (toggle : option string) (status : Z) : environ :=
  {| FILE_CACHE := toggle;
     GITHUB_OUTPUT := None;
     upstream := stub status;
     time_time := 1762128000;
     write_fault := fun _ => None |}.

(** The same surroundings with a snapshot directory that cannot be
    written. *)
Definition env_read_only_disk : environ :=
  {| FILE_CACHE := Some "write";
     GITHUB_OUTPUT := None;
     upstream := stub 200;
     time_time := 1762128000;
     write_fault :=
       fun _ => Some (OpenFails (OSError "[Errno 30] Read-only file system")) |}.

Definition handler (mode : string) : CacheHandler :=
  {| db_path := "cache.sqlite";
     db := Some (Connect "cache.sqlite");
     file_cache_mode := mode |}.

Definition empty_world : world := World [] ∅ [] [] [].

Definition stored_headers : dict :=
  [ ("Content-Type", "application/json"); ("Content-Length", "999");
    ("Transfer-Encoding", "chunked") ].

Definition cache_key : string :=
  "09646c917915acbb1188d506d1b07c8e3cd5c0f7f420e37d687453626aa314d9".

(** A world whose table holds an entry for [request]. *)
Definition warm_world : world :=
  World [Row cache_key 200
             (json_dumps stored_headers) body_ok 1762128000]
        ∅ [] [] [].

Definition client : AsyncOpenAI :=
  {| base_url := "https://api.openai.com/v1/";
     _custom_headers := PlainDict [("X-Title", "agentica")] |}.

Definition hook_start : hook_state :=
  HookState {| __port := None; __cache_db := "cache.sqlite" |} client [].

Definition hook_surroundings : hook_env :=
  {| free_port := 40123%N; server_ready := fun _ => true |}.

(** The fields of the canonical record of [request], inserted in another
    order. *)
Definition swapped_fields : list (string * ustr) :=
  [ ("redirect_url", ustr_of_str "http://stub/");
    ("body", decode_utf8_ignore Demo.body_a1);
    ("path", ustr_of_str "/v1/thing");
    ("method", ustr_of_str "POST") ].

End Demo.

(** ** The paths of a request

    Every way [handle_request] can go, with the world it leaves and what it
    returns or raises. *)

Module Paths.
Import Py Cache.

Definition hashed (request : Request) (redirect_url : string) (w : world) : world :=
  add_event (EvHash (method request) (path_qs request) (req_body request)
                    redirect_url) w.

(** The world after the lookup of standard mode: a handler without a
    connection does not read the table. *)
Definition looked_up (self : CacheHandler) (request : Request)
    (redirect_url : string) (w : world) : world :=
  match db self with
  | Some _ =>
      add_event (EvSelect (cache_key_of self request redirect_url))
                (hashed request redirect_url w)
  | None => hashed request redirect_url w
  end.

(** The world after [_save_response]: nothing without a connection. *)
Definition after_save (E : environ) (self : CacheHandler) (r : row) (w : world)
    : world :=
  match db self with
  | Some _ =>
      set_table (insert_or_replace r (cache_table w))
                (add_event (EvInsertOrReplace (r_key r)) w)
  | None => w
  end.

(** The world after a forward that the upstream answered. *)
Definition after_response (E : environ) (self : CacheHandler) (request : Request)
    (redirect_url : string) (status : Z) (response_headers : multidict)
    (chunks : list bytes) (w : world) : world :=
  let cache_key := cache_key_of self request redirect_url in
  let w1 :=
    add_event (EvUpstream (forwarded_request request redirect_url))
              (looked_up self request redirect_url w) in
  if is_2xx status then
    let w2 := after_save E self (row_of E cache_key status response_headers chunks) w1 in
    if String.eqb (file_cache_mode self) "write" then
      after_file_write E (_get_file_cache_path self cache_key)
        (snapshot_of E status response_headers chunks) w2
    else w2
  else w1.

(** A request in standard mode goes upstream when the handler has no
    connection or the table has no row for the key. *)
Definition is_miss (self : CacheHandler) (cache_key : string) (w : world) : Prop :=
  db self = None \/ select_by_key cache_key (cache_table w) = None.

Inductive handled (E : environ) (self : CacheHandler) (request : Request)
    (w : world) : world -> result response -> Prop :=
| Handled_no_route :
    routing_header request = None ->
    handled E self request w w
      (Ok (TextResponse 400 "Missing X-Cache-Redirect-To header"))
| Handled_read_only (redirect_url : string) (w' : world) :
    file_cache_mode self = "read" ->
    routing_header request = Some redirect_url ->
    cache_table w' = cache_table w ->
    files w' = files w ->
    trace w'
      = trace (add_event (EvFileRead (_get_file_cache_path self
                                        (cache_key_of self request redirect_url)))
                         (hashed request redirect_url w)) ->
    handled E self request w w'
      (match stored_entry self (cache_key_of self request redirect_url) w with
       | Some hit => Ok (replay hit)
       | None =>
           Raise (RuntimeError
                    (miss_message (cache_key_of self request redirect_url)
                       (_hash_request self (method request) (path_qs request)
                          (req_body request) redirect_url).2))
       end)
| Handled_hit (redirect_url : string) (hit : Z * dict * bytes) :
    file_cache_mode self <> "read" ->
    routing_header request = Some redirect_url ->
    stored_entry self (cache_key_of self request redirect_url) w = Some hit ->
    handled E self request w (looked_up self request redirect_url w)
      (Ok (replay hit))
| Handled_bad_row (redirect_url : string) (r : row) :
    file_cache_mode self <> "read" ->
    routing_header request = Some redirect_url ->
    db self <> None ->
    select_by_key (cache_key_of self request redirect_url) (cache_table w) = Some r ->
    json_loads (r_headers r) = None ->
    handled E self request w (looked_up self request redirect_url w)
      (Raise (JSONDecodeError (r_headers r)))
| Handled_upstream_failure (redirect_url : string) (e : exn) :
    file_cache_mode self <> "read" ->
    routing_header request = Some redirect_url ->
    is_miss self (cache_key_of self request redirect_url) w ->
    upstream E (upstream_calls (trace w)) (forwarded_request request redirect_url)
      = UpFailure e ->
    handled E self request w
      (add_event (EvUpstream (forwarded_request request redirect_url))
                 (looked_up self request redirect_url w))
      (Raise e)
| Handled_forwarded (redirect_url : string) (status : Z)
    (response_headers : multidict) (chunks : list bytes) :
    file_cache_mode self <> "read" ->
    routing_header request = Some redirect_url ->
    is_miss self (cache_key_of self request redirect_url) w ->
    upstream E (upstream_calls (trace w)) (forwarded_request request redirect_url)
      = UpResponse status response_headers chunks ->
    handled E self request w
      (after_response E self request redirect_url status response_headers chunks w)
      (Ok (Streamed (relayed status response_headers chunks))).

(** The world after a lookup in read-only mode: the snapshot file of the key
    is read, a file that cannot be decoded is reported on the standard
    output, and a miss is reported to the file of [GITHUB_OUTPUT]. *)
Definition after_read (E : environ) (self : CacheHandler) (request : Request)
    (redirect_url : string) (w : world) : world :=
  let cache_key := cache_key_of self request redirect_url in
  let message :=
    miss_message cache_key
      (_hash_request self (method request) (path_qs request) (req_body request)
         redirect_url).2 in
  let file_path := _get_file_cache_path self cache_key in
  let w1 := add_event (EvFileRead file_path) (hashed request redirect_url w) in
  match files w !! file_path with
  | None => after_miss_report E message w1
  | Some c =>
      match load_snapshot c with
      | Ok _ => w1
      | Raise e => after_miss_report E message (add_line (ErrorReading file_path e) w1)
      end
  end.


(** Stores that the lookups can read: one row per key, every row with a
    status in 200..299 and a headers column that is a JSON object of
    strings, every snapshot file decodable with such a status. *)
Definition readable_row (r : row) : Prop :=
  is_2xx (r_status_code r) = true /\ is_Some (json_loads (r_headers r)).

Definition readable_file (c : file_content) : Prop :=
  exists hit, load_snapshot c = Ok hit /\ is_2xx hit.1.1 = true.

Definition sound_stores (w : world) : Prop :=
  NoDup (r_key <$> cache_table w)
  /\ Forall readable_row (cache_table w)
  /\ map_Forall (fun _ c => readable_file c) (files w).


(** The digits [hexdigest] writes. *)
Definition is_hex (c : ascii) : bool :=
  (((48 <=? ord c) && (ord c <=? 57)) || ((97 <=? ord c) && (ord c <=? 102)))%N.

Definition is_snapshot_path (file_path : string) : Prop :=
  exists k, file_path = FILE_CACHE_DIR ++ "/" ++ k ++ ".json"
            /\ String.length k = 64%nat
            /\ Forall (fun c => is_hex c = true) (list_ascii_of_string k).

(** [hook_openai] called with another client on the same [RequestCache], as
    [AgentRuntime.spawn_agent] does for the client of each model. *)
Definition with_client (c : AsyncOpenAI) (s : hook_state) : hook_state :=
  HookState (rc s) c (processes s).

End Paths.

(** ** The values of a byte *)

Module Octets.
Import Py.

Definition values : list N := N.of_nat <$> seq 0 256.

(** A check on every byte, and on every pair of bytes. *)
Definition for_all (P : N -> bool) : bool := forallb P values.

Definition for_all2 (P : N -> N -> bool) : bool :=
  for_all (fun a => for_all (P a)).

(** The characters of a group of four, as the encoder computes them. *)
Definition sextet1 (a : N) : N := N.shiftr a 2.
Definition sextet2 (a b : N) : N := N.land (N.lor (N.shiftl a 4) (N.shiftr b 4)) 63.
Definition sextet3 (b c : N) : N := N.land (N.lor (N.shiftl b 2) (N.shiftr c 6)) 63.
Definition sextet4 (c : N) : N := N.land c 63.

Definition is_data (v : N) : bool :=
  negb (Ascii.eqb (b64_char v) "=")
  && (ord (b64_char v) <? 128)%N
  && match b64_val (b64_char v) with Some v' => (v' =? v)%N | None => false end.

End Octets.

(** ** Reading a JSON string back

    The inside of a string that [json.dumps] wrote, read one code point at
    a time as [json.loads] reads it: an escaped surrogate pair is one code
    point. *)

Module Scan.
Import Py.

(** The code points of text: all but the surrogates. *)
Definition is_scalar (n : N) : bool :=
  ((n <? 55296) || ((57344 <=? n) && (n <? 1114112)))%N.

Definition is_high (v : N) : bool := ((55296 <=? v) && (v <=? 56319))%N.
Definition is_low (v : N) : bool := ((56320 <=? v) && (v <=? 57343))%N.

(** Four hexadecimal digits at the head of a text. *)
Definition hex4_val (s : string) : option (N * string) :=
  match s with
  | String a (String b (String c (String d r))) =>
      match hex_val a, hex_val b, hex_val c, hex_val d with
      | Some x, Some y, Some z, Some t =>
          Some ((((x * 16 + y) * 16 + z) * 16 + t)%N, r)
      | _, _, _, _ => None
      end
  | _ => None
  end.

Definition simple_escape (e : ascii) : option N :=
  if Ascii.eqb e dquote then Some 34%N
  else if Ascii.eqb e backslash then Some 92%N
  else if Ascii.eqb e "/" then Some 47%N
  else if Ascii.eqb e "b" then Some 8%N
  else if Ascii.eqb e "f" then Some 12%N
  else if Ascii.eqb e "n" then Some 10%N
  else if Ascii.eqb e "r" then Some 13%N
  else if Ascii.eqb e "t" then Some 9%N
  else None.

(** The low half of a pair, when the text goes on with one. *)
Definition low_half (s : string) : option (N * string) :=
  match s with
  | String c1 (String c2 r) =>
      if Ascii.eqb c1 backslash && Ascii.eqb c2 "u" then
        match hex4_val r with
        | Some (v, r') => if is_low v then Some (v, r') else None
        | None => None
        end
      else None
  | _ => None
  end.

(** The code point at the head of the inside of a string and the text after
    it; nothing at the closing quote. *)
Definition scan_one (s : string) : option (N * string) :=
  match s with
  | EmptyString => None
  | String c r =>
      if Ascii.eqb c dquote then None
      else if Ascii.eqb c backslash then
        match r with
        | EmptyString => None
        | String e r1 =>
            if Ascii.eqb e "u" then
              match hex4_val r1 with
              | None => None
              | Some (v, r2) =>
                  if is_high v then
                    match low_half r2 with
                    | Some (v2, r3) =>
                        Some ((65536 + (v - 55296) * 1024 + (v2 - 56320))%N, r3)
                    | None => Some (v, r2)
                    end
                  else Some (v, r2)
              end
            else
              match simple_escape e with
              | Some n => Some (n, r1)
              | None => None
              end
        end
      else Some (ord c, r)
  end.

(** A check on every number below a bound. *)
Definition all_below (k : nat) (P : N -> bool) : bool :=
  forallb P (N.of_nat <$> seq 0 k).

End Scan.

(** ** More sample data *)

Module Samples.
Import Py Cache.

(** A handler that was constructed and never initialized. *)
Definition detached : CacheHandler :=
  {| db_path := "cache.sqlite"; db := None; file_cache_mode := EmptyString |}.

(** Surroundings whose upstream cannot be reached. *)
Definition env_down : environ :=
  {| FILE_CACHE := None;
     GITHUB_OUTPUT := None;
     upstream := fun _ _ => UpFailure (ClientError "Cannot connect to host stub:80");
     time_time := 1762128600;
     write_fault := fun _ => None |}.

(** A world whose table holds a row of another request. *)
Definition other_world : world :=
  World [Row "k1" 201 (json_dumps Demo.stored_headers) Demo.body_a1 1762127000]
        ∅ [] [] [].

(** A world whose snapshot of [Demo.request] is not JSON. *)
Definition garbled_world : world :=
  World [] {[ _get_file_cache_path (Demo.handler "read") Demo.cache_key
              := Garbled "<html>" ]} [] [] [].

(** Surroundings of a run under GitHub Actions. *)
Definition env_actions : environ :=
  {| FILE_CACHE := Some "read";
     GITHUB_OUTPUT := Some "/home/runner/work/_temp/_runner_file_commands/set_output";
     upstream := Demo.stub 200;
     time_time := 1762128900;
     write_fault := fun _ => None |}.




(** Surroundings in which the proxy does not come up. *)
Definition proxy_down : hook_env :=
  {| free_port := 40777%N; server_ready := fun _ => false |}.

Definition other_client : AsyncOpenAI :=
  {| base_url := "https://openrouter.ai/api/v1";
     _custom_headers := PlainDict [] |}.

End Samples.

(** * Properties *)

Import Py Cache.

(** ** Strings and dicts *)

Lemma str_in_spec (s : string) (l : list string) : str_in s l = true <-> In s l.
Proof.
  unfold str_in. rewrite existsb_exists. split.
  - intros (x & Hin & Heq). apply String.eqb_eq in Heq. by subst.
  - intros Hin. exists s. split; [done | apply String.eqb_refl].
Qed.

Lemma ci_get_None (md : multidict) (k : string) :
  Forall (fun kv => lower kv.1 <> lower k) md -> ci_get md k = None.
Proof.
  induction 1 as [| [k' v] r Hne _ IH]; [done |].
  simpl in *. by apply String.eqb_neq in Hne as ->.
Qed.

(** A [dict_set] adds or replaces one item and nothing else. *)
Lemma dict_set_In (d : dict) (k v : string) (kv : string * string) :
  In kv (dict_set d k v) -> In kv d \/ kv = (k, v).
Proof.
  induction d as [| [k' v'] r IH]; simpl.
  - intuition.
  - destruct (k' =? k) eqn:Heq; simpl.
    + apply String.eqb_eq in Heq as ->. intuition.
    + intuition.
Qed.

Lemma dict_get_set (d : dict) (k v k' : string) :
  dict_get (dict_set d k v) k' = if String.eqb k k' then Some v else dict_get d k'.
Proof.
  induction d as [| [k0 v0] r IH]; simpl.
  - by destruct (k =? k').
  - destruct (k0 =? k) eqn:Heq; simpl.
    + apply String.eqb_eq in Heq as ->. by destruct (k =? k').
    + rewrite IH. destruct (k0 =? k') eqn:Heq'; [| done].
      apply String.eqb_eq in Heq' as ->. by rewrite String.eqb_sym, Heq.
Qed.

Lemma dict_set_fresh (d : dict) (k v : string) :
  k ∉ d.*1 -> dict_set d k v = (d ++ [(k, v)])%list.
Proof.
  induction d as [| [k' v'] r IH]; simpl; [done |].
  rewrite not_elem_of_cons. intros [Hne Hr].
  assert ((k' =? k) = false) as -> by (apply String.eqb_neq; congruence).
  by rewrite IH.
Qed.

Lemma fold_dict_set_fresh (l d : list (string * string)) :
  NoDup ((d ++ l)%list).*1 ->
  fold_left (fun d kv => dict_set d kv.1 kv.2) l d = (d ++ l)%list.
Proof.
  revert d. induction l as [| [k v] r IH]; intros d Hnd; simpl.
  - by rewrite app_nil_r.
  - rewrite dict_set_fresh.
    + rewrite IH; rewrite <- app_assoc; done.
    + rewrite fmap_app in Hnd. apply NoDup_app in Hnd as (_ & Hdis & _).
      intros Hin. apply (Hdis _ Hin). simpl. left.
Qed.

(** A list of items with distinct keys is the dict of its items. *)
Lemma dict_of_items_NoDup (l : list (string * string)) :
  NoDup l.*1 -> dict_of_items l = l.
Proof. intros Hnd. unfold dict_of_items. by rewrite fold_dict_set_fresh. Qed.

Lemma fold_dict_set_In (l d : list (string * string)) (kv : string * string) :
  In kv (fold_left (fun d kv => dict_set d kv.1 kv.2) l d) -> In kv d \/ In kv l.
Proof.
  revert d. induction l as [| [k v] r IH]; intros d; simpl; [auto |].
  intros Hin. apply IH in Hin as [Hin | Hin]; [| auto].
  apply dict_set_In in Hin as [Hin | ->]; auto.
Qed.

Lemma dict_of_items_In (l : list (string * string)) (kv : string * string) :
  In kv (dict_of_items l) -> In kv l.
Proof. intros Hin. by apply fold_dict_set_In in Hin as [[] | Hin]. Qed.

Lemma dict_set_keys (d : dict) (k v : string) :
  NoDup d.*1 -> NoDup (dict_set d k v).*1.
Proof.
  induction d as [| [k' v'] r IH]; simpl; intros Hnd.
  - apply NoDup_singleton.
  - destruct (k' =? k) eqn:Heq; simpl; [done |].
    apply NoDup_cons in Hnd as [Hnotin Hr].
    apply NoDup_cons. split; [| by apply IH].
    intros Hin. apply list_elem_of_fmap in Hin as ([k0 v0] & -> & Hin).
    apply list_elem_of_In, dict_set_In in Hin as [Hin | [= -> ->]].
    + apply Hnotin. apply list_elem_of_fmap. exists (k0, v0).
      split; [done | by apply list_elem_of_In].
    + simpl in Heq. by rewrite String.eqb_refl in Heq.
Qed.

Lemma fold_dict_set_keys {A} (f : A -> string * string) (l : list A) (d : dict) :
  NoDup d.*1 ->
  NoDup (fold_left (fun d a => dict_set d (f a).1 (f a).2) l d).*1.
Proof.
  revert d. induction l as [| a r IH]; intros d Hnd; simpl; [done |].
  by apply IH, dict_set_keys.
Qed.

(** The dict made from a multidict has each name once. *)
Lemma dict_of_multidict_NoDup (md : multidict) : NoDup (dict_of_multidict md).*1.
Proof.
  unfold dict_of_multidict.
  apply (fold_dict_set_keys
           (fun kv => (kv.1, default EmptyString (ci_get md kv.1)))).
  constructor.
Qed.

Lemma without_In (names : list string) (items : list (string * string))
    (kv : string * string) :
  In kv (without names items) ->
  In kv items /\ str_in (lower kv.1) names = false.
Proof.
  unfold without. intros Hin%dict_of_items_In%filter_In.
  destruct Hin as [Hin Hf]. split; [done |]. by apply negb_true_iff.
Qed.

Lemma without_NoDup (names : list string) (d : dict) :
  NoDup d.*1 ->
  without names d = List.filter (fun kv => negb (str_in (lower kv.1) names)) d.
Proof.
  intros Hnd. unfold without. apply dict_of_items_NoDup.
  induction d as [| [k v] r IH]; simpl; [constructor |].
  apply NoDup_cons in Hnd as [Hnotin Hr].
  destruct (negb _); simpl; [| by apply IH].
  apply NoDup_cons. split; [| by apply IH].
  intros Hin. apply Hnotin.
  apply list_elem_of_fmap in Hin as (kv & -> & Hin).
  apply list_elem_of_fmap. exists kv. split; [done |].
  apply list_elem_of_In. apply list_elem_of_In, filter_In in Hin. tauto.
Qed.

Lemma ci_remove_In (md : multidict) (k : string) (kv : string * string) :
  In kv (ci_remove md k) -> In kv md.
Proof.
  induction md as [| [k' v'] r IH]; simpl; [done |].
  destruct (lower k' =? lower k); simpl; intuition.
Qed.

Lemma ci_set_In (md : multidict) (k v : string) (kv : string * string) :
  In kv (ci_set md k v) -> In kv md \/ kv = (k, v).
Proof.
  induction md as [| [k' v'] r IH]; simpl.
  - intuition.
  - destruct (lower k' =? lower k); simpl.
    + intros [<- | Hin%ci_remove_In]; auto.
    + intuition.
Qed.

(** ** [json.loads] reads back what [json.dumps] writes *)

Lemma str_app_cons (c : ascii) (s t : string) : String c s ++ t = String c (s ++ t).
Proof. reflexivity. Qed.

Lemma str_app_nil_l (t : string) : EmptyString ++ t = t.
Proof. reflexivity. Qed.

Lemma str_app_nil_r (s : string) : s ++ EmptyString = s.
Proof. induction s as [| c s IH]; [done |]. by rewrite str_app_cons, IH. Qed.

Lemma str_app_assoc (s t u : string) : (s ++ t) ++ u = s ++ (t ++ u).
Proof. induction s as [| c s IH]; [done |]. by rewrite !str_app_cons, IH. Qed.

Ltac str_norm :=
  repeat (rewrite str_app_assoc || rewrite str_app_cons || rewrite str_app_nil_l).

Lemma jrun_app (st : jstate) (s1 s2 : string) :
  jrun st (s1 ++ s2)
    = match jrun st s1 with Some st' => jrun st' s2 | None => None end.
Proof.
  revert st. induction s1 as [| c s1 IH]; intros st; [done |].
  rewrite str_app_cons. simpl. destruct (jstep st c); [apply IH | done].
Qed.

(** One escaped character is read back as that character, in a key and in
    a value. *)
Lemma jrun_escape_key (d : dict) (acc : string) (c : ascii) :
  jrun (JKeyStr d acc ENone) (json_escape (ord c))
    = Some (JKeyStr d (snoc acc c) ENone).
Proof. destruct c as [[] [] [] [] [] [] [] []]; vm_compute; reflexivity. Qed.

Lemma jrun_escape_val (d : dict) (k acc : string) (c : ascii) :
  jrun (JValStr d k acc ENone) (json_escape (ord c))
    = Some (JValStr d k (snoc acc c) ENone).
Proof. destruct c as [[] [] [] [] [] [] [] []]; vm_compute; reflexivity. Qed.

Lemma snoc_app (acc : string) (c : ascii) (s : string) :
  snoc acc c ++ s = acc ++ String c s.
Proof. unfold snoc. by rewrite str_app_assoc. Qed.

Lemma jrun_escape_all_key (d : dict) (s acc rest : string) :
  jrun (JKeyStr d acc ENone) (json_escape_all (ustr_of_str s) ++ rest)
    = jrun (JKeyStr d (acc ++ s) ENone) rest.
Proof.
  revert acc. induction s as [| c s IH]; intros acc.
  - by rewrite str_app_nil_r.
  - change (json_escape_all (ustr_of_str (String c s)))
      with (json_escape (ord c) ++ json_escape_all (ustr_of_str s)).
    by rewrite str_app_assoc, jrun_app, jrun_escape_key, IH, snoc_app.
Qed.

Lemma jrun_escape_all_val (d : dict) (k s acc rest : string) :
  jrun (JValStr d k acc ENone) (json_escape_all (ustr_of_str s) ++ rest)
    = jrun (JValStr d k (acc ++ s) ENone) rest.
Proof.
  revert acc. induction s as [| c s IH]; intros acc.
  - by rewrite str_app_nil_r.
  - change (json_escape_all (ustr_of_str (String c s)))
      with (json_escape (ord c) ++ json_escape_all (ustr_of_str s)).
    by rewrite str_app_assoc, jrun_app, jrun_escape_val, IH, snoc_app.
Qed.

(** A member, once its opening quote is read. *)
Lemma jrun_member (d : dict) (k v rest : string) :
  jrun (JKeyStr d EmptyString ENone)
       (json_escape_all (ustr_of_str k)
        ++ String dquote (": " ++ json_str (ustr_of_str v) ++ rest))
    = jrun (JAfterValue (dict_set d k v)) rest.
Proof.
  rewrite jrun_escape_all_key, str_app_nil_l.
  unfold json_str. str_norm.
  change (jrun (JValStr d k EmptyString ENone)
            (json_escape_all (ustr_of_str v) ++ String dquote rest)
          = jrun (JAfterValue (dict_set d k v)) rest).
  by rewrite jrun_escape_all_val, str_app_nil_l.
Qed.

Lemma members_str_cons (kv kv' : string * string) (r : list (string * string)) :
  members_str (kv :: kv' :: r)
    = json_member (kv.1, ustr_of_str kv.2) ++ ", " ++ members_str (kv' :: r).
Proof. reflexivity. Qed.

Lemma members_str_tail (kv : string * string) (r : list (string * string)) :
  members_str (kv :: r) ++ "}"
    = json_member (kv.1, ustr_of_str kv.2) ++ members_tail r.
Proof.
  destruct r as [| kv' r]; [done |].
  by rewrite members_str_cons, !str_app_assoc.
Qed.

Lemma json_member_shape (k v tail : string) :
  json_member (k, ustr_of_str v) ++ tail
    = String dquote
        (json_escape_all (ustr_of_str k)
         ++ String dquote (": " ++ json_str (ustr_of_str v) ++ tail)).
Proof. unfold json_member, json_str. simpl fst; simpl snd. by str_norm. Qed.

Lemma jrun_members (r : list (string * string)) (kv : string * string) (d : dict) :
  jrun (JKeyStr d EmptyString ENone)
       (json_escape_all (ustr_of_str kv.1)
        ++ String dquote (": " ++ json_str (ustr_of_str kv.2) ++ members_tail r))
    = Some (JEnd (fold_left (fun d kv => dict_set d kv.1 kv.2) (kv :: r) d)).
Proof.
  revert kv d. induction r as [| [k' v'] r IH]; intros [k v] d.
  - by rewrite jrun_member.
  - rewrite jrun_member. simpl fst; simpl snd.
    unfold members_tail. rewrite members_str_tail, json_member_shape.
    exact (IH (k', v') (dict_set d k v)).
Qed.

Lemma json_loads_dumps_items (d : dict) :
  json_loads (json_dumps d) = Some (dict_of_items d).
Proof.
  unfold json_loads, json_dumps, json_object.
  destruct d as [| [k v] r]; [done |].
  fold (members_str ((k, v) :: r)).
  rewrite members_str_tail, json_member_shape.
  change (match jrun (JKeyStr [] EmptyString ENone)
                  (json_escape_all (ustr_of_str k)
                   ++ String dquote (": " ++ json_str (ustr_of_str v)
                                     ++ members_tail r))
          with Some (JEnd d) => Some d | _ => None end
          = Some (dict_of_items ((k, v) :: r))).
  pose proof (jrun_members r (k, v) []) as Hrun. cbn [fst snd] in Hrun.
  by rewrite Hrun.
Qed.

(** The headers of a row are read back as they were written. *)
Lemma json_loads_dumps (d : dict) :
  NoDup d.*1 -> json_loads (json_dumps d) = Some d.
Proof. intros Hnd. by rewrite json_loads_dumps_items, dict_of_items_NoDup. Qed.

(** ** The handler the server runs *)

(** [create_cache_app] hands the server a handler that is connected to its
    table and whose mode is the lower-cased toggle. *)
Lemma create_cache_app_connected (E : environ) (cache_db : string)
    (w w' : world) (self : CacheHandler) :
  create_cache_app E cache_db w = (w', Ok self) ->
  db self = Some (Connect cache_db)
  /\ file_cache_mode self = lower (default EmptyString (FILE_CACHE E))
  /\ w' = w.
Proof.
  unfold create_cache_app, __init__.
  destruct (negb _); [by intros [= _ ?] |].
  unfold initialize, bind, _init_database, ret. simpl.
  by intros [= <- <-].
Qed.

(** ** Requests without the routing header *)

(** C8. A request that has no [X-Cache-Redirect-To] header, under any
    spelling of the name, is answered 400 with the text that names the
    header, and the world is left as it was: the trace gains no event, so
    no key was derived, neither store was read or written, and nothing was
    sent upstream. *)
Theorem missing_routing_header_is_400 (E : environ) (self : CacheHandler)
    (request : Request) (w : world) :
  Forall (fun kv => lower kv.1 <> "x-cache-redirect-to") (req_headers request) ->
  handle_request E self request w
    = (w, Ok (TextResponse 400 "Missing X-Cache-Redirect-To header")).
Proof.
  intros Hno. unfold handle_request.
  by rewrite (ci_get_None _ "X-Cache-Redirect-To" Hno).
Qed.

(** ** The miss path of the handler *)

Lemma upstream_calls_add_event (ev : event) (w : world) :
  upstream_calls (trace (add_event ev w))
    = (upstream_calls (trace w) + (if is_upstream ev then 1 else 0))%nat.
Proof.
  unfold upstream_calls, add_event. simpl.
  rewrite filter_app, length_app. f_equal.
  destruct ev; reflexivity.
Qed.

Lemma routing_header_Some (request : Request) (redirect_url : string) :
  routing_header request = Some redirect_url ->
  exists c r, redirect_url = String c r
    /\ ci_get (req_headers request) "X-Cache-Redirect-To" = Some (String c r).
Proof.
  unfold routing_header.
  destruct (ci_get _ _) as [[| c r] |]; intros [= <-]; eauto.
Qed.

Lemma handle_request_forward (E : environ) (self : CacheHandler) (request : Request)
    (w : world) (conn : Connection) (redirect_url : string) (status : Z)
    (response_headers : multidict) (chunks : list bytes) :
  db self = Some conn ->
  String.eqb (file_cache_mode self) "read" = false ->
  routing_header request = Some redirect_url ->
  select_by_key (cache_key_of self request redirect_url) (cache_table w) = None ->
  upstream E (upstream_calls (trace w)) (forwarded_request request redirect_url)
    = UpResponse status response_headers chunks ->
  handle_request E self request w
    = (after_forward E self request redirect_url status response_headers chunks w,
       Ok (Streamed (relayed status response_headers chunks))).
Proof.
  intros Hdb Hmode Hroute Hmiss Hup.
  apply routing_header_Some in Hroute as (c & r & -> & Hget).
  unfold handle_request. rewrite Hget.
  unfold after_forward, cache_key_of in *.
  destruct (_hash_request _ _ _ _ _) as [cache_key cache_key_str] eqn:Hkey.
  simpl in Hmiss |- *.
  rewrite Hmode.
  unfold bind at 1. unfold log at 1, modify at 1.
  unfold bind at 1. unfold _get_cached_response. rewrite Hdb.
  unfold bind at 1. unfold log at 1, modify at 1.
  unfold bind at 1. unfold get_state at 1.
  change (cache_table (add_event ?a (add_event ?b w))) with (cache_table w).
  rewrite Hmiss. unfold ret at 1.
  unfold bind at 1. unfold _forward_request.
  unfold bind at 1. unfold get_state at 1.
  unfold bind at 1. unfold log at 1, modify at 1.
  rewrite !upstream_calls_add_event. simpl is_upstream. rewrite !Nat.add_0_r.
  fold (forwarded_request request (String c r)). rewrite Hup.
  unfold ret at 1. fold (relayed status response_headers chunks).
  unfold bind at 1.
  destruct (is_2xx status); [| reflexivity].
  unfold bind at 1. unfold _save_response. rewrite Hdb.
  unfold bind at 1. unfold log at 1, modify at 1. unfold modify at 1.
  fold (row_of E cache_key status response_headers chunks).
  destruct (file_cache_mode self =? "write"); [| reflexivity].
  unfold _save_file_cached_response, after_file_write.
  fold (snapshot_of E status response_headers chunks).
  unfold bind at 1. unfold log at 1, modify at 1.
  destruct (write_fault E _) as [[? | ? ?] |]; reflexivity.
Qed.

Lemma handle_request_forward_fails (E : environ) (self : CacheHandler)
    (request : Request) (w : world) (conn : Connection) (redirect_url : string)
    (e : exn) :
  db self = Some conn ->
  String.eqb (file_cache_mode self) "read" = false ->
  routing_header request = Some redirect_url ->
  select_by_key (cache_key_of self request redirect_url) (cache_table w) = None ->
  upstream E (upstream_calls (trace w)) (forwarded_request request redirect_url)
    = UpFailure e ->
  handle_request E self request w
    = (add_event (EvUpstream (forwarded_request request redirect_url))
         (add_event (EvSelect (cache_key_of self request redirect_url))
            (add_event (EvHash (method request) (path_qs request)
                               (req_body request) redirect_url) w)),
       Raise e).
Proof.
  intros Hdb Hmode Hroute Hmiss Hup.
  apply routing_header_Some in Hroute as (c & r & -> & Hget).
  unfold handle_request. rewrite Hget.
  unfold cache_key_of in *.
  destruct (_hash_request _ _ _ _ _) as [cache_key cache_key_str] eqn:Hkey.
  simpl in Hmiss |- *.
  rewrite Hmode.
  unfold bind at 1. unfold log at 1, modify at 1.
  unfold bind at 1. unfold _get_cached_response. rewrite Hdb.
  unfold bind at 1. unfold log at 1, modify at 1.
  unfold bind at 1. unfold get_state at 1.
  change (cache_table (add_event ?a (add_event ?b w))) with (cache_table w).
  rewrite Hmiss. unfold ret at 1.
  unfold bind at 1. unfold _forward_request.
  unfold bind at 1. unfold get_state at 1.
  unfold bind at 1. unfold log at 1, modify at 1.
  rewrite !upstream_calls_add_event. simpl is_upstream. rewrite !Nat.add_0_r.
  fold (forwarded_request request (String c r)). rewrite Hup.
  reflexivity.
Qed.

(** The events of a forward: the key is derived, the table is read, the
    request goes upstream, and a 2xx answer is written to the table and,
    in write-through mode, to the snapshot directory. *)
Lemma trace_after_forward (E : environ) (self : CacheHandler) (request : Request)
    (redirect_url : string) (status : Z) (response_headers : multidict)
    (chunks : list bytes) (w : world) :
  let cache_key := cache_key_of self request redirect_url in
  trace (after_forward E self request redirect_url status response_headers chunks w)
    = (trace w
       ++ [ EvHash (method request) (path_qs request) (req_body request) redirect_url;
            EvSelect cache_key;
            EvUpstream (forwarded_request request redirect_url) ]
       ++ (if is_2xx status then
             EvInsertOrReplace cache_key
               :: (if String.eqb (file_cache_mode self) "write"
                   then [EvFileWrite (_get_file_cache_path self cache_key)]
                   else [])
           else []))%list.
Proof.
  intros cache_key. unfold after_forward. fold cache_key.
  destruct (is_2xx status); [| by simpl; rewrite <- !app_assoc].
  destruct (file_cache_mode self =? "write").
  - unfold after_file_write. destruct (write_fault E _) as [[? | ? ?] |];
      simpl; by rewrite <- !app_assoc.
  - simpl. by rewrite <- !app_assoc.
Qed.

Lemma new_events_after_forward (E : environ) (self : CacheHandler)
    (request : Request) (redirect_url : string) (status : Z)
    (response_headers : multidict) (chunks : list bytes) (w : world) :
  let cache_key := cache_key_of self request redirect_url in
  new_events w
    (after_forward E self request redirect_url status response_headers chunks w)
    = ([ EvHash (method request) (path_qs request) (req_body request) redirect_url;
         EvSelect cache_key;
         EvUpstream (forwarded_request request redirect_url) ]
       ++ (if is_2xx status then
             EvInsertOrReplace cache_key
               :: (if String.eqb (file_cache_mode self) "write"
                   then [EvFileWrite (_get_file_cache_path self cache_key)]
                   else [])
           else []))%list.
Proof.
  intros cache_key. unfold new_events.
  by rewrite trace_after_forward, drop_app_length.
Qed.

Lemma cache_table_after_forward (E : environ) (self : CacheHandler)
    (request : Request) (redirect_url : string) (status : Z)
    (response_headers : multidict) (chunks : list bytes) (w : world) :
  cache_table (after_forward E self request redirect_url status response_headers
                 chunks w)
    = if is_2xx status then
        insert_or_replace
          (row_of E (cache_key_of self request redirect_url) status
                  response_headers chunks)
          (cache_table w)
      else cache_table w.
Proof.
  unfold after_forward.
  destruct (is_2xx status); [| done].
  destruct (file_cache_mode self =? "write"); [| done].
  unfold after_file_write. by destruct (write_fault E _) as [[? | ? ?] |].
Qed.

Lemma files_after_forward (E : environ) (self : CacheHandler)
    (request : Request) (redirect_url : string) (status : Z)
    (response_headers : multidict) (chunks : list bytes) (w : world) :
  let file_path := _get_file_cache_path self (cache_key_of self request redirect_url) in
  files (after_forward E self request redirect_url status response_headers chunks w)
    = if is_2xx status && String.eqb (file_cache_mode self) "write" then
        match write_fault E file_path with
        | Some (OpenFails _) => files w
        | Some (WriteFails _ written) => <[file_path := Garbled written]> (files w)
        | None => <[file_path := snapshot_of E status response_headers chunks]> (files w)
        end
      else files w.
Proof.
  unfold after_forward.
  destruct (is_2xx status); [| done].
  destruct (file_cache_mode self =? "write"); [| done].
  unfold after_file_write. by destruct (write_fault E _) as [[? | ? ?] |].
Qed.

Lemma upstream_calls_app (t1 t2 : list event) :
  upstream_calls (t1 ++ t2) = (upstream_calls t1 + upstream_calls t2)%nat.
Proof. unfold upstream_calls. by rewrite filter_app, length_app. Qed.

(** A miss in standard mode sends exactly one request upstream, whatever
    comes back. *)
Lemma miss_calls_upstream (E : environ) (self : CacheHandler) (request : Request)
    (w : world) (conn : Connection) (redirect_url : string) :
  db self = Some conn ->
  String.eqb (file_cache_mode self) "read" = false ->
  routing_header request = Some redirect_url ->
  select_by_key (cache_key_of self request redirect_url) (cache_table w) = None ->
  upstream_calls (trace (handle_request E self request w).1)
    = S (upstream_calls (trace w)).
Proof.
  intros Hdb Hmode Hroute Hmiss.
  destruct (upstream E (upstream_calls (trace w))
              (forwarded_request request redirect_url))
    as [status response_headers chunks | e] eqn:Hup.
  - rewrite (handle_request_forward _ _ _ _ _ _ _ _ _ Hdb Hmode Hroute Hmiss Hup).
    simpl. rewrite trace_after_forward, !upstream_calls_app.
    destruct (is_2xx status); [destruct (file_cache_mode self =? "write") |];
      unfold upstream_calls; simpl; lia.
  - rewrite (handle_request_forward_fails _ _ _ _ _ _ _ Hdb Hmode Hroute Hmiss Hup).
    simpl. rewrite <- !app_assoc, upstream_calls_app.
    unfold upstream_calls; simpl; lia.
Qed.

(** ** The table: insert or replace *)

Lemma rows_with_key_insert_eq (r : row) (t : list row) :
  rows_with_key (r_key r) (insert_or_replace r t) = [r].
Proof.
  unfold rows_with_key, insert_or_replace.
  rewrite List.filter_app. simpl. rewrite String.eqb_refl.
  replace (List.filter _ (List.filter _ t)) with (@nil row); [done |].
  induction t as [| r' t IH]; [done |].
  simpl. destruct (r_key r' =? r_key r) eqn:Heq; simpl; [done |].
  by rewrite Heq.
Qed.

Lemma rows_with_key_insert_ne (k : string) (r : row) (t : list row) :
  k <> r_key r ->
  rows_with_key k (insert_or_replace r t) = rows_with_key k t.
Proof.
  intros Hne. unfold rows_with_key, insert_or_replace.
  rewrite List.filter_app. simpl.
  assert ((r_key r =? k) = false) as -> by (apply String.eqb_neq; congruence).
  rewrite app_nil_r.
  induction t as [| r' t IH]; [done |].
  simpl. destruct (r_key r' =? r_key r) eqn:Heq; simpl.
  - apply String.eqb_eq in Heq.
    assert ((r_key r' =? k) = false) as -> by (apply String.eqb_neq; congruence).
    done.
  - destruct (r_key r' =? k); by rewrite IH.
Qed.

Lemma select_by_key_rows (k : string) (t : list row) :
  select_by_key k t = head (rows_with_key k t).
Proof.
  unfold select_by_key, rows_with_key.
  induction t as [| r t IH]; [done |].
  simpl. by destruct (r_key r =? k).
Qed.

Lemma select_insert_eq (r : row) (t : list row) :
  select_by_key (r_key r) (insert_or_replace r t) = Some r.
Proof. by rewrite select_by_key_rows, rows_with_key_insert_eq. Qed.

Lemma select_insert_ne (k : string) (r : row) (t : list row) :
  k <> r_key r ->
  select_by_key k (insert_or_replace r t) = select_by_key k t.
Proof. intros. by rewrite !select_by_key_rows, rows_with_key_insert_ne. Qed.

Lemma is_2xx_spec (status : Z) : is_2xx status = true <-> (200 <= status < 300)%Z.
Proof. unfold is_2xx. rewrite andb_true_iff, Z.leb_le, Z.ltb_lt. done. Qed.

Lemma insert_or_replace_NoDup (r : row) (t : list row) :
  NoDup (r_key <$> t) -> NoDup (r_key <$> insert_or_replace r t).
Proof.
  intros Hnd. unfold insert_or_replace. rewrite fmap_app.
  apply NoDup_app. split; [| split; [| apply NoDup_singleton]].
  - induction t as [| r' t IH]; simpl; [constructor |].
    apply NoDup_cons in Hnd as [Hnotin Ht].
    destruct (negb _); simpl; [| by apply IH].
    apply NoDup_cons. split; [| by apply IH].
    intros Hin. apply Hnotin.
    apply list_elem_of_fmap in Hin as (r0 & -> & Hin).
    apply list_elem_of_fmap. exists r0. split; [done |].
    apply list_elem_of_In. apply list_elem_of_In, filter_In in Hin. tauto.
  - intros k Hin Hin'. apply list_elem_of_singleton in Hin'. subst k.
    apply list_elem_of_fmap in Hin as (r0 & Heq & Hin).
    apply list_elem_of_In, filter_In in Hin as [_ Hf].
    apply negb_true_iff, String.eqb_neq in Hf. congruence.
Qed.

Lemma _save_response_run (E : environ) (self : CacheHandler) (conn : Connection)
    (k : string) (status : Z) (headers : dict) (body : bytes) (w : world) :
  db self = Some conn ->
  _save_response E self k status headers body w
    = (set_table (insert_or_replace (put_row E (k, status, headers, body))
                                    (cache_table w))
                 (add_event (EvInsertOrReplace k) w),
       Ok tt).
Proof. intros Hdb. unfold _save_response. by rewrite Hdb. Qed.

Lemma put_all_run (E : environ) (self : CacheHandler) (conn : Connection)
    (ps : list put_args) (w : world) :
  db self = Some conn ->
  (put_all E self ps w).2 = Ok tt
  /\ cache_table (put_all E self ps w).1
     = fold_left (fun t p => insert_or_replace (put_row E p) t) ps (cache_table w).
Proof.
  intros Hdb. revert w. induction ps as [| p ps IH]; intros w; [done |].
  destruct p as [[[k st] hd] b]. simpl put_all. unfold bind.
  rewrite (_save_response_run E self conn k st hd b w Hdb).
  destruct (IH (set_table (insert_or_replace (put_row E (k, st, hd, b)) (cache_table w))
                          (add_event (EvInsertOrReplace k) w))) as [Hok Htab].
  split; [exact Hok |]. rewrite Htab. done.
Qed.

Lemma rows_with_key_fold_other (E : environ) (k : string) (ps : list put_args)
    (t : list row) :
  Forall (fun p => put_key p <> k) ps ->
  rows_with_key k (fold_left (fun t p => insert_or_replace (put_row E p) t) ps t)
    = rows_with_key k t.
Proof.
  intros Hall. revert t. induction Hall as [| p ps Hne _ IH]; intros t; [done |].
  simpl. rewrite IH. apply rows_with_key_insert_ne.
  destruct p as [[[k' st] hd] b]. unfold put_key in *. simpl in *. congruence.
Qed.

Lemma fold_insert_NoDup (E : environ) (ps : list put_args) (t : list row) :
  NoDup (r_key <$> t) ->
  NoDup (r_key <$> fold_left (fun t p => insert_or_replace (put_row E p) t) ps t).
Proof.
  revert t. induction ps as [| p ps IH]; intros t Hnd; [done |].
  simpl. by apply IH, insert_or_replace_NoDup.
Qed.

Lemma _get_cached_response_run (self : CacheHandler) (conn : Connection)
    (cache_key : string) (w : world) :
  db self = Some conn ->
  _get_cached_response self cache_key w
    = (add_event (EvSelect cache_key) w,
       match select_by_key cache_key (cache_table w) with
       | Some r =>
           match json_loads (r_headers r) with
           | Some hd => Ok (Some (r_status_code r, hd, r_body r))
           | None => Raise (JSONDecodeError (r_headers r))
           end
       | None => Ok None
       end).
Proof.
  intros Hdb. unfold _get_cached_response. rewrite Hdb.
  unfold bind, log, modify, get_state. simpl.
  destruct (select_by_key _ _) as [r |]; [| done].
  by destruct (json_loads _).
Qed.

(** ** The persistent store *)

(** C6. With the handler connected to its table, let any [put] calls be
    followed by [put(k, status, headers, body)] and then by any [put] calls
    for other keys, so that this is the most recent [put] for [k].  The
    table then holds exactly one row for [k], [get(k)] returns exactly that
    status, those headers and that body, and a table whose keys were
    distinct still has distinct keys. *)
Theorem put_is_insert_or_replace (E : environ) (self : CacheHandler)
    (conn : Connection) (w : world) (earlier later : list put_args)
    (k : string) (status : Z) (headers : dict) (body : bytes) :
  db self = Some conn ->
  NoDup headers.*1 ->
  Forall (fun p => put_key p <> k) later ->
  let w' := (put_all E self (earlier ++ (k, status, headers, body) :: later) w).1 in
  (put_all E self (earlier ++ (k, status, headers, body) :: later) w).2 = Ok tt
  /\ rows_with_key k (cache_table w')
     = [Row k status (json_dumps headers) body (time_time E)]
  /\ (_get_cached_response self k w').2 = Ok (Some (status, headers, body))
  /\ (NoDup (r_key <$> cache_table w) -> NoDup (r_key <$> cache_table w')).
Proof.
  intros Hdb Hnd Hlater w'.
  destruct (put_all_run E self conn (earlier ++ (k, status, headers, body) :: later)
              w Hdb) as [Hok Htab].
  fold w' in Htab.
  assert (rows_with_key k (cache_table w')
          = [Row k status (json_dumps headers) body (time_time E)]) as Hrows.
  { rewrite Htab, fold_left_app. simpl.
    rewrite rows_with_key_fold_other by done.
    apply (rows_with_key_insert_eq (Row k status (json_dumps headers) body (time_time E))). }
  split; [done |]. split; [done |]. split.
  - rewrite (_get_cached_response_run self conn k w' Hdb). simpl.
    rewrite select_by_key_rows, Hrows. simpl.
    by rewrite json_loads_dumps.
  - intros Hkeys. rewrite Htab. by apply fold_insert_NoDup.
Qed.

(** ** Only success is cached *)

(** C1. A request that is forwarded (the handler is connected to its table,
    the mode is not read-only, the routing header is there and the table
    has no row for the key) and answered by the upstream is relayed to the
    caller whatever the status.  The table holds a row for the key
    afterwards if and only if the status is in 200..299, and that row is
    the response; a snapshot file is written if and only if the status is
    in 200..299 and the mode is write-through, and the file then holds the
    response unless the path refuses to be written.  After any other status
    both stores are as before and the same request goes upstream again. *)
Theorem only_success_is_cached (E : environ) (self : CacheHandler)
    (request : Request) (w : world) (conn : Connection) (redirect_url : string)
    (status : Z) (response_headers : multidict) (chunks : list bytes) :
  db self = Some conn ->
  file_cache_mode self <> "read" ->
  routing_header request = Some redirect_url ->
  select_by_key (cache_key_of self request redirect_url) (cache_table w) = None ->
  upstream E (upstream_calls (trace w)) (forwarded_request request redirect_url)
    = UpResponse status response_headers chunks ->
  let cache_key := cache_key_of self request redirect_url in
  let file_path := _get_file_cache_path self cache_key in
  let w' := (handle_request E self request w).1 in
  (handle_request E self request w).2
    = Ok (Streamed (relayed status response_headers chunks))
  /\ ((exists r, select_by_key cache_key (cache_table w') = Some r)
      <-> (200 <= status < 300)%Z)
  /\ ((200 <= status < 300)%Z ->
      select_by_key cache_key (cache_table w')
        = Some (row_of E cache_key status response_headers chunks))
  /\ (In (EvFileWrite file_path) (new_events w w')
      <-> (200 <= status < 300)%Z /\ file_cache_mode self = "write")
  /\ ((200 <= status < 300)%Z -> file_cache_mode self = "write" ->
      write_fault E file_path = None ->
      files w' !! file_path = Some (snapshot_of E status response_headers chunks))
  /\ (~ (200 <= status < 300)%Z ->
      cache_table w' = cache_table w /\ files w' = files w
      /\ upstream_calls (trace (handle_request E self request w').1)
         = S (upstream_calls (trace w'))).
Proof.
  intros Hdb Hmode Hroute Hmiss Hup cache_key file_path w'.
  apply String.eqb_neq in Hmode.
  pose proof (handle_request_forward _ _ _ _ _ _ _ _ _ Hdb Hmode Hroute Hmiss Hup)
    as Hrun.
  subst w'. rewrite Hrun. simpl fst; simpl snd.
  rewrite cache_table_after_forward, files_after_forward.
  rewrite new_events_after_forward.
  fold cache_key file_path.
  rewrite <- (is_2xx_spec status).
  destruct (is_2xx status) eqn:H2xx.
  - change (r_key (row_of E cache_key status response_headers chunks))
      with cache_key.
    pose proof (select_insert_eq (row_of E cache_key status response_headers chunks)
                  (cache_table w)) as Hsel.
    simpl in Hsel. rewrite Hsel.
    split; [done |]. split; [split; [done | by eauto] |]. split; [done |].
    split; [| split; [| done]].
    + split.
      * intros Hin. split; [done |].
        destruct (file_cache_mode self =? "write") eqn:Hw;
          [by apply String.eqb_eq in Hw |].
        simpl in Hin. intuition discriminate.
      * intros [_ ->]. simpl. tauto.
    + intros _ Hw Hfault. rewrite Hw, Hfault. simpl. by rewrite lookup_insert_eq.
  - fold cache_key in Hmiss.
    split; [done |]. split; [| split; [done |]; split; [| split; [done |]]].
    + split; [intros [r Hr]; congruence | done].
    + split; [| by intros [? _]].
      simpl. intros Hin. exfalso. intuition discriminate.
    + intros _. split; [done |]. split; [done |].
      apply (miss_calls_upstream _ _ _ _ conn redirect_url); try done.
      by rewrite cache_table_after_forward, H2xx.
Qed.

(** ** A snapshot that cannot be written *)

(** C10. In write-through mode, when the upstream answers a forwarded
    request with a 2xx status and the snapshot file cannot be written
    (opening it or writing to it raises, whatever the exception is), the
    handler does not raise: it returns the streamed response, prints the
    error, and the row written to the table for the key is in place.  The
    other snapshot files are as they were; the file of the key is as it was
    when it could not be opened, and holds what was written of the
    document, not the snapshot it held before, when the failure came after
    it was opened. *)
Theorem snapshot_write_failure_is_logged (E : environ) (self : CacheHandler)
    (request : Request) (w : world) (conn : Connection) (redirect_url : string)
    (status : Z) (response_headers : multidict) (chunks : list bytes)
    (f : write_failure) :
  db self = Some conn ->
  file_cache_mode self = "write" ->
  routing_header request = Some redirect_url ->
  select_by_key (cache_key_of self request redirect_url) (cache_table w) = None ->
  upstream E (upstream_calls (trace w)) (forwarded_request request redirect_url)
    = UpResponse status response_headers chunks ->
  (200 <= status < 300)%Z ->
  write_fault E (_get_file_cache_path self (cache_key_of self request redirect_url))
    = Some f ->
  let cache_key := cache_key_of self request redirect_url in
  let file_path := _get_file_cache_path self cache_key in
  let w' := (handle_request E self request w).1 in
  (handle_request E self request w).2
    = Ok (Streamed (relayed status response_headers chunks))
  /\ select_by_key cache_key (cache_table w')
     = Some (row_of E cache_key status response_headers chunks)
  /\ stdout w' = (stdout w ++ [ErrorWriting file_path (failure_exn f)])%list
  /\ (forall other, other <> file_path -> files w' !! other = files w !! other)
  /\ (forall e, f = OpenFails e -> files w' = files w)
  /\ (forall e written, f = WriteFails e written ->
      files w' !! file_path = Some (Garbled written)).
Proof.
  intros Hdb Hmode Hroute Hmiss Hup H2xx Hfault cache_key file_path w'.
  assert (String.eqb (file_cache_mode self) "read" = false) as Hread
    by (by rewrite Hmode).
  pose proof (handle_request_forward _ _ _ _ _ _ _ _ _ Hdb Hread Hroute Hmiss Hup)
    as Hrun.
  subst w'. rewrite Hrun. simpl fst; simpl snd.
  rewrite cache_table_after_forward, files_after_forward.
  apply is_2xx_spec in H2xx. rewrite H2xx.
  fold cache_key file_path in Hfault |- *. rewrite Hfault, Hmode.
  split; [done |]. split.
  { apply (select_insert_eq (row_of E cache_key status response_headers chunks)). }
  split.
  { unfold after_forward. fold cache_key. rewrite H2xx, Hmode. simpl.
    unfold after_file_write. fold file_path. rewrite Hfault. by destruct f. }
  simpl. split; [| split].
  - intros other Hother. destruct f as [e | e written]; [done |].
    by apply lookup_insert_ne.
  - by intros e ->.
  - intros e written ->. apply lookup_insert_eq.
Qed.

(** ** Hits and read-only mode *)

Lemma load_snapshot_error (c : file_content) (e : exn) :
  load_snapshot c = Raise e -> read_error e = true.
Proof.
  destruct c as [msg | [[st |] [hd |] [b64 |] ts]]; simpl;
    try (by intros [= <-]).
  destruct (b64decode b64); by intros [= <-].
Qed.

Lemma handle_request_read (E : environ) (self : CacheHandler) (request : Request)
    (w : world) (redirect_url : string) :
  file_cache_mode self = "read" ->
  routing_header request = Some redirect_url ->
  let cache_key := cache_key_of self request redirect_url in
  let message :=
    miss_message cache_key
      (_hash_request self (method request) (path_qs request) (req_body request)
         redirect_url).2 in
  let w1 :=
    add_event (EvFileRead (_get_file_cache_path self cache_key))
      (add_event (EvHash (method request) (path_qs request) (req_body request)
                         redirect_url) w) in
  exists w',
    cache_table w' = cache_table w /\ files w' = files w /\ trace w' = trace w1
    /\ handle_request E self request w
       = (w', match stored_entry self cache_key w with
              | Some hit => Ok (replay hit)
              | None => Raise (RuntimeError message)
              end).
Proof.
  intros Hmode Hroute cache_key message w1.
  apply routing_header_Some in Hroute as (c & r & -> & Hget).
  unfold handle_request. rewrite Hget.
  subst cache_key message w1. unfold cache_key_of, stored_entry.
  destruct (_hash_request _ _ _ _ _) as [cache_key cache_key_str] eqn:Hkey.
  rewrite Hmode. simpl.
  unfold bind at 1. unfold log at 1, modify at 1.
  unfold bind at 1. unfold _get_file_cached_response.
  unfold bind at 1. unfold log at 1, modify at 1.
  unfold bind at 1. unfold get_state at 1.
  change (files (add_event ?a (add_event ?b w))) with (files w).
  destruct (files w !! _) as [c0 |].
  - destruct (load_snapshot c0) as [hit | e] eqn:Hload.
    + eexists. split; [| split; [| split; [| reflexivity]]]; done.
    + rewrite (load_snapshot_error _ _ Hload).
      unfold bind, print, modify, ret, raise, append_github_output.
      destruct (GITHUB_OUTPUT E) as [[| ? ?] |];
        (eexists; split; [| split; [| split; [| reflexivity]]]; done).
  - unfold bind, ret, raise, append_github_output.
    destruct (GITHUB_OUTPUT E) as [[| ? ?] |];
      (eexists; split; [| split; [| split; [| reflexivity]]]; done).
Qed.

Lemma handle_request_hit (E : environ) (self : CacheHandler) (request : Request)
    (w : world) (redirect_url : string) (hit : Z * dict * bytes) :
  String.eqb (file_cache_mode self) "read" = false ->
  routing_header request = Some redirect_url ->
  stored_entry self (cache_key_of self request redirect_url) w = Some hit ->
  handle_request E self request w
    = (add_event (EvSelect (cache_key_of self request redirect_url))
         (add_event (EvHash (method request) (path_qs request) (req_body request)
                            redirect_url) w),
       Ok (replay hit)).
Proof.
  intros Hmode Hroute Hhit.
  apply routing_header_Some in Hroute as (c & r & -> & Hget).
  unfold handle_request. rewrite Hget.
  unfold cache_key_of, stored_entry in *.
  destruct (_hash_request _ _ _ _ _) as [cache_key cache_key_str] eqn:Hkey.
  rewrite Hmode in *. simpl in Hhit |- *.
  destruct (db self) as [conn |] eqn:Hdb; [| done].
  unfold bind at 1. unfold log at 1, modify at 1.
  unfold bind at 1.
  rewrite (_get_cached_response_run self conn cache_key _ Hdb).
  change (cache_table (add_event ?a w)) with (cache_table w).
  destruct (select_by_key cache_key (cache_table w)) as [r0 |]; [| done].
  destruct (json_loads (r_headers r0)) as [hd |]; [| done].
  by injection Hhit as <-.
Qed.

Lemma handle_request_no_route (E : environ) (self : CacheHandler)
    (request : Request) (w : world) :
  routing_header request = None ->
  handle_request E self request w
    = (w, Ok (TextResponse 400 "Missing X-Cache-Redirect-To header")).
Proof.
  unfold routing_header, handle_request.
  by destruct (ci_get _ _) as [[| c r] |].
Qed.

Lemma new_events_nil (w : world) : new_events w w = [].
Proof. unfold new_events. apply drop_all. Qed.

Lemma new_events_app (w w' : world) (evs : list event) :
  trace w' = (trace w ++ evs)%list -> new_events w w' = evs.
Proof. unfold new_events. intros ->. apply drop_app_length. Qed.

(** C2. In read-only mode no request reaches the table or the upstream:
    both stores are left as they were, the events of the request hold no
    read or write of the table and no upstream call, and the count of
    upstream calls is what it was.  A request that
    names its target reads the snapshot file of its key; when the file
    holds an entry the entry is replayed, and otherwise the handler raises
    [RuntimeError] with a message made of the key and the canonical
    string. *)
Theorem read_only_mode_consults_only_the_overlay (E : environ)
    (self : CacheHandler) (request : Request) (w : world) :
  file_cache_mode self = "read" ->
  let w' := (handle_request E self request w).1 in
  let res := (handle_request E self request w).2 in
  cache_table w' = cache_table w
  /\ files w' = files w
  /\ trace w' = (trace w ++ new_events w w')%list
  /\ Forall (fun ev => is_store_or_upstream ev = false) (new_events w w')
  /\ upstream_calls (trace w') = upstream_calls (trace w)
  /\ (forall redirect_url, routing_header request = Some redirect_url ->
      let cache_key := cache_key_of self request redirect_url in
      let cache_key_str :=
        (_hash_request self (method request) (path_qs request) (req_body request)
           redirect_url).2 in
      In (EvFileRead (_get_file_cache_path self cache_key)) (new_events w w')
      /\ match stored_entry self cache_key w with
         | Some hit => res = Ok (replay hit)
         | None => res = Raise (RuntimeError (miss_message cache_key cache_key_str))
         end).
Proof.
  intros Hmode w' res.
  destruct (routing_header request) as [redirect_url |] eqn:Hroute.
  - destruct (handle_request_read E self request w redirect_url Hmode Hroute)
      as (w1 & Htab & Hfiles & Htrace & Hrun).
    subst w' res. rewrite Hrun. simpl fst; simpl snd.
    simpl in Htrace. rewrite <- !app_assoc in Htrace. simpl in Htrace.
    rewrite (new_events_app _ _ _ Htrace).
    split; [done |]. split; [done |]. split; [done |].
    split; [repeat constructor |]. split.
    + by rewrite Htrace, upstream_calls_app, Nat.add_0_r.
    + intros ? [= <-]. split; [simpl; tauto |].
      by destruct (stored_entry _ _ _).
  - subst w' res. rewrite (handle_request_no_route _ _ _ _ Hroute).
    simpl fst. rewrite new_events_nil, app_nil_r.
    repeat split; try done.
Qed.

Lemma replay_eq (status : Z) (headers : dict) (body : bytes) :
  replay (status, headers, body)
    = Response status (replay_headers headers body) body.
Proof. reflexivity. Qed.

Lemma replay_headers_In (headers : dict) (body : bytes) (k v : string) :
  In (k, v) (replay_headers headers body) ->
  (k, v) = ("Content-Length", str_of_nat (length body))
  \/ (In (k, v) headers /\ is_framing k = false).
Proof.
  unfold replay_headers. intros [Hin | ->]%dict_set_In; [| by left].
  right. by apply without_In in Hin.
Qed.

Lemma replay_headers_NoDup (headers : dict) (body : bytes) :
  NoDup headers.*1 ->
  replay_headers headers body
    = (List.filter (fun kv => negb (is_framing kv.1)) headers
       ++ [("Content-Length", str_of_nat (length body))])%list.
Proof.
  intros Hnd. unfold replay_headers. rewrite (without_NoDup _ _ Hnd).
  apply dict_set_fresh.
  intros Hin. apply list_elem_of_fmap in Hin as ([k v] & Hk & Hin).
  apply list_elem_of_In, filter_In in Hin as [_ Hf].
  simpl in Hk. subst k. discriminate.
Qed.

(** C5. On a hit (the snapshot file in read-only mode, the row of the
    table otherwise) the reply has the stored status and the stored body.
    Its headers are the stored headers whose names are not
    transfer-encoding, content-length or content-encoding in any case,
    followed by [Content-Length] with the length of the stored body: a
    header of the reply whose name is one of the three is that
    [Content-Length], never a stored value.  Nothing goes upstream. *)
Theorem hit_is_replayed_with_fresh_length (E : environ) (self : CacheHandler)
    (request : Request) (w : world) (redirect_url : string)
    (status : Z) (headers : dict) (body : bytes) :
  routing_header request = Some redirect_url ->
  stored_entry self (cache_key_of self request redirect_url) w
    = Some (status, headers, body) ->
  let length_header := ("Content-Length", str_of_nat (length body)) in
  exists reply_headers,
    (handle_request E self request w).2 = Ok (Response status reply_headers body)
    /\ dict_get reply_headers "Content-Length" = Some (str_of_nat (length body))
    /\ (forall k v, In (k, v) reply_headers ->
        (k, v) = length_header \/ (In (k, v) headers /\ is_framing k = false))
    /\ (forall k v, In (k, v) reply_headers -> is_framing k = true ->
        (k, v) = length_header)
    /\ (NoDup headers.*1 ->
        reply_headers
          = (List.filter (fun kv => negb (is_framing kv.1)) headers
             ++ [length_header])%list)
    /\ upstream_calls (trace (handle_request E self request w).1)
       = upstream_calls (trace w).
Proof.
  intros Hroute Hhit length_header.
  exists (replay_headers headers body).
  assert ((handle_request E self request w).2
            = Ok (Response status (replay_headers headers body) body)
          /\ upstream_calls (trace (handle_request E self request w).1)
             = upstream_calls (trace w)) as [Hres Hcalls].
  { destruct (String.eqb (file_cache_mode self) "read") eqn:Hmode.
    - apply String.eqb_eq in Hmode.
      destruct (handle_request_read E self request w redirect_url Hmode Hroute)
        as (w1 & _ & _ & Htrace & Hrun).
      rewrite Hrun, Hhit. simpl fst; simpl snd. rewrite Htrace.
      split; [done |]. by rewrite !upstream_calls_add_event, !Nat.add_0_r.
    - rewrite (handle_request_hit E self request w redirect_url _ Hmode Hroute Hhit).
      simpl fst; simpl snd.
      split; [done |]. by rewrite !upstream_calls_add_event, !Nat.add_0_r. }
  split; [done |]. split.
  { unfold replay_headers. by rewrite dict_get_set, String.eqb_refl. }
  split; [apply replay_headers_In |]. split.
  { intros k v Hin Hframing.
    apply replay_headers_In in Hin as [Heq | [_ Hnot]]; [done | congruence]. }
  split; [apply replay_headers_NoDup | done].
Qed.

(** ** What is relayed and what is stored *)

Lemma sr_headers_write (chunks : list bytes) (sr : StreamResponse) :
  sr_headers (fold_left write chunks sr) = sr_headers sr.
Proof.
  revert sr. induction chunks as [| c r IH]; intros sr; [done |].
  simpl. by rewrite IH.
Qed.

Lemma sr_status_write (chunks : list bytes) (sr : StreamResponse) :
  sr_status (fold_left write chunks sr) = sr_status sr.
Proof.
  revert sr. induction chunks as [| c r IH]; intros sr; [done |].
  simpl. by rewrite IH.
Qed.

Lemma sr_written_write (chunks : list bytes) (sr : StreamResponse) :
  sr_written (fold_left write chunks sr) = (sr_written sr ++ chunks)%list.
Proof.
  revert sr. induction chunks as [| c r IH]; intros sr; simpl.
  - by rewrite app_nil_r.
  - rewrite IH. simpl. by rewrite <- app_assoc.
Qed.

Lemma sr_status_set_header (items : dict) (sr : StreamResponse) :
  sr_status (fold_left set_header items sr) = sr_status sr.
Proof.
  revert sr. induction items as [| c r IH]; intros sr; [done |].
  simpl. by rewrite IH.
Qed.

Lemma sr_written_set_header (items : dict) (sr : StreamResponse) :
  sr_written (fold_left set_header items sr) = sr_written sr.
Proof.
  revert sr. induction items as [| c r IH]; intros sr; [done |].
  simpl. by rewrite IH.
Qed.

Lemma sr_headers_set_header (items : dict) (sr : StreamResponse)
    (kv : string * string) :
  In kv (sr_headers (fold_left set_header items sr)) ->
  In kv (sr_headers sr) \/ In kv items.
Proof.
  revert sr. induction items as [| [k v] r IH]; intros sr; simpl; [auto |].
  intros Hin. apply IH in Hin as [Hin | Hin]; [| auto].
  simpl in Hin. apply ci_set_In in Hin as [Hin | ->]; auto.
Qed.

(** Every header the caller receives is an upstream header whose name is
    not a framing one. *)
Lemma relayed_headers_In (status : Z) (response_headers : multidict)
    (chunks : list bytes) (kv : string * string) :
  In kv (sr_headers (relayed status response_headers chunks)) ->
  In kv response_headers /\ is_framing kv.1 = false.
Proof.
  unfold relayed. rewrite sr_headers_write. simpl.
  intros [[] | Hin]%sr_headers_set_header.
  by apply without_In in Hin.
Qed.

Lemma relayed_status (status : Z) (response_headers : multidict)
    (chunks : list bytes) :
  sr_status (relayed status response_headers chunks) = status.
Proof. unfold relayed. by rewrite sr_status_write; simpl; rewrite sr_status_set_header. Qed.

Lemma relayed_written (status : Z) (response_headers : multidict)
    (chunks : list bytes) :
  sr_written (relayed status response_headers chunks) = chunks.
Proof.
  unfold relayed. rewrite sr_written_write. simpl.
  by rewrite sr_written_set_header.
Qed.

Lemma dict_get_fold_set (g : string -> string) (l : list (string * string))
    (d : dict) (k : string) :
  dict_get (fold_left (fun d kv => dict_set d kv.1 (g kv.1)) l d) k
    = if bool_decide (k ∈ l.*1) then Some (g k) else dict_get d k.
Proof.
  revert d. induction l as [| [k' v'] r IH]; intros d; simpl; [done |].
  rewrite IH, dict_get_set.
  destruct (bool_decide (k ∈ r.*1)) eqn:Hr.
  - apply bool_decide_eq_true in Hr.
    rewrite bool_decide_eq_true_2; [done | by apply list_elem_of_further].
  - apply bool_decide_eq_false in Hr.
    destruct (k' =? k) eqn:Heq.
    + apply String.eqb_eq in Heq as ->.
      rewrite bool_decide_eq_true_2; [done | apply list_elem_of_here].
    + apply String.eqb_neq in Heq.
      rewrite bool_decide_eq_false_2; [done |].
      rewrite not_elem_of_cons. split; [congruence | done].
Qed.

Lemma ci_get_In (md : multidict) (k v : string) :
  In (k, v) md -> exists v', ci_get md k = Some v'.
Proof.
  induction md as [| [k0 v0] r IH]; simpl; [done |].
  destruct (lower k0 =? lower k) eqn:Heq; [eauto |].
  intros [[= -> ->] | Hin]; [| auto].
  by rewrite String.eqb_refl in Heq.
Qed.

(** The dict made from a multidict holds every name of the multidict, with
    the first value under that name. *)
Lemma dict_of_multidict_get (md : multidict) (k v : string) :
  In (k, v) md ->
  exists v', ci_get md k = Some v' /\ dict_get (dict_of_multidict md) k = Some v'.
Proof.
  intros Hin. destruct (ci_get_In md k v Hin) as [v' Hget].
  exists v'. split; [done |].
  unfold dict_of_multidict.
  rewrite (dict_get_fold_set (fun k => default EmptyString (ci_get md k))).
  rewrite bool_decide_eq_true_2, Hget; [done |].
  apply list_elem_of_fmap. exists (k, v). split; [done | by apply list_elem_of_In].
Qed.

(** C3, as the code has it. For a forwarded request that the upstream
    answers, every header relayed to the caller is an upstream header whose
    name is not transfer-encoding, content-length or content-encoding in
    any case.  The row written for a 2xx answer holds the upstream headers
    as [dict] gives them, unfiltered: every upstream name, a framing one
    included, is a key of the stored headers. *)
Theorem framing_headers_are_stripped_for_the_caller (E : environ)
    (self : CacheHandler) (request : Request) (w : world) (conn : Connection)
    (redirect_url : string) (status : Z) (response_headers : multidict)
    (chunks : list bytes) :
  db self = Some conn ->
  file_cache_mode self <> "read" ->
  routing_header request = Some redirect_url ->
  select_by_key (cache_key_of self request redirect_url) (cache_table w) = None ->
  upstream E (upstream_calls (trace w)) (forwarded_request request redirect_url)
    = UpResponse status response_headers chunks ->
  let cache_key := cache_key_of self request redirect_url in
  let w' := (handle_request E self request w).1 in
  exists sr,
    (handle_request E self request w).2 = Ok (Streamed sr)
    /\ sr_status sr = status
    /\ sr_written sr = chunks
    /\ (forall k v, In (k, v) (sr_headers sr) ->
        In (k, v) response_headers /\ is_framing k = false)
    /\ ((200 <= status < 300)%Z ->
        exists r,
          select_by_key cache_key (cache_table w') = Some r
          /\ json_loads (r_headers r) = Some (dict_of_multidict response_headers)
          /\ (forall k v, In (k, v) response_headers ->
              exists v', ci_get response_headers k = Some v'
                         /\ dict_get (dict_of_multidict response_headers) k = Some v')).
Proof.
  intros Hdb Hmode Hroute Hmiss Hup cache_key w'.
  apply String.eqb_neq in Hmode.
  pose proof (handle_request_forward _ _ _ _ _ _ _ _ _ Hdb Hmode Hroute Hmiss Hup)
    as Hrun.
  exists (relayed status response_headers chunks).
  subst w'. rewrite Hrun. simpl fst; simpl snd.
  split; [done |]. split; [apply relayed_status |].
  split; [apply relayed_written |]. split.
  { intros k v Hin. by apply relayed_headers_In in Hin. }
  intros H2xx%is_2xx_spec.
  exists (row_of E cache_key status response_headers chunks).
  rewrite cache_table_after_forward, H2xx. split.
  { apply (select_insert_eq (row_of E cache_key status response_headers chunks)). }
  split.
  { simpl. apply json_loads_dumps, dict_of_multidict_NoDup. }
  apply dict_of_multidict_get.
Qed.

(** C3 as stated fails on the stored entry: the stub answers 200 with a
    [Content-Length] header, the caller does not receive that header, and
    the row written to the table holds it. *)
Lemma stored_headers_keep_content_length :
  let run := handle_request (Demo.env None 200) (Demo.handler EmptyString)
               Demo.request Demo.empty_world in
  run.2 = Ok (Streamed {| sr_status := 200;
                          sr_headers := [("Content-Type", "application/json")];
                          sr_prepared := true;
                          sr_written := [Demo.body_ok] |})
  /\ (fun r => json_loads (r_headers r)) <$> cache_table run.1
     = [Some [("Content-Type", "application/json"); ("Content-Length", "11")]]
  /\ is_framing "Content-Length" = true.
Proof. vm_compute. auto. Qed.

(** ** Key derivation *)

#[local] Instance key_le_trans : Transitive key_le.
Proof. intros a b c. unfold key_le. apply transitivity. Qed.

#[local] Instance key_le_total : Total key_le.
Proof. intros a b. unfold key_le. apply total, _. Qed.

Lemma NoDup_fst_inj {A} (l : list (string * A)) (x y : string * A) :
  NoDup l.*1 -> x ∈ l -> y ∈ l -> x.1 = y.1 -> x = y.
Proof.
  induction l as [| z l IH]; simpl; intros Hnd Hx Hy Heq.
  - by apply elem_of_nil in Hx.
  - apply NoDup_cons in Hnd as [Hnotin Hnd].
    apply elem_of_cons in Hx as [-> | Hx]; apply elem_of_cons in Hy as [-> | Hy];
      [done | | | by apply IH].
    + exfalso. apply Hnotin. rewrite Heq. by apply list_elem_of_fmap_2.
    + exfalso. apply Hnotin. rewrite <- Heq. by apply list_elem_of_fmap_2.
Qed.

(** Two lists that hold the same items under distinct keys are sorted to
    the same list: the order of insertion is forgotten. *)
Lemma merge_sort_key_le_perm (l1 l2 : list (string * ustr)) :
  NoDup l1.*1 -> l1 ≡ₚ l2 ->
  merge_sort key_le l1 = merge_sort key_le l2.
Proof.
  intros Hnd Hperm.
  apply (StronglySorted_unique_strong key_le).
  - intros x1 x2 Hx1 Hx2 H12 H21.
    apply (NoDup_fst_inj l1); [done | | |].
    + by rewrite merge_sort_Permutation in Hx1.
    + by rewrite merge_sort_Permutation, <- Hperm in Hx2.
    + unfold key_le in *. by apply (anti_symm String.le).
  - apply StronglySorted_merge_sort; apply _.
  - apply StronglySorted_merge_sort; apply _.
  - by rewrite !merge_sort_Permutation.
Qed.

Lemma request_data_NoDup (method path : string) (body : bytes)
    (redirect_url : string) :
  NoDup (request_data method path body redirect_url).*1.
Proof. simpl. apply (bool_decide_unpack _). by vm_compute. Qed.

Lemma request_data_perm (method path : string) (body : bytes)
    (redirect_url : string) :
  [ ("body", match body with [] => [] | _ => decode_utf8_ignore body end);
    ("method", ustr_of_str method);
    ("path", ustr_of_str path);
    ("redirect_url", ustr_of_str redirect_url) ]
  ≡ₚ request_data method path body redirect_url.
Proof. unfold request_data. by solve_Permutation. Qed.

Lemma request_data_sorted (method path : string) (body : bytes)
    (redirect_url : string) :
  merge_sort key_le (request_data method path body redirect_url)
    = [ ("body", match body with [] => [] | _ => decode_utf8_ignore body end);
        ("method", ustr_of_str method);
        ("path", ustr_of_str path);
        ("redirect_url", ustr_of_str redirect_url) ].
Proof.
  apply (StronglySorted_unique_strong key_le).
  - intros x1 x2 Hx1 Hx2 H12 H21.
    apply (NoDup_fst_inj (request_data method path body redirect_url)).
    + apply request_data_NoDup.
    + by rewrite merge_sort_Permutation in Hx1.
    + by rewrite request_data_perm in Hx2.
    + unfold key_le in *. by apply (anti_symm String.le).
  - apply StronglySorted_merge_sort; apply _.
  - repeat (apply SSorted_cons; [| repeat constructor; by vm_compute]).
    constructor.
  - by rewrite merge_sort_Permutation, request_data_perm.
Qed.

(** C4. The key and the canonical string are a function of the method, the
    path, the body and the target alone: two handlers, whatever their
    state, derive the same pair from the same four inputs ([_hash_request]
    reads neither the world nor the environment, so no clock and no random
    source can enter).  The fields are written in the order of their names,
    body, method, path, redirect_url, and any other order of insertion of
    the same fields gives the same canonical string and the same key. *)
Theorem key_derivation_is_deterministic (self1 self2 : CacheHandler)
    (method path : string) (body : bytes) (redirect_url : string)
    (fields : list (string * ustr)) :
  fields ≡ₚ request_data method path body redirect_url ->
  _hash_request self1 method path body redirect_url
    = _hash_request self2 method path body redirect_url
  /\ json_dumps_sort_keys fields
     = (_hash_request self1 method path body redirect_url).2
  /\ Sha256.hexdigest (encode (json_dumps_sort_keys fields))
     = (_hash_request self1 method path body redirect_url).1
  /\ (_hash_request self1 method path body redirect_url).2
     = json_object
         [ ("body", match body with [] => [] | _ => decode_utf8_ignore body end);
           ("method", ustr_of_str method);
           ("path", ustr_of_str path);
           ("redirect_url", ustr_of_str redirect_url) ].
Proof.
  intros Hperm.
  assert (json_dumps_sort_keys fields
          = json_dumps_sort_keys (request_data method path body redirect_url))
    as Hsame.
  { unfold json_dumps_sort_keys. f_equal. symmetry.
    apply merge_sort_key_le_perm; [apply request_data_NoDup | done]. }
  unfold _hash_request. simpl fst; simpl snd.
  split; [done |]. split; [done |]. split; [by rewrite Hsame |].
  unfold json_dumps_sort_keys. by rewrite request_data_sorted.
Qed.

(** ** The client hook *)

Lemma dict_contains_set (d : dict) (k v : string) :
  dict_contains (dict_set d k v) k = true.
Proof. unfold dict_contains. by rewrite dict_get_set, String.eqb_refl. Qed.

Ltac run_hook :=
  unfold hook_openai, __start_idempotently, _wait_for_server, bind, get_state,
    modify, ret, raise; simpl.

(** A hook that succeeded leaves the client such that a second hook
    succeeds and changes nothing. *)
Lemma hook_openai_again (H : hook_env) (s : hook_state) :
  (hook_openai H s).2 = Ok tt ->
  hook_openai H (hook_openai H s).1 = ((hook_openai H s).1, Ok tt).
Proof.
  destruct s as [[port cache_db] [base custom] procs].
  assert (forall p procs',
    let s' := HookState {| __port := Some p; __cache_db := cache_db |}
                        {| base_url := base; _custom_headers := custom |} procs' in
    (hook_openai H s').2 = Ok tt ->
    hook_openai H (hook_openai H s').1 = ((hook_openai H s').1, Ok tt)) as Hstarted.
  { intros p procs'. run_hook.
    destruct (mapping_contains custom REDIRECT_HEADER) eqn:Hmark.
    - destruct (base =? proxy_url p) eqn:Hurl; simpl; [| done].
      intros _. by rewrite Hmark, Hurl.
    - destruct custom as [d | d]; simpl; [| done].
      intros _. by rewrite dict_contains_set, String.eqb_refl. }
  destruct port as [p |]; [apply Hstarted |].
  specialize (Hstarted (free_port H)
                (procs ++ [ {| proc_port := free_port H;
                               proc_cache_db := cache_db;
                               proc_daemon := true |} ])%list).
  revert Hstarted. run_hook.
  destruct (server_ready H (free_port H)); simpl; [| done].
  intros Hstarted. apply Hstarted.
Qed.

(** C7. On a client that does not carry the marker header yet and keeps
    its headers in a plain dict, with a proxy that comes up when it has to
    be started, the first call of the hook succeeds, stores the client's
    base endpoint under [X-Cache-Redirect-To] and sets the base endpoint to
    the proxy's.  The second call succeeds as well and leaves the client,
    the port and the started processes exactly as the first call left
    them. *)
Theorem hook_is_idempotent (H : hook_env) (s : hook_state) (d : dict) :
  _custom_headers (client s) = PlainDict d ->
  dict_contains d REDIRECT_HEADER = false ->
  (__port (rc s) = None -> server_ready H (free_port H) = true) ->
  let port := default (free_port H) (__port (rc s)) in
  let first := hook_openai H s in
  let second := hook_openai H first.1 in
  first.2 = Ok tt
  /\ __port (rc first.1) = Some port
  /\ base_url (client first.1) = proxy_url port
  /\ _custom_headers (client first.1)
     = PlainDict (dict_set d REDIRECT_HEADER (base_url (client s)))
  /\ dict_get (dict_set d REDIRECT_HEADER (base_url (client s))) REDIRECT_HEADER
     = Some (base_url (client s))
  /\ second.2 = Ok tt
  /\ second.1 = first.1.
Proof.
  intros Hdict Hfresh Hready port first second.
  assert (first.2 = Ok tt
          /\ __port (rc first.1) = Some port
          /\ base_url (client first.1) = proxy_url port
          /\ _custom_headers (client first.1)
             = PlainDict (dict_set d REDIRECT_HEADER (base_url (client s))))
    as (Hok & Hport & Hurl & Hheaders).
  { subst first second port.
    destruct s as [[port cache_db] [base custom] procs]. simpl in *. subst custom.
    destruct port as [p |]; run_hook.
    - unfold dict_contains in Hfresh.
      destruct (dict_get d REDIRECT_HEADER) eqn:Hget; [done |].
      unfold dict_contains. by rewrite Hget.
    - rewrite Hready by done. simpl.
      unfold dict_contains in *.
      destruct (dict_get d REDIRECT_HEADER) eqn:Hget; [done |]. done. }
  split; [done |]. split; [done |]. split; [done |]. split; [done |].
  split; [by rewrite dict_get_set, String.eqb_refl |].
  subst second first. by rewrite (hook_openai_again H s Hok).
Qed.

(** ** The environment toggle *)

(** C9 as stated fails: [READ] is none of the three values, and the
    handler is constructed, in read-only mode. *)
Lemma upper_case_toggle_is_accepted :
  ~ In "READ" [EmptyString; "read"; "write"]
  /\ __init__ (Demo.env (Some "READ") 200) "cache.sqlite"
     = Ok {| db_path := "cache.sqlite"; db := None; file_cache_mode := "read" |}.
Proof.
  split; [| reflexivity].
  simpl. intros [H | [H | [H | []]]]; discriminate H.
Qed.

(** C9, as the code has it. The value of [FILE_CACHE] (empty when the
    variable is absent) is put in lower case before it is compared:
    construction succeeds exactly when the lower-cased value is empty,
    [read] or [write], the mode of the handler is then that lower-cased
    value, and for every other value construction raises [ValueError]. *)
Theorem toggle_is_compared_in_lower_case (E : environ) (path : string) :
  let value := default EmptyString (FILE_CACHE E) in
  ((exists self, __init__ E path = Ok self)
   <-> In (lower value) [EmptyString; "read"; "write"])
  /\ ((exists msg, __init__ E path = Raise (ValueError msg))
      <-> ~ In (lower value) [EmptyString; "read"; "write"])
  /\ (forall self, __init__ E path = Ok self ->
      file_cache_mode self = lower value /\ db self = None /\ db_path self = path).
Proof.
  intros value. unfold __init__. fold value.
  change [EmptyString; "read"; "write"] with modes.
  destruct (str_in (lower value) modes) eqn:Hin; simpl.
  - apply str_in_spec in Hin.
    split; [split; [done | by eauto] |].
    split; [split; [by intros [msg [=]] | done] |].
    by intros self [= <-].
  - assert (~ In (lower value) modes) as Hnot.
    { intros Hyes%str_in_spec. congruence. }
    split; [split; [by intros [self [=]] | done] |].
    split; [split; [done | by eauto] |].
    by intros self [=].
Qed.

(** ** The statements at the sample data *)

Example demo_cache_key :
  cache_key_of (Demo.handler EmptyString) Demo.request "http://stub/" = Demo.cache_key.
Proof. vm_compute. reflexivity. Qed.

Lemma only_success_is_cached_witness :
  let E := Demo.env None 500 in
  let self := Demo.handler EmptyString in
  let w' := (handle_request E self Demo.request Demo.empty_world).1 in
  (db self = Some (Connect "cache.sqlite")
   /\ file_cache_mode self <> "read"
   /\ routing_header Demo.request = Some "http://stub/"
   /\ select_by_key (cache_key_of self Demo.request "http://stub/")
        (cache_table Demo.empty_world) = None
   /\ upstream E (upstream_calls (trace Demo.empty_world))
        (forwarded_request Demo.request "http://stub/")
      = UpResponse 500 Demo.upstream_headers [Demo.body_ok])
  /\ ((exists r, select_by_key (cache_key_of self Demo.request "http://stub/")
                   (cache_table w') = Some r)
      <-> (200 <= 500 < 300)%Z).
Proof.
  intros E self w'.
  assert (db self = Some (Connect "cache.sqlite")) as h1 by reflexivity.
  assert (file_cache_mode self <> "read") as h2 by (vm_compute; discriminate).
  assert (routing_header Demo.request = Some "http://stub/") as h3 by reflexivity.
  assert (select_by_key (cache_key_of self Demo.request "http://stub/")
            (cache_table Demo.empty_world) = None) as h4 by reflexivity.
  assert (upstream E (upstream_calls (trace Demo.empty_world))
            (forwarded_request Demo.request "http://stub/")
          = UpResponse 500 Demo.upstream_headers [Demo.body_ok]) as h5
    by reflexivity.
  split; [tauto |].
  exact (proj1 (proj2 (only_success_is_cached E self Demo.request Demo.empty_world
                         (Connect "cache.sqlite") "http://stub/" 500
                         Demo.upstream_headers [Demo.body_ok] h1 h2 h3 h4 h5))).
Defined.

Lemma read_only_mode_witness :
  let E := Demo.env (Some "read") 200 in
  let self := Demo.handler "read" in
  file_cache_mode self = "read"
  /\ Forall (fun ev => is_store_or_upstream ev = false)
       (new_events Demo.empty_world
          (handle_request E self Demo.request Demo.empty_world).1).
Proof.
  intros E self.
  assert (file_cache_mode self = "read") as h1 by reflexivity.
  split; [exact h1 |].
  exact (proj1 (proj2 (proj2 (proj2
           (read_only_mode_consults_only_the_overlay E self Demo.request
              Demo.empty_world h1))))).
Defined.

Lemma framing_headers_witness :
  let E := Demo.env None 200 in
  let self := Demo.handler EmptyString in
  (db self = Some (Connect "cache.sqlite")
   /\ file_cache_mode self <> "read"
   /\ routing_header Demo.request = Some "http://stub/"
   /\ select_by_key (cache_key_of self Demo.request "http://stub/")
        (cache_table Demo.empty_world) = None
   /\ upstream E (upstream_calls (trace Demo.empty_world))
        (forwarded_request Demo.request "http://stub/")
      = UpResponse 200 Demo.upstream_headers [Demo.body_ok])
  /\ exists sr,
       (handle_request E self Demo.request Demo.empty_world).2 = Ok (Streamed sr)
       /\ forall k v, In (k, v) (sr_headers sr) -> is_framing k = false.
Proof.
  intros E self.
  assert (db self = Some (Connect "cache.sqlite")) as h1 by reflexivity.
  assert (file_cache_mode self <> "read") as h2 by (vm_compute; discriminate).
  assert (routing_header Demo.request = Some "http://stub/") as h3 by reflexivity.
  assert (select_by_key (cache_key_of self Demo.request "http://stub/")
            (cache_table Demo.empty_world) = None) as h4 by reflexivity.
  assert (upstream E (upstream_calls (trace Demo.empty_world))
            (forwarded_request Demo.request "http://stub/")
          = UpResponse 200 Demo.upstream_headers [Demo.body_ok]) as h5
    by reflexivity.
  split; [tauto |].
  destruct (framing_headers_are_stripped_for_the_caller E self Demo.request
              Demo.empty_world (Connect "cache.sqlite") "http://stub/" 200
              Demo.upstream_headers [Demo.body_ok] h1 h2 h3 h4 h5)
    as (sr & Hres & _ & _ & Hheaders & _).
  exists sr. split; [exact Hres |].
  intros k v Hin. exact (proj2 (Hheaders k v Hin)).
Defined.

Lemma key_derivation_witness :
  Demo.swapped_fields ≡ₚ request_data "POST" "/v1/thing" Demo.body_a1 "http://stub/"
  /\ Sha256.hexdigest (encode (json_dumps_sort_keys Demo.swapped_fields))
     = (_hash_request (Demo.handler "read") "POST" "/v1/thing" Demo.body_a1
          "http://stub/").1.
Proof.
  assert (Demo.swapped_fields
          ≡ₚ request_data "POST" "/v1/thing" Demo.body_a1 "http://stub/") as h1.
  { apply (bool_decide_unpack _). vm_compute. exact I. }
  split; [exact h1 |].
  exact (proj1 (proj2 (proj2
           (key_derivation_is_deterministic (Demo.handler "read")
              (Demo.handler "write") "POST" "/v1/thing" Demo.body_a1
              "http://stub/" Demo.swapped_fields h1)))).
Defined.

Lemma hit_is_replayed_witness :
  let E := Demo.env None 200 in
  let self := Demo.handler EmptyString in
  (routing_header Demo.request = Some "http://stub/"
   /\ stored_entry self (cache_key_of self Demo.request "http://stub/")
        Demo.warm_world
      = Some (200%Z, Demo.stored_headers, Demo.body_ok))
  /\ exists reply_headers,
       (handle_request E self Demo.request Demo.warm_world).2
         = Ok (Response 200 reply_headers Demo.body_ok)
       /\ dict_get reply_headers "Content-Length" = Some "11".
Proof.
  intros E self.
  assert (routing_header Demo.request = Some "http://stub/") as h1 by reflexivity.
  assert (stored_entry self (cache_key_of self Demo.request "http://stub/")
            Demo.warm_world
          = Some (200%Z, Demo.stored_headers, Demo.body_ok)) as h2
    by (vm_compute; reflexivity).
  split; [tauto |].
  destruct (hit_is_replayed_with_fresh_length E self Demo.request Demo.warm_world
              "http://stub/" 200 Demo.stored_headers Demo.body_ok h1 h2)
    as (reply_headers & Hres & Hlen & _).
  exists reply_headers. split; [exact Hres | exact Hlen].
Defined.

Lemma put_is_insert_or_replace_witness :
  let E := Demo.env None 200 in
  let self := Demo.handler EmptyString in
  let earlier := [("k1", 200%Z, [("A", "1")], Demo.body_a1)] in
  let later := [("k2", 204%Z, [], [])] in
  (db self = Some (Connect "cache.sqlite")
   /\ NoDup Demo.upstream_headers.*1
   /\ Forall (fun p => put_key p <> "k1") later)
  /\ rows_with_key "k1"
       (cache_table
          (put_all E self
             (earlier ++ ("k1", 201%Z, Demo.upstream_headers, Demo.body_ok) :: later)
             Demo.empty_world).1)
     = [Row "k1" 201 (json_dumps Demo.upstream_headers) Demo.body_ok (time_time E)].
Proof.
  intros E self earlier later.
  assert (db self = Some (Connect "cache.sqlite")) as h1 by reflexivity.
  assert (NoDup Demo.upstream_headers.*1) as h2.
  { apply (bool_decide_unpack _). vm_compute. exact I. }
  assert (Forall (fun p => put_key p <> "k1") later) as h3.
  { apply (bool_decide_unpack _). vm_compute. exact I. }
  split; [tauto |].
  exact (proj1 (proj2
           (put_is_insert_or_replace E self (Connect "cache.sqlite")
              Demo.empty_world earlier later "k1" 201 Demo.upstream_headers
              Demo.body_ok h1 h2 h3))).
Defined.

Lemma hook_is_idempotent_witness :
  let H := Demo.hook_surroundings in
  let s := Demo.hook_start in
  let d := [("X-Title", "agentica")] in
  (_custom_headers (client s) = PlainDict d
   /\ dict_contains d REDIRECT_HEADER = false
   /\ (__port (rc s) = None -> server_ready H (free_port H) = true))
  /\ (hook_openai H (hook_openai H s).1).1 = (hook_openai H s).1.
Proof.
  intros H s d.
  assert (_custom_headers (client s) = PlainDict d) as h1 by reflexivity.
  assert (dict_contains d REDIRECT_HEADER = false) as h2 by reflexivity.
  assert (__port (rc s) = None -> server_ready H (free_port H) = true) as h3
    by (intros _; reflexivity).
  split; [tauto |].
  exact (proj2 (proj2 (proj2 (proj2 (proj2 (proj2
           (hook_is_idempotent H s d h1 h2 h3))))))).
Defined.

Lemma missing_routing_header_witness :
  Forall (fun kv => lower kv.1 <> "x-cache-redirect-to")
         (req_headers Demo.bare_request)
  /\ handle_request (Demo.env None 200) (Demo.handler EmptyString)
       Demo.bare_request Demo.empty_world
     = (Demo.empty_world, Ok (TextResponse 400 "Missing X-Cache-Redirect-To header")).
Proof.
  assert (Forall (fun kv => lower kv.1 <> "x-cache-redirect-to")
                 (req_headers Demo.bare_request)) as h1.
  { apply (bool_decide_unpack _). vm_compute. exact I. }
  split; [exact h1 |].
  exact (missing_routing_header_is_400 (Demo.env None 200)
           (Demo.handler EmptyString) Demo.bare_request Demo.empty_world h1).
Defined.

Lemma snapshot_write_failure_witness :
  let E := Demo.env_read_only_disk in
  let self := Demo.handler "write" in
  let cache_key := cache_key_of self Demo.request "http://stub/" in
  (db self = Some (Connect "cache.sqlite")
   /\ file_cache_mode self = "write"
   /\ routing_header Demo.request = Some "http://stub/"
   /\ select_by_key cache_key (cache_table Demo.empty_world) = None
   /\ upstream E (upstream_calls (trace Demo.empty_world))
        (forwarded_request Demo.request "http://stub/")
      = UpResponse 200 Demo.upstream_headers [Demo.body_ok]
   /\ (200 <= 200 < 300)%Z
   /\ write_fault E (_get_file_cache_path self cache_key)
      = Some (OpenFails (OSError "[Errno 30] Read-only file system")))
  /\ (handle_request E self Demo.request Demo.empty_world).2
     = Ok (Streamed (relayed 200 Demo.upstream_headers [Demo.body_ok])).
Proof.
  intros E self cache_key.
  assert (db self = Some (Connect "cache.sqlite")) as h1 by reflexivity.
  assert (file_cache_mode self = "write") as h2 by reflexivity.
  assert (routing_header Demo.request = Some "http://stub/") as h3 by reflexivity.
  assert (select_by_key cache_key (cache_table Demo.empty_world) = None) as h4
    by reflexivity.
  assert (upstream E (upstream_calls (trace Demo.empty_world))
            (forwarded_request Demo.request "http://stub/")
          = UpResponse 200 Demo.upstream_headers [Demo.body_ok]) as h5
    by reflexivity.
  assert ((200 <= 200 < 300)%Z) as h6 by lia.
  assert (write_fault E (_get_file_cache_path self cache_key)
          = Some (OpenFails (OSError "[Errno 30] Read-only file system"))) as h7
    by reflexivity.
  split; [tauto |].
  exact (proj1 (snapshot_write_failure_is_logged E self Demo.request
                  Demo.empty_world (Connect "cache.sqlite") "http://stub/" 200
                  Demo.upstream_headers [Demo.body_ok]
                  (OpenFails (OSError "[Errno 30] Read-only file system"))
                  h1 h2 h3 h4 h5 h6 h7)).
Defined.

(** ** Known answers

    Values computed by CPython 3.11 for the same inputs. *)

Example sha256_constants :
  length Sha256.K = 64%nat
  /\ head Sha256.K = Some 0x428a2f98%Z /\ last Sha256.K = Some 0xc67178f2%Z
  /\ head Sha256.H0 = Some 0x6a09e667%Z /\ last Sha256.H0 = Some 0x5be0cd19%Z.
Proof. vm_compute. auto. Qed.

Example sha256_abc :
  Sha256.hexdigest (encode "abc")
    = "ba7816bf8f01cfea414140de5dae2223b00361a396177a9cb410ff61f20015ad".
Proof. vm_compute. reflexivity. Qed.

Example sha256_empty :
  Sha256.hexdigest []
    = "e3b0c44298fc1c149afbf4c8996fb92427ae41e4649b934ca495991b7852b855".
Proof. vm_compute. reflexivity. Qed.

Example sha256_two_blocks :
  Sha256.hexdigest (encode "abcdbcdecdefdefgefghfghighijhijkijkljklmklmnlmnomnopnopq")
    = "248d6a61d20638b8e5c026930c3e6039a33ce45964ff2167f6ecedd419db06c1".
Proof. vm_compute. reflexivity. Qed.

Example b64encode_hello : b64encode (encode "hello") = "aGVsbG8=".
Proof. vm_compute. reflexivity. Qed.

Example b64decode_hello : b64decode "aGVsbG8=" = inr (encode "hello").
Proof. vm_compute. reflexivity. Qed.

Example b64decode_skips_noise : b64decode "aG Vs*bG8=QUJD" = inr (encode "hello").
Proof. vm_compute. reflexivity. Qed.

Example b64decode_short : b64decode "QQ" = inl "Incorrect padding".
Proof. vm_compute. reflexivity. Qed.

Example utf8_two_bytes : utf8_decode_ignore [195; 169]%N = [233]%N.
Proof. vm_compute. reflexivity. Qed.

Example utf8_broken_sequence : utf8_decode_ignore [226; 40; 161; 65]%N = [40; 65]%N.
Proof. vm_compute. reflexivity. Qed.

Example utf8_cut_short : utf8_decode_ignore [65; 240; 159; 152]%N = [65]%N.
Proof. vm_compute. reflexivity. Qed.

Example utf8_four_bytes : utf8_decode_ignore [240; 159; 152; 128]%N = [128512]%N.
Proof. vm_compute. reflexivity. Qed.

Example json_escape_astral : json_escape 128512 = "\ud83d\ude00".
Proof. vm_compute. reflexivity. Qed.

Example canonical_string_of_request :
  (_hash_request (Demo.handler EmptyString) "POST" "/v1/thing" Demo.body_a1
     "http://stub/").2
    = String.concat Demo.q
        [ "{"; "body"; ": "; "{\"; "a\"; ":1}"; ", "; "method"; ": "; "POST"; ", ";
          "path"; ": "; "/v1/thing"; ", "; "redirect_url"; ": "; "http://stub/"; "}" ].
Proof. vm_compute. reflexivity. Qed.

Example rstrip_slash_url : rstrip_slash "http://stub//" = "http://stub".
Proof. vm_compute. reflexivity. Qed.

Example lower_header : lower "Content-LENGTH" = "content-length".
Proof. vm_compute. reflexivity. Qed.

Example second_request_is_a_hit :
  let E := Demo.env None 200 in
  let self := Demo.handler EmptyString in
  let first := handle_request E self Demo.request Demo.empty_world in
  let second := handle_request E self Demo.request first.1 in
  upstream_calls (trace first.1) = 1%nat
  /\ upstream_calls (trace second.1) = 1%nat
  /\ second.2
     = Ok (Response 200 [("Content-Type", "application/json"); ("Content-Length", "11")]
             Demo.body_ok).
Proof. vm_compute. auto. Qed.

Example failure_is_not_cached :
  let E := Demo.env None 500 in
  let self := Demo.handler EmptyString in
  let first := handle_request E self Demo.request Demo.empty_world in
  let second := handle_request E self Demo.request first.1 in
  cache_table first.1 = []
  /\ upstream_calls (trace first.1) = 1%nat
  /\ upstream_calls (trace second.1) = 2%nat
  /\ second.2
     = Ok (Streamed {| sr_status := 500;
                       sr_headers := [("Content-Type", "application/json")];
                       sr_prepared := true;
                       sr_written := [Demo.body_ok] |}).
Proof. vm_compute. auto. Qed.

Example read_only_miss_raises :
  let E := Demo.env (Some "read") 200 in
  let self := Demo.handler "read" in
  let run := handle_request E self Demo.request Demo.empty_world in
  upstream_calls (trace run.1) = 0%nat
  /\ exists canonical,
       run.2 = Raise (RuntimeError (miss_message Demo.cache_key canonical)).
Proof. vm_compute. eauto. Qed.

Example write_through_then_read_only :
  let self := Demo.handler "write" in
  let first := handle_request (Demo.env (Some "write") 200) self Demo.request
                 Demo.empty_world in
  let second := handle_request (Demo.env (Some "read") 200) (Demo.handler "read")
                  Demo.request first.1 in
  upstream_calls (trace second.1) = 1%nat
  /\ second.2
     = Ok (Response 200 [("Content-Type", "application/json"); ("Content-Length", "11")]
             Demo.body_ok).
Proof. vm_compute. auto. Qed.

Example construction_from_the_environment :
  (create_cache_app (Demo.env (Some "Write") 200) "cache.sqlite" Demo.empty_world).2
    = Ok (Demo.handler "write")
  /\ exists msg,
       (create_cache_app (Demo.env (Some "append") 200) "cache.sqlite"
          Demo.empty_world).2 = Raise (ValueError msg).
Proof. vm_compute. eauto. Qed.

(** * Further properties *)

Import Paths Octets.

(** ** Every request takes one of the paths *)

Lemma handle_request_forward_any (E : environ) (self : CacheHandler)
    (request : Request) (w : world) (redirect_url : string) :
  String.eqb (file_cache_mode self) "read" = false ->
  routing_header request = Some redirect_url ->
  is_miss self (cache_key_of self request redirect_url) w ->
  handle_request E self request w
    = match upstream E (upstream_calls (trace w))
              (forwarded_request request redirect_url) with
      | UpFailure e =>
          (add_event (EvUpstream (forwarded_request request redirect_url))
                     (looked_up self request redirect_url w),
           Raise e)
      | UpResponse status response_headers chunks =>
          (after_response E self request redirect_url status response_headers
                          chunks w,
           Ok (Streamed (relayed status response_headers chunks)))
      end.
Proof.
  intros Hmode Hroute Hmiss.
  apply routing_header_Some in Hroute as (c & r & -> & Hget).
  unfold handle_request. rewrite Hget.
  unfold after_response, looked_up, after_save, hashed, is_miss, cache_key_of in *.
  destruct (_hash_request _ _ _ _ _) as [cache_key cache_key_str] eqn:Hkey.
  simpl in Hmiss |- *. rewrite Hmode.
  unfold bind at 1. unfold log at 1, modify at 1.
  unfold bind at 1.
  assert (exists w1,
    _get_cached_response self cache_key
      (add_event (EvHash (method request) (path_qs request) (req_body request)
                         (String c r)) w) = (w1, Ok None)
    /\ w1 = match db self with
            | Some _ =>
                add_event (EvSelect cache_key)
                  (add_event (EvHash (method request) (path_qs request)
                                     (req_body request) (String c r)) w)
            | None =>
                add_event (EvHash (method request) (path_qs request)
                                  (req_body request) (String c r)) w
            end
    /\ upstream_calls (trace w1) = upstream_calls (trace w)) as (w1 & -> & Hw1 & Hcalls).
  { destruct (db self) as [conn |] eqn:Hdb.
    - destruct Hmiss as [Hnone | Hmiss]; [done |].
      rewrite (_get_cached_response_run self conn cache_key _ Hdb).
      change (cache_table (add_event ?a w)) with (cache_table w). rewrite Hmiss.
      eexists. split; [reflexivity |]. split; [done |].
      by rewrite !upstream_calls_add_event, !Nat.add_0_r.
    - unfold _get_cached_response. rewrite Hdb.
      eexists. split; [reflexivity |]. split; [done |].
      by rewrite !upstream_calls_add_event, !Nat.add_0_r. }
  rewrite <- Hw1. clear Hw1.
  unfold bind at 1. unfold _forward_request.
  unfold bind at 1. unfold get_state at 1.
  unfold bind at 1. unfold log at 1, modify at 1.
  rewrite Hcalls.
  fold (forwarded_request request (String c r)).
  destruct (upstream E _ _) as [status response_headers chunks | e]; [| done].
  unfold ret at 1. fold (relayed status response_headers chunks).
  unfold bind at 1.
  destruct (is_2xx status); [| reflexivity].
  unfold bind at 1. unfold _save_response.
  fold (row_of E cache_key status response_headers chunks).
  destruct (db self) as [conn |].
  - unfold bind at 1. unfold log at 1, modify at 1. unfold modify at 1.
    destruct (file_cache_mode self =? "write"); [| reflexivity].
    unfold _save_file_cached_response, after_file_write.
    fold (snapshot_of E status response_headers chunks).
    unfold bind at 1. unfold log at 1, modify at 1.
    destruct (write_fault E _) as [[? | ? ?] |]; reflexivity.
  - unfold ret at 1.
    destruct (file_cache_mode self =? "write"); [| reflexivity].
    unfold _save_file_cached_response, after_file_write.
    fold (snapshot_of E status response_headers chunks).
    unfold bind at 1. unfold log at 1, modify at 1.
    destruct (write_fault E _) as [[? | ? ?] |]; reflexivity.
Qed.

Lemma handle_request_bad_row (E : environ) (self : CacheHandler)
    (request : Request) (w : world) (conn : Connection) (redirect_url : string)
    (r : row) :
  String.eqb (file_cache_mode self) "read" = false ->
  routing_header request = Some redirect_url ->
  db self = Some conn ->
  select_by_key (cache_key_of self request redirect_url) (cache_table w) = Some r ->
  json_loads (r_headers r) = None ->
  handle_request E self request w
    = (looked_up self request redirect_url w, Raise (JSONDecodeError (r_headers r))).
Proof.
  intros Hmode Hroute Hdb Hrow Hbad.
  apply routing_header_Some in Hroute as (c & r0 & -> & Hget).
  unfold handle_request. rewrite Hget.
  unfold looked_up, hashed, cache_key_of in *. rewrite Hdb.
  destruct (_hash_request _ _ _ _ _) as [cache_key cache_key_str] eqn:Hkey.
  simpl in Hrow |- *. rewrite Hmode.
  unfold bind at 1. unfold log at 1, modify at 1.
  unfold bind at 1.
  rewrite (_get_cached_response_run self conn cache_key _ Hdb).
  change (cache_table (add_event ?a w)) with (cache_table w).
  by rewrite Hrow, Hbad.
Qed.

Lemma handle_request_handled (E : environ) (self : CacheHandler)
    (request : Request) (w : world) :
  handled E self request w (handle_request E self request w).1
          (handle_request E self request w).2.
Proof.
  destruct (routing_header request) as [redirect_url |] eqn:Hroute.
  2: { rewrite (handle_request_no_route _ _ _ _ Hroute). by constructor. }
  destruct (String.eqb (file_cache_mode self) "read") eqn:Hmode.
  { apply String.eqb_eq in Hmode.
    destruct (handle_request_read E self request w redirect_url Hmode Hroute)
      as (w' & Htab & Hfiles & Htrace & ->).
    simpl fst; simpl snd. by apply Handled_read_only. }
  assert (file_cache_mode self <> "read") as Hne by (by apply String.eqb_neq).
  destruct (stored_entry self (cache_key_of self request redirect_url) w)
    as [hit |] eqn:Hstored.
  { rewrite (handle_request_hit E self request w redirect_url hit Hmode Hroute Hstored).
    simpl fst; simpl snd.
    assert (looked_up self request redirect_url w
            = add_event (EvSelect (cache_key_of self request redirect_url))
                (add_event (EvHash (method request) (path_qs request)
                                   (req_body request) redirect_url) w)) as <-.
    { unfold looked_up, hashed. unfold stored_entry in Hstored.
      rewrite Hmode in Hstored. by destruct (db self). }
    by apply Handled_hit. }
  unfold stored_entry in Hstored. rewrite Hmode in Hstored.
  destruct (db self) as [conn |] eqn:Hdb.
  - destruct (select_by_key _ _) as [r |] eqn:Hrow.
    + destruct (json_loads (r_headers r)) eqn:Hloads; [done |].
      rewrite (handle_request_bad_row E self request w conn redirect_url r);
        try done.
      simpl fst; simpl snd.
      apply Handled_bad_row; try done. by rewrite Hdb.
    + assert (is_miss self (cache_key_of self request redirect_url) w) as Hmiss
        by (by right).
      rewrite (handle_request_forward_any E self request w redirect_url Hmode Hroute Hmiss).
      destruct (upstream E _ _) eqn:Hup; simpl fst; simpl snd.
      * by apply Handled_forwarded.
      * by apply Handled_upstream_failure.
  - assert (is_miss self (cache_key_of self request redirect_url) w) as Hmiss
      by (by left).
    rewrite (handle_request_forward_any E self request w redirect_url Hmode Hroute Hmiss).
    destruct (upstream E _ _) eqn:Hup; simpl fst; simpl snd.
    + by apply Handled_forwarded.
    + by apply Handled_upstream_failure.
Qed.

(** ** What a request leaves alone *)

Lemma looked_up_frame (self : CacheHandler) (request : Request)
    (redirect_url : string) (w : world) :
  cache_table (looked_up self request redirect_url w) = cache_table w
  /\ files (looked_up self request redirect_url w) = files w
  /\ stdout (looked_up self request redirect_url w) = stdout w
  /\ upstream_calls (trace (looked_up self request redirect_url w))
     = upstream_calls (trace w).
Proof.
  unfold looked_up, hashed. destruct (db self); simpl;
    repeat split; try done;
    by rewrite ?upstream_calls_app, ?Nat.add_0_r.
Qed.

Lemma cache_table_after_response (E : environ) (self : CacheHandler)
    (request : Request) (redirect_url : string) (status : Z)
    (response_headers : multidict) (chunks : list bytes) (w : world) :
  cache_table (after_response E self request redirect_url status response_headers
                 chunks w)
    = if is_2xx status then
        match db self with
        | Some _ =>
            insert_or_replace
              (row_of E (cache_key_of self request redirect_url) status
                      response_headers chunks)
              (cache_table w)
        | None => cache_table w
        end
      else cache_table w.
Proof.
  unfold after_response, after_save, looked_up, hashed.
  destruct (is_2xx status); [| by destruct (db self)].
  destruct (file_cache_mode self =? "write"); unfold after_file_write;
    destruct (db self); try destruct (write_fault E _) as [[? | ? ?] |]; done.
Qed.

Lemma files_after_response (E : environ) (self : CacheHandler)
    (request : Request) (redirect_url : string) (status : Z)
    (response_headers : multidict) (chunks : list bytes) (w : world) :
  let file_path := _get_file_cache_path self (cache_key_of self request redirect_url) in
  files (after_response E self request redirect_url status response_headers chunks w)
    = if is_2xx status && String.eqb (file_cache_mode self) "write" then
        match write_fault E file_path with
        | Some (OpenFails _) => files w
        | Some (WriteFails _ written) => <[file_path := Garbled written]> (files w)
        | None => <[file_path := snapshot_of E status response_headers chunks]> (files w)
        end
      else files w.
Proof.
  unfold after_response, after_save, looked_up, hashed.
  destruct (is_2xx status); [| by destruct (db self)].
  destruct (file_cache_mode self =? "write"); unfold after_file_write;
    destruct (db self); try destruct (write_fault E _) as [[? | ? ?] |]; done.
Qed.

Lemma upstream_calls_after_response (E : environ) (self : CacheHandler)
    (request : Request) (redirect_url : string) (status : Z)
    (response_headers : multidict) (chunks : list bytes) (w : world) :
  upstream_calls
    (trace (after_response E self request redirect_url status response_headers
              chunks w))
    = S (upstream_calls (trace w)).
Proof.
  unfold after_response, after_save, looked_up, hashed.
  destruct (is_2xx status); [destruct (file_cache_mode self =? "write") |];
    unfold after_file_write;
    destruct (db self); try destruct (write_fault E _) as [[? | ? ?] |]; simpl;
    rewrite ?upstream_calls_app; unfold upstream_calls; simpl; lia.
Qed.

Lemma str_length_app (s t : string) :
  String.length (s ++ t) = (String.length s + String.length t)%nat.
Proof. induction s as [| c s IH]; [done |]. rewrite str_app_cons. simpl. by rewrite IH. Qed.

Lemma str_app_inj_r (s s' t : string) : s ++ t = s' ++ t -> s = s'.
Proof.
  revert s'. induction s as [| c s IH]; intros [| c' s'] Heq; [done | | |].
  - apply (f_equal String.length) in Heq.
    rewrite str_app_nil_l, str_app_cons in Heq. simpl in Heq.
    rewrite str_length_app in Heq. lia.
  - apply (f_equal String.length) in Heq.
    rewrite str_app_nil_l, str_app_cons in Heq. simpl in Heq.
    rewrite str_length_app in Heq. lia.
  - rewrite !str_app_cons in Heq. injection Heq as -> Heq.
    by rewrite (IH s' Heq).
Qed.

(** Each key has a file of its own. *)
Lemma _get_file_cache_path_inj (self self' : CacheHandler) (k k' : string) :
  _get_file_cache_path self k = _get_file_cache_path self' k' -> k = k'.
Proof.
  unfold _get_file_cache_path. intros Heq.
  apply (inj (String.app FILE_CACHE_DIR)) in Heq.
  apply (inj (String.app "/")) in Heq.
  by apply str_app_inj_r in Heq.
Qed.

(** X1. A request changes no entry but its own: for a key that is not the
    key of the request, the rows of the table under that key and the
    snapshot file of that key are after the request what they were before,
    whatever path the request takes. *)
Theorem request_leaves_other_entries (E : environ) (self : CacheHandler)
    (request : Request) (w : world) (k : string) :
  (forall redirect_url, routing_header request = Some redirect_url ->
   k <> cache_key_of self request redirect_url) ->
  let w' := (handle_request E self request w).1 in
  rows_with_key k (cache_table w') = rows_with_key k (cache_table w)
  /\ files w' !! _get_file_cache_path self k = files w !! _get_file_cache_path self k.
Proof.
  intros Hother w'. subst w'.
  pose proof (handle_request_handled E self request w) as Hh.
  remember (handle_request E self request w).1 as w' eqn:Hw'.
  remember (handle_request E self request w).2 as res eqn:Hres.
  clear Hw' Hres.
  destruct Hh as [Hroute | u w' Hmode Hroute Htab Hfiles Htrace
                  | u hit Hmode Hroute Hhit | u r Hmode Hroute Hdb Hrow Hbad
                  | u e Hmode Hroute Hmiss Hup | u status hs chunks Hmode Hroute Hmiss Hup].
  - done.
  - by rewrite Htab, Hfiles.
  - by destruct (looked_up_frame self request u w) as (-> & -> & _).
  - by destruct (looked_up_frame self request u w) as (-> & -> & _).
  - simpl. by destruct (looked_up_frame self request u w) as (-> & -> & _).
  - specialize (Hother u Hroute).
    rewrite cache_table_after_response, files_after_response. split.
    + destruct (is_2xx status); [| done]. destruct (db self); [| done].
      by apply rows_with_key_insert_ne.
    + destruct (is_2xx status && (file_cache_mode self =? "write")); [| done].
      destruct (write_fault E _) as [[? | ? ?] |]; [done | |];
        (apply lookup_insert_ne; intros Heq;
         by apply _get_file_cache_path_inj in Heq).
Qed.

(** X2. Outside write-through mode the snapshot directory is never
    written: whatever the request and whatever path it takes, the files are
    after it what they were before and no write of a file is among its
    events. *)
Theorem snapshots_are_written_in_write_mode_only (E : environ)
    (self : CacheHandler) (request : Request) (w : world) :
  file_cache_mode self <> "write" ->
  let w' := (handle_request E self request w).1 in
  files w' = files w
  /\ Forall (fun ev => match ev with EvFileWrite _ => False | _ => True end)
            (new_events w w').
Proof.
  intros Hmode w'. subst w'.
  apply String.eqb_neq in Hmode.
  pose proof (handle_request_handled E self request w) as Hh.
  remember (handle_request E self request w).1 as w' eqn:Hw'.
  remember (handle_request E self request w).2 as res eqn:Hres.
  clear Hw' Hres.
  destruct Hh as [Hroute | u w' Hread Hroute Htab Hfiles Htrace
                  | u hit Hread Hroute Hhit | u r Hread Hroute Hdb Hrow Hbad
                  | u e Hread Hroute Hmiss Hup | u status hs chunks Hread Hroute Hmiss Hup].
  - by rewrite new_events_nil.
  - split; [done |]. simpl in Htrace. rewrite <- !app_assoc in Htrace.
    rewrite (new_events_app _ _ _ Htrace). by repeat constructor.
  - split; [by destruct (looked_up_frame self request u w) as (_ & -> & _) |].
    unfold looked_up, hashed. destruct (db self); simpl.
    + rewrite (new_events_app w _ [EvHash (method request) (path_qs request)
                                      (req_body request) u;
                                   EvSelect (cache_key_of self request u)]);
        [by repeat constructor | simpl; by rewrite <- !app_assoc].
    + rewrite (new_events_app w _ [EvHash (method request) (path_qs request)
                                      (req_body request) u]);
        [by repeat constructor | done].
  - split; [by destruct (looked_up_frame self request u w) as (_ & -> & _) |].
    unfold looked_up, hashed. destruct (db self); [| done]. simpl.
    rewrite (new_events_app w _ [EvHash (method request) (path_qs request)
                                    (req_body request) u;
                                 EvSelect (cache_key_of self request u)]);
      [by repeat constructor | simpl; by rewrite <- !app_assoc].
  - split; [simpl; by destruct (looked_up_frame self request u w) as (_ & -> & _) |].
    unfold looked_up, hashed. destruct (db self); simpl.
    + rewrite (new_events_app w _ [EvHash (method request) (path_qs request)
                                      (req_body request) u;
                                   EvSelect (cache_key_of self request u);
                                   EvUpstream (forwarded_request request u)]);
        [by repeat constructor | simpl; by rewrite <- !app_assoc].
    + rewrite (new_events_app w _ [EvHash (method request) (path_qs request)
                                      (req_body request) u;
                                   EvUpstream (forwarded_request request u)]);
        [by repeat constructor | simpl; by rewrite <- !app_assoc].
  - rewrite files_after_response, Hmode, andb_false_r. split; [done |].
    unfold after_response, after_save, looked_up, hashed. rewrite Hmode.
    destruct (is_2xx status); destruct (db self); simpl.
    + rewrite (new_events_app w _ [EvHash (method request) (path_qs request)
                                      (req_body request) u;
                                   EvSelect (cache_key_of self request u);
                                   EvUpstream (forwarded_request request u);
                                   EvInsertOrReplace (cache_key_of self request u)]);
        [by repeat constructor | simpl; by rewrite <- !app_assoc].
    + rewrite (new_events_app w _ [EvHash (method request) (path_qs request)
                                      (req_body request) u;
                                   EvUpstream (forwarded_request request u)]);
        [by repeat constructor | simpl; by rewrite <- !app_assoc].
    + rewrite (new_events_app w _ [EvHash (method request) (path_qs request)
                                      (req_body request) u;
                                   EvSelect (cache_key_of self request u);
                                   EvUpstream (forwarded_request request u)]);
        [by repeat constructor | simpl; by rewrite <- !app_assoc].
    + rewrite (new_events_app w _ [EvHash (method request) (path_qs request)
                                      (req_body request) u;
                                   EvUpstream (forwarded_request request u)]);
        [by repeat constructor | simpl; by rewrite <- !app_assoc].
Qed.

(** X3. Whatever path a request takes, it sends at most one request
    upstream, and the table changes only when a response with a status in
    200..299 was relayed: after a 400, a replay, an exception or a relayed
    response with another status the table is what it was. *)
Theorem table_changes_only_on_relayed_success (E : environ) (self : CacheHandler)
    (request : Request) (w : world) :
  let w' := (handle_request E self request w).1 in
  let res := (handle_request E self request w).2 in
  (upstream_calls (trace w) <= upstream_calls (trace w') <= S (upstream_calls (trace w)))%nat
  /\ (cache_table w' = cache_table w
      \/ exists sr, res = Ok (Streamed sr) /\ (200 <= sr_status sr < 300)%Z).
Proof.
  intros w' res. subst w' res.
  pose proof (handle_request_handled E self request w) as Hh.
  remember (handle_request E self request w).1 as w' eqn:Hw'.
  remember (handle_request E self request w).2 as res eqn:Hres.
  clear Hw' Hres.
  destruct Hh as [Hroute | u w' Hread Hroute Htab Hfiles Htrace
                  | u hit Hread Hroute Hhit | u r Hread Hroute Hdb Hrow Hbad
                  | u e Hread Hroute Hmiss Hup | u status hs chunks Hread Hroute Hmiss Hup].
  - split; [lia | by left].
  - split; [| by left]. rewrite Htrace. unfold hashed.
    rewrite !upstream_calls_add_event. simpl. lia.
  - destruct (looked_up_frame self request u w) as (-> & _ & _ & ->).
    split; [lia | by left].
  - destruct (looked_up_frame self request u w) as (-> & _ & _ & ->).
    split; [lia | by left].
  - rewrite upstream_calls_add_event. simpl.
    destruct (looked_up_frame self request u w) as (-> & _ & _ & ->).
    split; [lia | by left].
  - rewrite upstream_calls_after_response. split; [lia |].
    rewrite cache_table_after_response.
    destruct (is_2xx status) eqn:H2xx; [| by left].
    right. exists (relayed status hs chunks). split; [done |].
    rewrite relayed_status. by apply is_2xx_spec.
Qed.

(** ** Edges of the forward path *)

(** X4. A handler that was never initialized has no connection: in
    standard or write-through mode every request that names its target is
    sent upstream, the table is neither read nor written, and a response
    is relayed as usual; the request is never answered from the table. *)
Theorem handler_without_connection_always_forwards (E : environ)
    (self : CacheHandler) (request : Request) (w : world) (redirect_url : string) :
  db self = None ->
  file_cache_mode self <> "read" ->
  routing_header request = Some redirect_url ->
  let w' := (handle_request E self request w).1 in
  let res := (handle_request E self request w).2 in
  cache_table w' = cache_table w
  /\ upstream_calls (trace w') = S (upstream_calls (trace w))
  /\ Forall (fun ev => match ev with
                       | EvSelect _ | EvInsertOrReplace _ => False
                       | _ => True
                       end) (new_events w w')
  /\ match upstream E (upstream_calls (trace w))
             (forwarded_request request redirect_url) with
     | UpResponse status response_headers chunks =>
         res = Ok (Streamed (relayed status response_headers chunks))
     | UpFailure e => res = Raise e
     end.
Proof.
  intros Hdb Hmode Hroute w' res. subst w' res.
  apply String.eqb_neq in Hmode.
  rewrite (handle_request_forward_any E self request w redirect_url Hmode Hroute)
    by (by left).
  destruct (upstream E _ _) as [status hs chunks | e]; simpl fst; simpl snd.
  - rewrite cache_table_after_response, upstream_calls_after_response, Hdb.
    split; [by destruct (is_2xx status) |]. split; [done |]. split; [| done].
    unfold after_response, after_save, looked_up, hashed, after_file_write.
    rewrite Hdb.
    destruct (is_2xx status); [destruct (file_cache_mode self =? "write");
                               [destruct (write_fault E _) as [[? | ? ?] |] |] |]; simpl.
    + rewrite (new_events_app w _
                 [EvHash (method request) (path_qs request) (req_body request)
                         redirect_url;
                  EvUpstream (forwarded_request request redirect_url);
                  EvFileWrite (_get_file_cache_path self
                                 (cache_key_of self request redirect_url))]);
        [by repeat constructor | simpl; by rewrite <- !app_assoc].
    + rewrite (new_events_app w _
                 [EvHash (method request) (path_qs request) (req_body request)
                         redirect_url;
                  EvUpstream (forwarded_request request redirect_url);
                  EvFileWrite (_get_file_cache_path self
                                 (cache_key_of self request redirect_url))]);
        [by repeat constructor | simpl; by rewrite <- !app_assoc].
    + rewrite (new_events_app w _
                 [EvHash (method request) (path_qs request) (req_body request)
                         redirect_url;
                  EvUpstream (forwarded_request request redirect_url);
                  EvFileWrite (_get_file_cache_path self
                                 (cache_key_of self request redirect_url))]);
        [by repeat constructor | simpl; by rewrite <- !app_assoc].
    + rewrite (new_events_app w _
                 [EvHash (method request) (path_qs request) (req_body request)
                         redirect_url;
                  EvUpstream (forwarded_request request redirect_url)]);
        [by repeat constructor | simpl; by rewrite <- !app_assoc].
    + rewrite (new_events_app w _
                 [EvHash (method request) (path_qs request) (req_body request)
                         redirect_url;
                  EvUpstream (forwarded_request request redirect_url)]);
        [by repeat constructor | simpl; by rewrite <- !app_assoc].
  - unfold looked_up, hashed. rewrite Hdb. simpl.
    split; [done |]. split.
    { rewrite !upstream_calls_app. unfold upstream_calls. simpl. lia. }
    split; [| done].
    rewrite (new_events_app w _
               [EvHash (method request) (path_qs request) (req_body request)
                       redirect_url;
                EvUpstream (forwarded_request request redirect_url)]);
      [by repeat constructor | simpl; by rewrite <- !app_assoc].
Qed.

(** X5. When the upstream cannot be reached on a miss, the exception is
    raised to the caller of the handler and nothing is remembered of the
    attempt: the table, the snapshot files and the printed lines are what
    they were, and one request went upstream. *)
Theorem upstream_failure_is_raised_and_not_cached (E : environ)
    (self : CacheHandler) (request : Request) (w : world) (redirect_url : string)
    (e : exn) :
  file_cache_mode self <> "read" ->
  routing_header request = Some redirect_url ->
  is_miss self (cache_key_of self request redirect_url) w ->
  upstream E (upstream_calls (trace w)) (forwarded_request request redirect_url)
    = UpFailure e ->
  let w' := (handle_request E self request w).1 in
  (handle_request E self request w).2 = Raise e
  /\ cache_table w' = cache_table w
  /\ files w' = files w
  /\ stdout w' = stdout w
  /\ upstream_calls (trace w') = S (upstream_calls (trace w)).
Proof.
  intros Hmode Hroute Hmiss Hup w'. subst w'.
  apply String.eqb_neq in Hmode.
  rewrite (handle_request_forward_any E self request w redirect_url Hmode Hroute Hmiss).
  rewrite Hup. simpl.
  destruct (looked_up_frame self request redirect_url w) as (-> & -> & -> & Hcalls).
  repeat split; try done.
  rewrite upstream_calls_app, Hcalls. unfold upstream_calls. simpl. lia.
Qed.

(** ** Snapshot files *)

(** X6. In read-only mode a snapshot file that cannot be decoded (text
    that is not JSON, a missing member, a body that is not base64) does not
    crash the lookup: the decoding error is printed with the path of the
    file, the request is treated as a miss and raises the [RuntimeError] of
    a miss, and nothing goes upstream. *)
Theorem unreadable_snapshot_is_a_miss (E : environ) (self : CacheHandler)
    (request : Request) (w : world) (redirect_url : string) (c : file_content)
    (e : exn) :
  file_cache_mode self = "read" ->
  routing_header request = Some redirect_url ->
  files w !! _get_file_cache_path self (cache_key_of self request redirect_url)
    = Some c ->
  load_snapshot c = Raise e ->
  let cache_key := cache_key_of self request redirect_url in
  let cache_key_str :=
    (_hash_request self (method request) (path_qs request) (req_body request)
       redirect_url).2 in
  let w' := (handle_request E self request w).1 in
  (handle_request E self request w).2
    = Raise (RuntimeError (miss_message cache_key cache_key_str))
  /\ stdout w'
     = (stdout w ++ [ErrorReading (_get_file_cache_path self cache_key) e])%list
  /\ files w' = files w
  /\ cache_table w' = cache_table w
  /\ upstream_calls (trace w') = upstream_calls (trace w).
Proof.
  intros Hmode Hroute Hfile Hload cache_key cache_key_str w'.
  assert (handle_request E self request w
          = (after_miss_report E (miss_message cache_key cache_key_str)
               (add_line (ErrorReading (_get_file_cache_path self cache_key) e)
                  (add_event (EvFileRead (_get_file_cache_path self cache_key))
                     (hashed request redirect_url w))),
             Raise (RuntimeError (miss_message cache_key cache_key_str)))) as Hrun.
  { subst cache_key cache_key_str w'.
    apply routing_header_Some in Hroute as (c0 & r & -> & Hget).
    unfold handle_request. rewrite Hget.
    unfold cache_key_of, hashed in *.
    destruct (_hash_request _ _ _ _ _) as [cache_key cache_key_str] eqn:Hkey.
    rewrite Hmode. simpl in Hfile |- *.
    unfold bind at 1. unfold log at 1, modify at 1.
    unfold bind at 1. unfold _get_file_cached_response.
    unfold bind at 1. unfold log at 1, modify at 1.
    unfold bind at 1. unfold get_state at 1.
    change (files (add_event ?a (add_event ?b w))) with (files w).
    rewrite Hfile, Hload, (load_snapshot_error _ _ Hload).
    unfold bind, print, modify, ret, raise, append_github_output, after_miss_report.
    by destruct (GITHUB_OUTPUT E) as [[| ? ?] |]. }
  subst w'. rewrite Hrun. simpl fst; simpl snd.
  unfold after_miss_report, hashed.
  destruct (GITHUB_OUTPUT E) as [[| ? ?] |]; simpl;
    (repeat split; try done;
     rewrite !upstream_calls_app; unfold upstream_calls; simpl; lia).
Qed.

(** ** Base64: what is written is read back *)

Lemma for_all_spec (P : N -> bool) (n : N) :
  Octets.for_all P = true -> (n < 256)%N -> P n = true.
Proof.
  unfold Octets.for_all, Octets.values. rewrite forallb_forall.
  intros Hall Hn. apply Hall.
  apply in_map_iff. exists (N.to_nat n). split; [apply N2Nat.id |].
  apply in_seq. lia.
Qed.

Lemma for_all2_spec (P : N -> N -> bool) (a b : N) :
  Octets.for_all2 P = true -> (a < 256)%N -> (b < 256)%N -> P a b = true.
Proof.
  intros Hall Ha Hb.
  apply (for_all_spec (P a)); [| done].
  by apply (for_all_spec (fun a => Octets.for_all (P a))).
Qed.

Lemma to_N_lt (x : byte) : (Byte.to_N x < 256)%N.
Proof. pose proof (Byte.to_N_bounded x). lia. Qed.

Lemma to_byte_to_N (x : byte) (n : N) : n = Byte.to_N x -> to_byte n = x.
Proof.
  intros ->. unfold to_byte.
  assert (N.land (Byte.to_N x) 255 = Byte.to_N x) as ->.
  { change 255%N with (N.ones 8). rewrite N.land_ones.
    apply N.mod_small. change (2 ^ 8)%N with 256%N. apply to_N_lt. }
  by rewrite Byte.of_to_N.
Qed.

Lemma is_data_spec (v : N) :
  is_data v = true ->
  Ascii.eqb (b64_char v) "=" = false
  /\ (ord (b64_char v) <? 128)%N = true
  /\ b64_val (b64_char v) = Some v.
Proof.
  unfold is_data. rewrite !andb_true_iff, negb_true_iff.
  intros [[H1 H2] H3]. repeat split; try done.
  destruct (b64_val _) as [v' |]; [| done]. apply N.eqb_eq in H3. by subst.
Qed.

Lemma sextets_12 (a b : N) :
  (a < 256)%N -> (b < 256)%N ->
  is_data (sextet1 a) = true /\ is_data (sextet2 a b) = true
  /\ N.lor (N.shiftl (sextet1 a) 2) (N.shiftr (sextet2 a b) 4) = a
  /\ N.land (sextet2 a b) 15 = N.shiftr b 4.
Proof.
  intros Ha Hb.
  assert (Octets.for_all2 (fun a b =>
            is_data (sextet1 a) && is_data (sextet2 a b)
            && (N.lor (N.shiftl (sextet1 a) 2) (N.shiftr (sextet2 a b) 4) =? a)%N
            && (N.land (sextet2 a b) 15 =? N.shiftr b 4)%N) = true) as Hall
    by (vm_compute; reflexivity).
  apply (for_all2_spec _ a b) in Hall; [| done | done].
  rewrite !andb_true_iff, !N.eqb_eq in Hall. tauto.
Qed.

Lemma sextets_3 (b c : N) :
  (b < 256)%N -> (c < 256)%N ->
  is_data (sextet3 b c) = true
  /\ N.lor (N.shiftl (N.shiftr b 4) 4) (N.shiftr (sextet3 b c) 2) = b
  /\ N.land (sextet3 b c) 3 = N.shiftr c 6.
Proof.
  intros Hb Hc.
  assert (Octets.for_all2 (fun b c =>
            is_data (sextet3 b c)
            && (N.lor (N.shiftl (N.shiftr b 4) 4) (N.shiftr (sextet3 b c) 2) =? b)%N
            && (N.land (sextet3 b c) 3 =? N.shiftr c 6)%N) = true) as Hall
    by (vm_compute; reflexivity).
  apply (for_all2_spec _ b c) in Hall; [| done | done].
  rewrite !andb_true_iff, !N.eqb_eq in Hall. tauto.
Qed.

Lemma sextets_4 (c : N) :
  (c < 256)%N ->
  is_data (sextet4 c) = true
  /\ N.lor (N.shiftl (N.shiftr c 6) 6) (sextet4 c) = c.
Proof.
  intros Hc.
  assert (Octets.for_all (fun c =>
            is_data (sextet4 c)
            && (N.lor (N.shiftl (N.shiftr c 6) 6) (sextet4 c) =? c)%N) = true)
    as Hall by (vm_compute; reflexivity).
  apply (for_all_spec _ c) in Hall; [| done].
  rewrite !andb_true_iff, !N.eqb_eq in Hall. tauto.
Qed.

Lemma a2b_base64_cons (c : ascii) (r : string) (quad : nat) (left pads count : N)
    (out : bytes) :
  a2b_base64 (String c r) quad left pads count out
    = if Ascii.eqb c "=" then
        if ((2 <=? quad)%nat && (4 <=? N.of_nat quad + (pads + 1))%N)%bool
        then inr out
        else a2b_base64 r quad left
               (if (2 <=? quad)%nat then pads + 1 else pads)%N count out
      else
        match b64_val c with
        | None => a2b_base64 r quad left pads count out
        | Some v =>
            match quad with
            | O => a2b_base64 r 1 v 0%N (count + 1)%N out
            | 1%nat =>
                a2b_base64 r 2 (N.land v 15) 0%N (count + 1)%N
                  (out ++ [to_byte (N.lor (N.shiftl left 2) (N.shiftr v 4))])%list
            | 2%nat =>
                a2b_base64 r 3 (N.land v 3) 0%N (count + 1)%N
                  (out ++ [to_byte (N.lor (N.shiftl left 4) (N.shiftr v 2))])%list
            | _ =>
                a2b_base64 r 0 0%N 0%N (count + 1)%N
                  (out ++ [to_byte (N.lor (N.shiftl left 6) v)])%list
            end
        end.
Proof. reflexivity. Qed.

Lemma a2b_base64_data (v : N) (r : string) (quad : nat) (left pads count : N)
    (out : bytes) :
  is_data v = true ->
  a2b_base64 (String (b64_char v) r) quad left pads count out
    = match quad with
      | O => a2b_base64 r 1 v 0%N (count + 1)%N out
      | 1%nat =>
          a2b_base64 r 2 (N.land v 15) 0%N (count + 1)%N
            (out ++ [to_byte (N.lor (N.shiftl left 2) (N.shiftr v 4))])%list
      | 2%nat =>
          a2b_base64 r 3 (N.land v 3) 0%N (count + 1)%N
            (out ++ [to_byte (N.lor (N.shiftl left 4) (N.shiftr v 2))])%list
      | _ =>
          a2b_base64 r 0 0%N 0%N (count + 1)%N
            (out ++ [to_byte (N.lor (N.shiftl left 6) v)])%list
      end.
Proof.
  intros (Hpad & _ & Hval)%is_data_spec.
  by rewrite a2b_base64_cons, Hpad, Hval.
Qed.

Lemma list_ind3 {A} (P : list A -> Prop) :
  P [] -> (forall a, P [a]) -> (forall a b, P [a; b]) ->
  (forall a b c r, P r -> P (a :: b :: c :: r)) ->
  forall l, P l.
Proof.
  intros H0 H1 H2 H3 l.
  assert (P l /\ (forall a, P (a :: l)) /\ (forall a b, P (a :: b :: l))) as [Hl _];
    [| done].
  induction l as [| x l (IH0 & IH1 & IH2)]; [done |].
  split; [apply IH1 |]. split; [intros a; apply IH2 |].
  intros a b. by apply H3.
Qed.

Lemma b64encode_one (a : byte) :
  b64encode [a]
    = String (b64_char (sextet1 (Byte.to_N a)))
        (String (b64_char (sextet2 (Byte.to_N a) 0)) "==").
Proof. unfold b64encode, sextet1, sextet2. simpl. by rewrite N.lor_0_r. Qed.

Lemma b64encode_two (a b : byte) :
  b64encode [a; b]
    = String (b64_char (sextet1 (Byte.to_N a)))
        (String (b64_char (sextet2 (Byte.to_N a) (Byte.to_N b)))
           (String (b64_char (sextet3 (Byte.to_N b) 0)) "=")).
Proof. unfold b64encode, sextet1, sextet2, sextet3. simpl. by rewrite N.lor_0_r. Qed.

Lemma b64encode_three (a b c : byte) (r : bytes) :
  b64encode (a :: b :: c :: r)
    = String (b64_char (sextet1 (Byte.to_N a)))
        (String (b64_char (sextet2 (Byte.to_N a) (Byte.to_N b)))
           (String (b64_char (sextet3 (Byte.to_N b) (Byte.to_N c)))
              (String (b64_char (sextet4 (Byte.to_N c))) (b64encode r)))).
Proof. reflexivity. Qed.

Lemma a2b_base64_b64encode (bs : bytes) :
  forall (count : N) (out : bytes),
    a2b_base64 (b64encode bs) 0 0%N 0%N count out = inr (out ++ bs)%list.
Proof.
  induction bs as [| a | a b | a b c r IH] using list_ind3; intros count out.
  - simpl. by rewrite app_nil_r.
  - destruct (sextets_12 (Byte.to_N a) 0 (to_N_lt a) eq_refl)
      as (Hd1 & Hd2 & Hbyte & _).
    rewrite b64encode_one.
    rewrite (a2b_base64_data _ _ _ _ _ _ _ Hd1), (a2b_base64_data _ _ _ _ _ _ _ Hd2).
    rewrite (to_byte_to_N a) by done.
    by rewrite !a2b_base64_cons.
  - destruct (sextets_12 (Byte.to_N a) (Byte.to_N b) (to_N_lt a) (to_N_lt b))
      as (Hd1 & Hd2 & Hbyte1 & Hleft1).
    destruct (sextets_3 (Byte.to_N b) 0 (to_N_lt b) eq_refl)
      as (Hd3 & Hbyte2 & _).
    rewrite b64encode_two.
    rewrite (a2b_base64_data _ _ _ _ _ _ _ Hd1), (a2b_base64_data _ _ _ _ _ _ _ Hd2),
      (a2b_base64_data _ _ _ _ _ _ _ Hd3).
    rewrite Hleft1, (to_byte_to_N a), (to_byte_to_N b) by done.
    rewrite a2b_base64_cons. simpl. by rewrite <- app_assoc.
  - destruct (sextets_12 (Byte.to_N a) (Byte.to_N b) (to_N_lt a) (to_N_lt b))
      as (Hd1 & Hd2 & Hbyte1 & Hleft1).
    destruct (sextets_3 (Byte.to_N b) (Byte.to_N c) (to_N_lt b) (to_N_lt c))
      as (Hd3 & Hbyte2 & Hleft2).
    destruct (sextets_4 (Byte.to_N c) (to_N_lt c)) as (Hd4 & Hbyte3).
    rewrite b64encode_three.
    rewrite (a2b_base64_data _ _ _ _ _ _ _ Hd1), (a2b_base64_data _ _ _ _ _ _ _ Hd2),
      (a2b_base64_data _ _ _ _ _ _ _ Hd3), (a2b_base64_data _ _ _ _ _ _ _ Hd4).
    rewrite Hleft1, Hleft2, (to_byte_to_N a), (to_byte_to_N b), (to_byte_to_N c)
      by done.
    rewrite IH. by rewrite <- !app_assoc.
Qed.

Lemma is_ascii_b64encode (bs : bytes) : is_ascii (b64encode bs) = true.
Proof.
  unfold is_ascii.
  induction bs as [| a | a b | a b c r IH] using list_ind3.
  - done.
  - destruct (sextets_12 (Byte.to_N a) 0 (to_N_lt a) eq_refl)
      as ((_ & H1 & _)%is_data_spec & (_ & H2 & _)%is_data_spec & _).
    rewrite b64encode_one. simpl. by rewrite H1, H2.
  - destruct (sextets_12 (Byte.to_N a) (Byte.to_N b) (to_N_lt a) (to_N_lt b))
      as ((_ & H1 & _)%is_data_spec & (_ & H2 & _)%is_data_spec & _).
    destruct (sextets_3 (Byte.to_N b) 0 (to_N_lt b) eq_refl)
      as ((_ & H3 & _)%is_data_spec & _).
    rewrite b64encode_two. simpl. by rewrite H1, H2, H3.
  - destruct (sextets_12 (Byte.to_N a) (Byte.to_N b) (to_N_lt a) (to_N_lt b))
      as ((_ & H1 & _)%is_data_spec & (_ & H2 & _)%is_data_spec & _).
    destruct (sextets_3 (Byte.to_N b) (Byte.to_N c) (to_N_lt b) (to_N_lt c))
      as ((_ & H3 & _)%is_data_spec & _).
    destruct (sextets_4 (Byte.to_N c) (to_N_lt c)) as ((_ & H4 & _)%is_data_spec & _).
    rewrite b64encode_three. simpl. by rewrite H1, H2, H3, H4, IH.
Qed.

(** The body of a snapshot is read back as it was written. *)
Lemma b64decode_b64encode (bs : bytes) : b64decode (b64encode bs) = inr bs.
Proof.
  unfold b64decode. by rewrite is_ascii_b64encode, a2b_base64_b64encode.
Qed.

(** ** A response that was cached is the response that is replayed *)

Lemma load_snapshot_of (E : environ) (status : Z) (response_headers : multidict)
    (chunks : list bytes) :
  load_snapshot (snapshot_of E status response_headers chunks)
    = Ok (status, dict_of_multidict response_headers, concat chunks).
Proof. unfold snapshot_of, load_snapshot. simpl. by rewrite b64decode_b64encode. Qed.

Lemma stored_entry_after_forward (E : environ) (self : CacheHandler)
    (conn : Connection) (request : Request) (redirect_url : string) (status : Z)
    (response_headers : multidict) (chunks : list bytes) (w : world) :
  db self = Some conn ->
  String.eqb (file_cache_mode self) "read" = false ->
  is_2xx status = true ->
  stored_entry self (cache_key_of self request redirect_url)
    (after_forward E self request redirect_url status response_headers chunks w)
    = Some (status, dict_of_multidict response_headers, concat chunks).
Proof.
  intros Hdb Hmode H2xx. unfold stored_entry.
  rewrite Hmode, Hdb, cache_table_after_forward, H2xx.
  pose proof (select_insert_eq
                (row_of E (cache_key_of self request redirect_url) status
                        response_headers chunks) (cache_table w)) as Hsel.
  simpl in Hsel. rewrite Hsel. simpl.
  by rewrite json_loads_dumps by apply dict_of_multidict_NoDup.
Qed.

(** X7. Hit bypasses forwarding. After a miss was forwarded and answered
    with a status in 200..299, the same request is answered from the table
    whatever the surroundings have become: the reply has the upstream
    status, the bytes that were streamed to the first caller, and the
    upstream headers (one per name) without the framing ones, followed by a
    [Content-Length] computed from those bytes; nothing goes upstream and
    neither store changes. *)
Theorem forwarded_success_is_replayed (E E' : environ) (self : CacheHandler)
    (request : Request) (w : world) (conn : Connection) (redirect_url : string)
    (status : Z) (response_headers : multidict) (chunks : list bytes) :
  db self = Some conn ->
  file_cache_mode self <> "read" ->
  routing_header request = Some redirect_url ->
  select_by_key (cache_key_of self request redirect_url) (cache_table w) = None ->
  upstream E (upstream_calls (trace w)) (forwarded_request request redirect_url)
    = UpResponse status response_headers chunks ->
  (200 <= status < 300)%Z ->
  let first := handle_request E self request w in
  let second := handle_request E' self request first.1 in
  (exists sr, first.2 = Ok (Streamed sr) /\ concat (sr_written sr) = concat chunks)
  /\ second.2
     = Ok (Response status
             (List.filter (fun kv => negb (is_framing kv.1))
                          (dict_of_multidict response_headers)
              ++ [("Content-Length", str_of_nat (length (concat chunks)))])%list
             (concat chunks))
  /\ upstream_calls (trace second.1) = upstream_calls (trace first.1)
  /\ cache_table second.1 = cache_table first.1
  /\ files second.1 = files first.1.
Proof.
  intros Hdb Hmode Hroute Hmiss Hup H2xx first second.
  apply String.eqb_neq in Hmode. apply is_2xx_spec in H2xx.
  subst second first.
  rewrite (handle_request_forward _ _ _ _ _ _ _ _ _ Hdb Hmode Hroute Hmiss Hup).
  cbn [fst snd].
  rewrite (handle_request_hit E' self request _ redirect_url
             (status, dict_of_multidict response_headers, concat chunks)
             Hmode Hroute)
    by (by apply (stored_entry_after_forward E self conn)).
  cbn [fst snd].
  split; [exists (relayed status response_headers chunks);
          by rewrite relayed_written |].
  split.
  { rewrite replay_eq, replay_headers_NoDup; [done |].
    apply dict_of_multidict_NoDup. }
  split; [by rewrite !upstream_calls_add_event, !Nat.add_0_r | done].
Qed.

(** X8. A snapshot written in write-through mode is the reply in read-only
    mode. After a handler in write mode forwarded a miss that was answered
    with a status in 200..299 and the file could be written, a handler in
    read mode answers the same request from the file, with the upstream
    status, the upstream body and the upstream headers without the framing
    ones plus a fresh [Content-Length], and nothing goes upstream. *)
Theorem snapshot_is_replayed_in_read_only_mode (E E' : environ)
    (writer reader : CacheHandler) (request : Request) (w : world)
    (conn : Connection) (redirect_url : string) (status : Z)
    (response_headers : multidict) (chunks : list bytes) :
  db writer = Some conn ->
  file_cache_mode writer = "write" ->
  file_cache_mode reader = "read" ->
  routing_header request = Some redirect_url ->
  select_by_key (cache_key_of writer request redirect_url) (cache_table w) = None ->
  upstream E (upstream_calls (trace w)) (forwarded_request request redirect_url)
    = UpResponse status response_headers chunks ->
  (200 <= status < 300)%Z ->
  write_fault E (_get_file_cache_path writer (cache_key_of writer request redirect_url))
    = None ->
  let first := handle_request E writer request w in
  let second := handle_request E' reader request first.1 in
  second.2
    = Ok (Response status
            (List.filter (fun kv => negb (is_framing kv.1))
                         (dict_of_multidict response_headers)
             ++ [("Content-Length", str_of_nat (length (concat chunks)))])%list
            (concat chunks))
  /\ upstream_calls (trace second.1) = upstream_calls (trace first.1).
Proof.
  intros Hdb Hwrite Hread Hroute Hmiss Hup H2xx Hfault first second.
  apply is_2xx_spec in H2xx.
  assert (String.eqb (file_cache_mode writer) "read" = false) as Hmode
    by (by rewrite Hwrite).
  subst second first.
  rewrite (handle_request_forward _ _ _ _ _ _ _ _ _ Hdb Hmode Hroute Hmiss Hup).
  cbn [fst snd].
  destruct (handle_request_read E' reader request
              (after_forward E writer request redirect_url status response_headers
                 chunks w) redirect_url Hread Hroute)
    as (w' & _ & _ & Htrace & ->).
  cbn [fst snd].
  assert (stored_entry reader (cache_key_of reader request redirect_url)
            (after_forward E writer request redirect_url status response_headers
               chunks w)
          = Some (status, dict_of_multidict response_headers, concat chunks)) as ->.
  { unfold stored_entry. rewrite Hread. simpl.
    change (_get_file_cache_path reader (cache_key_of reader request redirect_url))
      with (_get_file_cache_path writer (cache_key_of writer request redirect_url)).
    rewrite files_after_forward, H2xx, Hwrite, Hfault. simpl.
    by rewrite lookup_insert_eq, load_snapshot_of. }
  split.
  { rewrite replay_eq, replay_headers_NoDup; [done |].
    apply dict_of_multidict_NoDup. }
  rewrite Htrace. by rewrite !upstream_calls_add_event, !Nat.add_0_r.
Qed.

(** ** What goes upstream *)

Lemma fold_dict_set_by_key_In (g : string -> string) (l d : list (string * string))
    (kv : string * string) :
  In kv (fold_left (fun d kv => dict_set d kv.1 (g kv.1)) l d) ->
  In kv d \/ (kv.1 ∈ l.*1 /\ kv.2 = g kv.1).
Proof.
  revert d. induction l as [| [k v] r IH]; intros d; simpl; [auto |].
  intros Hin. apply IH in Hin as [Hin | [Hin ->]].
  - apply dict_set_In in Hin as [Hin | ->]; [by left |].
    right. split; [apply list_elem_of_here | done].
  - right. split; [by apply list_elem_of_further | done].
Qed.

(** The dict made from a multidict holds, under each name, the first value
    the multidict has under that name. *)
Lemma dict_of_multidict_In (md : multidict) (k v : string) :
  In (k, v) (dict_of_multidict md) -> ci_get md k = Some v.
Proof.
  unfold dict_of_multidict.
  intros [[] | [Hk Hv]]%(fold_dict_set_by_key_In
                           (fun k => default EmptyString (ci_get md k))).
  simpl in Hk, Hv.
  apply list_elem_of_fmap in Hk as ([k' v'] & -> & Hin).
  apply list_elem_of_In in Hin.
  destruct (ci_get_In md k' v' Hin) as [v0 Hget].
  simpl in *. rewrite Hget in Hv |- *. by subst.
Qed.

Lemma rstrip_slash_app_slash (s : string) : rstrip_slash (s ++ "/") = rstrip_slash s.
Proof.
  induction s as [| c s IH]; [done |].
  rewrite str_app_cons. simpl. by rewrite IH.
Qed.

Ltac new_events_of Htrace :=
  erewrite new_events_app
    by (rewrite ?Htrace; unfold hashed; simpl; rewrite <- ?app_assoc; reflexivity).

(** X9. Whatever path a request takes, a request it sends upstream has the
    method and the body of the inbound request, goes to the target without
    its trailing slashes followed by the path and query, and carries
    inbound headers only (the first value under each name), never one named
    [Host] or [X-Cache-Redirect-To] in any case.  A target with a trailing
    slash and the same target without it give the same upstream URL. *)
Theorem upstream_request_has_no_hop_header (E : environ) (self : CacheHandler)
    (request : Request) (w : world) (req : upstream_request) :
  In (EvUpstream req) (new_events w (handle_request E self request w).1) ->
  exists redirect_url,
    routing_header request = Some redirect_url
    /\ up_method req = method request
    /\ up_data req = req_body request
    /\ up_url req = rstrip_slash redirect_url ++ path_qs request
    /\ up_url req = rstrip_slash (redirect_url ++ "/") ++ path_qs request
    /\ forall k v, In (k, v) (up_headers req) ->
         lower k <> "host" /\ lower k <> "x-cache-redirect-to"
         /\ ci_get (req_headers request) k = Some v.
Proof.
  assert (forall redirect_url,
    routing_header request = Some redirect_url ->
    req = forwarded_request request redirect_url ->
    exists redirect_url,
      routing_header request = Some redirect_url
      /\ up_method req = method request
      /\ up_data req = req_body request
      /\ up_url req = rstrip_slash redirect_url ++ path_qs request
      /\ up_url req = rstrip_slash (redirect_url ++ "/") ++ path_qs request
      /\ forall k v, In (k, v) (up_headers req) ->
           lower k <> "host" /\ lower k <> "x-cache-redirect-to"
           /\ ci_get (req_headers request) k = Some v) as Hshape.
  { intros u Hroute ->. exists u. rewrite rstrip_slash_app_slash.
    do 5 (split; [done |]).
    intros k v [Hin Hhop]%without_In. simpl in Hhop.
    split; [| split; [| by apply dict_of_multidict_In]].
    - intros Heq. rewrite Heq in Hhop. discriminate.
    - intros Heq. rewrite Heq in Hhop. discriminate. }
  pose proof (handle_request_handled E self request w) as Hh.
  remember (handle_request E self request w).1 as w' eqn:Hw'.
  remember (handle_request E self request w).2 as res eqn:Hres.
  clear Hw' Hres.
  destruct Hh as [Hroute | u w' Hread Hroute Htab Hfiles Htrace
                  | u hit Hread Hroute Hhit | u r Hread Hroute Hdb Hrow Hbad
                  | u e Hread Hroute Hmiss Hup | u status hs chunks Hread Hroute Hmiss Hup].
  - rewrite new_events_nil. intros [].
  - new_events_of Htrace. simpl. intros [[=] | [[=] | []]].
  - unfold looked_up. destruct (db self); new_events_of Hroute; simpl;
      intuition discriminate.
  - unfold looked_up. destruct (db self); new_events_of Hroute; simpl;
      intuition discriminate.
  - unfold looked_up. destruct (db self); new_events_of Hroute; simpl.
    + intros [[=] | [[=] | [[= <-] | []]]]. by apply (Hshape u).
    + intros [[=] | [[= <-] | []]]. by apply (Hshape u).
  - unfold after_response, after_save, looked_up, after_file_write.
    destruct (is_2xx status); destruct (db self);
      destruct (file_cache_mode self =? "write");
      try destruct (write_fault E _) as [[? | ? ?] |];
      new_events_of Hroute; simpl;
      intros Hin;
      repeat (destruct Hin as [Hin | Hin];
              [try discriminate Hin; injection Hin as <-; by apply (Hshape u) |]);
      destruct Hin.
Qed.

(** ** The hook beyond its first two calls *)

(** X10. A hook that raises leaves the client as it was: the readiness
    wait that times out, a marker found on a client whose endpoint is not
    the proxy's, and headers that are not a plain dict all raise before the
    client is written.  The only exceptions are [TimeoutError], when the
    proxy had to be started and did not come up, and [AssertionError]. *)
Theorem failing_hook_leaves_the_client (H : hook_env) (s : hook_state) (e : exn) :
  (hook_openai H s).2 = Raise e ->
  client (hook_openai H s).1 = client s
  /\ match e with
     | TimeoutError _ =>
         __port (rc s) = None /\ server_ready H (free_port H) = false
     | AssertionError _ => True
     | _ => False
     end.
Proof.
  destruct s as [[port cache_db] [base custom] procs].
  destruct port as [p |]; run_hook.
  - destruct (mapping_contains custom REDIRECT_HEADER).
    + destruct (base =? proxy_url p); simpl; [done |]. by intros [= <-].
    + destruct custom; simpl; [done |]. by intros [= <-].
  - destruct (server_ready H (free_port H)) eqn:Hready; simpl.
    + destruct (mapping_contains custom REDIRECT_HEADER).
      * destruct (base =? proxy_url (free_port H)); simpl; [done |].
        by intros [= <-].
      * destruct custom; simpl; [done |]. by intros [= <-].
    + by intros [= <-].
Qed.

(** X11. The proxy is started at most once. Whatever the outcome of a
    call, the port is set after it; a call that finds the port set starts
    no process and keeps the port, and a call that finds no port records
    exactly one daemon process, on the port the system handed out. *)
Theorem proxy_is_started_once (H : hook_env) (s : hook_state) :
  let s' := (hook_openai H s).1 in
  __port (rc s') = Some (default (free_port H) (__port (rc s)))
  /\ __cache_db (rc s') = __cache_db (rc s)
  /\ processes s'
     = (processes s
        ++ match __port (rc s) with
           | Some _ => []
           | None => [ {| proc_port := free_port H;
                          proc_cache_db := __cache_db (rc s);
                          proc_daemon := true |} ]
           end)%list.
Proof.
  destruct s as [[port cache_db] [base custom] procs].
  destruct port as [p |]; run_hook.
  - rewrite app_nil_r.
    destruct (mapping_contains custom REDIRECT_HEADER).
    + by destruct (base =? proxy_url p).
    + by destruct custom.
  - destruct (server_ready H (free_port H)); simpl; [| done].
    destruct (mapping_contains custom REDIRECT_HEADER).
    + by destruct (base =? proxy_url (free_port H)).
    + by destruct custom.
Qed.

(** X12. A start that timed out is not tried again. When the proxy does
    not come up, the first call raises [TimeoutError] with the port already
    recorded; the next call on the same client skips the start and the
    wait, succeeds, and points the client at that port although nothing was
    seen to listen there. *)
Theorem timed_out_start_is_not_retried (H : hook_env) (s : hook_state) (d : dict) :
  __port (rc s) = None ->
  server_ready H (free_port H) = false ->
  _custom_headers (client s) = PlainDict d ->
  dict_contains d REDIRECT_HEADER = false ->
  let first := hook_openai H s in
  let second := hook_openai H first.1 in
  (exists msg, first.2 = Raise (TimeoutError msg))
  /\ client first.1 = client s
  /\ second.2 = Ok tt
  /\ base_url (client second.1) = proxy_url (free_port H)
  /\ _custom_headers (client second.1)
     = PlainDict (dict_set d REDIRECT_HEADER (base_url (client s)))
  /\ length (processes second.1) = S (length (processes s)).
Proof.
  destruct s as [[port cache_db] [base custom] procs]. simpl.
  intros -> Hready -> Hfresh. run_hook. rewrite Hready. simpl.
  rewrite Hfresh. simpl.
  split; [by eauto |]. split; [done |]. split; [done |]. split; [done |].
  split; [done |]. rewrite length_app. simpl. lia.
Qed.

(** X13. Clients share the proxy. After a hook succeeded, the hook of
    another client that has no marker and keeps its headers in a plain
    dict succeeds without any start or wait, whatever the surroundings:
    that client gets the same proxy endpoint and its own original endpoint
    under [X-Cache-Redirect-To], and the port and the processes are as
    before. *)
Theorem second_client_shares_the_proxy (H H' : hook_env) (s : hook_state)
    (other : AsyncOpenAI) (d : dict) :
  (hook_openai H s).2 = Ok tt ->
  _custom_headers other = PlainDict d ->
  dict_contains d REDIRECT_HEADER = false ->
  let s1 := (hook_openai H s).1 in
  let run := hook_openai H' (with_client other s1) in
  run.2 = Ok tt
  /\ base_url (client run.1) = base_url (client s1)
  /\ _custom_headers (client run.1)
     = PlainDict (dict_set d REDIRECT_HEADER (base_url other))
  /\ rc run.1 = rc s1
  /\ processes run.1 = processes s1.
Proof.
  intros Hok Hdict Hfresh s1 run.
  assert (exists p, __port (rc s1) = Some p /\ base_url (client s1) = proxy_url p)
    as (p & Hport & Hurl).
  { subst s1 run. clear Hdict Hfresh. revert Hok.
    destruct s as [[port cache_db] [base custom] procs].
    destruct port as [p |]; run_hook.
    - destruct (mapping_contains custom REDIRECT_HEADER).
      + destruct (base =? proxy_url p) eqn:Hurl; simpl; [| done].
        apply String.eqb_eq in Hurl. eauto.
      + destruct custom; simpl; [eauto | done].
    - destruct (server_ready H (free_port H)); simpl; [| done].
      destruct (mapping_contains custom REDIRECT_HEADER).
      + destruct (base =? proxy_url (free_port H)) eqn:Hurl; simpl; [| done].
        apply String.eqb_eq in Hurl. eauto.
      + destruct custom; simpl; [eauto | done]. }
  subst run. rewrite Hurl. clearbody s1. clear Hok.
  destruct s1 as [[port cache_db] c1 procs]. destruct other as [base custom].
  simpl in *. subst port custom.
  unfold with_client. run_hook. by rewrite Hfresh.
Qed.

(** ** Bytes that the key does not see *)

Lemma utf8_decode_ignore_ascii (pre rest : list N) :
  Forall (fun b => (b < 128)%N) pre ->
  utf8_decode_ignore (pre ++ rest) = (pre ++ utf8_decode_ignore rest)%list.
Proof.
  induction 1 as [| b pre Hb _ IH]; [done |].
  simpl. apply N.ltb_lt in Hb. by rewrite Hb, IH.
Qed.

Lemma utf8_decode_ignore_stray (x : N) (rest : list N) :
  (128 <= x < 194 \/ 244 < x)%N ->
  utf8_decode_ignore (x :: rest) = utf8_decode_ignore rest.
Proof.
  intros Hx. simpl.
  assert ((x <? 128)%N = false) as -> by (apply N.ltb_ge; lia).
  assert (((x <? 194) || (244 <? x))%N = true) as ->; [| done].
  apply orb_true_iff. rewrite !N.ltb_lt. lia.
Qed.

(** X14. The key does not see a byte that cannot start a UTF-8 sequence.
    A body that holds such a byte (0x80 to 0xC1, or 0xF5 to 0xFF) after
    ASCII text has the key and the canonical string of the body without
    it: [errors='ignore'] drops the byte before the request is hashed, so
    the two requests share one cache entry. *)
Theorem stray_byte_does_not_change_the_key (self : CacheHandler)
    (method path : string) (pre post : bytes) (x : byte) (redirect_url : string) :
  Forall (fun b => (Byte.to_N b < 128)%N) pre ->
  (128 <= Byte.to_N x < 194 \/ 244 < Byte.to_N x)%N ->
  _hash_request self method path (pre ++ x :: post)%list redirect_url
    = _hash_request self method path (pre ++ post)%list redirect_url.
Proof.
  intros Hpre Hx.
  assert (decode_utf8_ignore (pre ++ x :: post)%list
          = decode_utf8_ignore (pre ++ post)%list) as Hdecode.
  { unfold decode_utf8_ignore. rewrite !fmap_app, fmap_cons.
    assert (Forall (fun b => (b < 128)%N) (Byte.to_N <$> pre)) as Hpre'.
    { by apply Forall_fmap. }
    rewrite !utf8_decode_ignore_ascii by done.
    by rewrite utf8_decode_ignore_stray. }
  unfold _hash_request, request_data.
  destruct (pre ++ x :: post)%list as [| b r] eqn:Hbody.
  { by destruct pre. }
  rewrite Hdecode.
  by destruct (pre ++ post)%list.
Qed.

(** ** The further statements at the sample data *)

Lemma request_leaves_other_entries_witness :
  let E := Demo.env (Some "write") 200 in
  let self := Demo.handler "write" in
  (forall redirect_url, routing_header Demo.request = Some redirect_url ->
     "k1" <> cache_key_of self Demo.request redirect_url)
  /\ rows_with_key "k1"
       (cache_table (handle_request E self Demo.request Samples.other_world).1)
     = rows_with_key "k1" (cache_table Samples.other_world).
Proof.
  intros E self.
  assert (forall redirect_url, routing_header Demo.request = Some redirect_url ->
            "k1" <> cache_key_of self Demo.request redirect_url) as h1.
  { intros redirect_url Hroute. vm_compute in Hroute.
    injection Hroute as <-. vm_compute. discriminate. }
  split; [exact h1 |].
  exact (proj1 (request_leaves_other_entries E self Demo.request
                  Samples.other_world "k1" h1)).
Defined.

Lemma snapshots_are_written_in_write_mode_only_witness :
  let E := Demo.env None 200 in
  let self := Demo.handler EmptyString in
  file_cache_mode self <> "write"
  /\ files (handle_request E self Demo.request Demo.empty_world).1
     = files Demo.empty_world.
Proof.
  intros E self.
  assert (file_cache_mode self <> "write") as h1 by (vm_compute; discriminate).
  split; [exact h1 |].
  exact (proj1 (snapshots_are_written_in_write_mode_only E self Demo.request
                  Demo.empty_world h1)).
Defined.

Lemma handler_without_connection_witness :
  let E := Demo.env None 200 in
  let self := Samples.detached in
  (db self = None
   /\ file_cache_mode self <> "read"
   /\ routing_header Demo.request = Some "http://stub/")
  /\ cache_table (handle_request E self Demo.request Demo.warm_world).1
     = cache_table Demo.warm_world
  /\ upstream_calls (trace (handle_request E self Demo.request Demo.warm_world).1)
     = S (upstream_calls (trace Demo.warm_world)).
Proof.
  intros E self.
  assert (db self = None) as h1 by reflexivity.
  assert (file_cache_mode self <> "read") as h2 by (vm_compute; discriminate).
  assert (routing_header Demo.request = Some "http://stub/") as h3 by reflexivity.
  split; [tauto |].
  pose proof (handler_without_connection_always_forwards E self Demo.request
                Demo.warm_world "http://stub/" h1 h2 h3) as Hthm.
  exact (conj (proj1 Hthm) (proj1 (proj2 Hthm))).
Defined.

Lemma upstream_failure_witness :
  let E := Samples.env_down in
  let self := Demo.handler EmptyString in
  let e := ClientError "Cannot connect to host stub:80" in
  (file_cache_mode self <> "read"
   /\ routing_header Demo.request = Some "http://stub/"
   /\ is_miss self (cache_key_of self Demo.request "http://stub/") Demo.empty_world
   /\ upstream E (upstream_calls (trace Demo.empty_world))
        (forwarded_request Demo.request "http://stub/") = UpFailure e)
  /\ (handle_request E self Demo.request Demo.empty_world).2 = Raise e.
Proof.
  intros E self e.
  assert (file_cache_mode self <> "read") as h1 by (vm_compute; discriminate).
  assert (routing_header Demo.request = Some "http://stub/") as h2 by reflexivity.
  assert (is_miss self (cache_key_of self Demo.request "http://stub/")
            Demo.empty_world) as h3 by (right; reflexivity).
  assert (upstream E (upstream_calls (trace Demo.empty_world))
            (forwarded_request Demo.request "http://stub/") = UpFailure e) as h4
    by reflexivity.
  split; [tauto |].
  exact (proj1 (upstream_failure_is_raised_and_not_cached E self Demo.request
                  Demo.empty_world "http://stub/" e h1 h2 h3 h4)).
Defined.

Lemma unreadable_snapshot_witness :
  let E := Demo.env (Some "read") 200 in
  let self := Demo.handler "read" in
  let cache_key := cache_key_of self Demo.request "http://stub/" in
  let e := JSONDecodeError "<html>" in
  (file_cache_mode self = "read"
   /\ routing_header Demo.request = Some "http://stub/"
   /\ files Samples.garbled_world !! _get_file_cache_path self cache_key
      = Some (Garbled "<html>")
   /\ load_snapshot (Garbled "<html>") = Raise e)
  /\ stdout (handle_request E self Demo.request Samples.garbled_world).1
     = (stdout Samples.garbled_world
        ++ [ErrorReading (_get_file_cache_path self cache_key) e])%list.
Proof.
  intros E self cache_key e.
  assert (file_cache_mode self = "read") as h1 by reflexivity.
  assert (routing_header Demo.request = Some "http://stub/") as h2 by reflexivity.
  assert (files Samples.garbled_world !! _get_file_cache_path self cache_key
          = Some (Garbled "<html>")) as h3 by (vm_compute; reflexivity).
  assert (load_snapshot (Garbled "<html>") = Raise e) as h4 by reflexivity.
  split; [tauto |].
  exact (proj1 (proj2 (unreadable_snapshot_is_a_miss E self Demo.request
                         Samples.garbled_world "http://stub/" (Garbled "<html>") e
                         h1 h2 h3 h4))).
Defined.

Lemma forwarded_success_is_replayed_witness :
  let E := Demo.env None 200 in
  let E' := Samples.env_down in
  let self := Demo.handler EmptyString in
  let first := handle_request E self Demo.request Demo.empty_world in
  (db self = Some (Connect "cache.sqlite")
   /\ file_cache_mode self <> "read"
   /\ routing_header Demo.request = Some "http://stub/"
   /\ select_by_key (cache_key_of self Demo.request "http://stub/")
        (cache_table Demo.empty_world) = None
   /\ upstream E (upstream_calls (trace Demo.empty_world))
        (forwarded_request Demo.request "http://stub/")
      = UpResponse 200 Demo.upstream_headers [Demo.body_ok]
   /\ (200 <= 200 < 300)%Z)
  /\ upstream_calls (trace (handle_request E' self Demo.request first.1).1)
     = upstream_calls (trace first.1).
Proof.
  intros E E' self first.
  assert (db self = Some (Connect "cache.sqlite")) as h1 by reflexivity.
  assert (file_cache_mode self <> "read") as h2 by (vm_compute; discriminate).
  assert (routing_header Demo.request = Some "http://stub/") as h3 by reflexivity.
  assert (select_by_key (cache_key_of self Demo.request "http://stub/")
            (cache_table Demo.empty_world) = None) as h4 by reflexivity.
  assert (upstream E (upstream_calls (trace Demo.empty_world))
            (forwarded_request Demo.request "http://stub/")
          = UpResponse 200 Demo.upstream_headers [Demo.body_ok]) as h5
    by reflexivity.
  assert ((200 <= 200 < 300)%Z) as h6 by lia.
  split; [tauto |].
  exact (proj1 (proj2 (proj2
           (forwarded_success_is_replayed E E' self Demo.request Demo.empty_world
              (Connect "cache.sqlite") "http://stub/" 200 Demo.upstream_headers
              [Demo.body_ok] h1 h2 h3 h4 h5 h6)))).
Defined.

Lemma snapshot_is_replayed_witness :
  let E := Demo.env (Some "write") 200 in
  let E' := Samples.env_down in
  let writer := Demo.handler "write" in
  let reader := Demo.handler "read" in
  let first := handle_request E writer Demo.request Demo.empty_world in
  (db writer = Some (Connect "cache.sqlite")
   /\ file_cache_mode writer = "write"
   /\ file_cache_mode reader = "read"
   /\ routing_header Demo.request = Some "http://stub/"
   /\ select_by_key (cache_key_of writer Demo.request "http://stub/")
        (cache_table Demo.empty_world) = None
   /\ upstream E (upstream_calls (trace Demo.empty_world))
        (forwarded_request Demo.request "http://stub/")
      = UpResponse 200 Demo.upstream_headers [Demo.body_ok]
   /\ (200 <= 200 < 300)%Z
   /\ write_fault E (_get_file_cache_path writer
                       (cache_key_of writer Demo.request "http://stub/")) = None)
  /\ upstream_calls (trace (handle_request E' reader Demo.request first.1).1)
     = upstream_calls (trace first.1).
Proof.
  intros E E' writer reader first.
  assert (db writer = Some (Connect "cache.sqlite")) as h1 by reflexivity.
  assert (file_cache_mode writer = "write") as h2 by reflexivity.
  assert (file_cache_mode reader = "read") as h3 by reflexivity.
  assert (routing_header Demo.request = Some "http://stub/") as h4 by reflexivity.
  assert (select_by_key (cache_key_of writer Demo.request "http://stub/")
            (cache_table Demo.empty_world) = None) as h5 by reflexivity.
  assert (upstream E (upstream_calls (trace Demo.empty_world))
            (forwarded_request Demo.request "http://stub/")
          = UpResponse 200 Demo.upstream_headers [Demo.body_ok]) as h6
    by reflexivity.
  assert ((200 <= 200 < 300)%Z) as h7 by lia.
  assert (write_fault E (_get_file_cache_path writer
                           (cache_key_of writer Demo.request "http://stub/"))
          = None) as h8 by reflexivity.
  split; [tauto |].
  exact (proj2 (snapshot_is_replayed_in_read_only_mode E E' writer reader
                  Demo.request Demo.empty_world (Connect "cache.sqlite")
                  "http://stub/" 200 Demo.upstream_headers [Demo.body_ok]
                  h1 h2 h3 h4 h5 h6 h7 h8)).
Defined.

Lemma upstream_request_witness :
  let E := Demo.env None 200 in
  let self := Demo.handler EmptyString in
  let req := forwarded_request Demo.request "http://stub/" in
  In (EvUpstream req)
     (new_events Demo.empty_world
        (handle_request E self Demo.request Demo.empty_world).1)
  /\ exists redirect_url,
       routing_header Demo.request = Some redirect_url
       /\ up_url req = rstrip_slash redirect_url ++ path_qs Demo.request.
Proof.
  intros E self req.
  assert (In (EvUpstream req)
             (new_events Demo.empty_world
                (handle_request E self Demo.request Demo.empty_world).1)) as h1.
  { vm_compute. right. right. left. reflexivity. }
  split; [exact h1 |].
  destruct (upstream_request_has_no_hop_header E self Demo.request
              Demo.empty_world req h1) as (u & Hroute & _ & _ & Hurl & _).
  exists u. exact (conj Hroute Hurl).
Defined.

Lemma failing_hook_witness :
  let H := Samples.proxy_down in
  let s := Demo.hook_start in
  let e := TimeoutError "Server did not start on port 40777 within 5.0 seconds" in
  (hook_openai H s).2 = Raise e
  /\ client (hook_openai H s).1 = client s.
Proof.
  intros H s e.
  assert ((hook_openai H s).2 = Raise e) as h1 by (vm_compute; reflexivity).
  split; [exact h1 |].
  exact (proj1 (failing_hook_leaves_the_client H s e h1)).
Defined.

Lemma timed_out_start_witness :
  let H := Samples.proxy_down in
  let s := Demo.hook_start in
  let d := [("X-Title", "agentica")] in
  (__port (rc s) = None
   /\ server_ready H (free_port H) = false
   /\ _custom_headers (client s) = PlainDict d
   /\ dict_contains d REDIRECT_HEADER = false)
  /\ (hook_openai H (hook_openai H s).1).2 = Ok tt.
Proof.
  intros H s d.
  assert (__port (rc s) = None) as h1 by reflexivity.
  assert (server_ready H (free_port H) = false) as h2 by reflexivity.
  assert (_custom_headers (client s) = PlainDict d) as h3 by reflexivity.
  assert (dict_contains d REDIRECT_HEADER = false) as h4 by reflexivity.
  split; [tauto |].
  exact (proj1 (proj2 (proj2 (timed_out_start_is_not_retried H s d h1 h2 h3 h4)))).
Defined.

Lemma second_client_witness :
  let H := Demo.hook_surroundings in
  let H' := Samples.proxy_down in
  let s := Demo.hook_start in
  let s1 := (hook_openai H s).1 in
  ((hook_openai H s).2 = Ok tt
   /\ _custom_headers Samples.other_client = PlainDict []
   /\ dict_contains [] REDIRECT_HEADER = false)
  /\ base_url (client (hook_openai H' (with_client Samples.other_client s1)).1)
     = base_url (client s1).
Proof.
  intros H H' s s1.
  assert ((hook_openai H s).2 = Ok tt) as h1 by reflexivity.
  assert (_custom_headers Samples.other_client = PlainDict []) as h2 by reflexivity.
  assert (dict_contains [] REDIRECT_HEADER = false) as h3 by reflexivity.
  split; [tauto |].
  exact (proj1 (proj2 (second_client_shares_the_proxy H H' s Samples.other_client
                         [] h1 h2 h3))).
Defined.

Lemma stray_byte_witness :
  let self := Demo.handler EmptyString in
  (Forall (fun b => (Byte.to_N b < 128)%N) (encode "ab")
   /\ (128 <= Byte.to_N Byte.xff < 194 \/ 244 < Byte.to_N Byte.xff)%N)
  /\ _hash_request self "POST" "/v1/thing" (encode "ab" ++ Byte.xff :: encode "c")%list
       "http://stub/"
     = _hash_request self "POST" "/v1/thing" (encode "ab" ++ encode "c")%list
         "http://stub/".
Proof.
  intros self.
  assert (Forall (fun b => (Byte.to_N b < 128)%N) (encode "ab")) as h1.
  { repeat constructor. }
  assert ((128 <= Byte.to_N Byte.xff < 194 \/ 244 < Byte.to_N Byte.xff)%N) as h2.
  { right. reflexivity. }
  split; [tauto |].
  exact (stray_byte_does_not_change_the_key self "POST" "/v1/thing" (encode "ab")
           (encode "c") Byte.xff "http://stub/" h1 h2).
Defined.

(** ** The report of a miss in read-only mode *)

Lemma handle_request_read_run (E : environ) (self : CacheHandler)
    (request : Request) (w : world) (redirect_url : string) :
  file_cache_mode self = "read" ->
  routing_header request = Some redirect_url ->
  handle_request E self request w
    = (after_read E self request redirect_url w,
       match stored_entry self (cache_key_of self request redirect_url) w with
       | Some hit => Ok (replay hit)
       | None =>
           Raise (RuntimeError
                    (miss_message (cache_key_of self request redirect_url)
                       (_hash_request self (method request) (path_qs request)
                          (req_body request) redirect_url).2))
       end).
Proof.
  intros Hmode Hroute.
  apply routing_header_Some in Hroute as (c0 & r & -> & Hget).
  unfold handle_request. rewrite Hget.
  unfold after_read, stored_entry, cache_key_of, hashed.
  destruct (_hash_request _ _ _ _ _) as [cache_key cache_key_str] eqn:Hkey.
  rewrite Hmode. simpl.
  unfold bind at 1. unfold log at 1, modify at 1.
  unfold bind at 1. unfold _get_file_cached_response.
  unfold bind at 1. unfold log at 1, modify at 1.
  unfold bind at 1. unfold get_state at 1.
  change (files (add_event ?a (add_event ?b w))) with (files w).
  destruct (files w !! _) as [c |].
  - destruct (load_snapshot c) as [hit | e] eqn:Hload; [done |].
    rewrite (load_snapshot_error _ _ Hload).
    unfold bind, print, modify, ret, raise, append_github_output, after_miss_report.
    by destruct (GITHUB_OUTPUT E) as [[| ? ?] |].
  - unfold bind, ret, raise, append_github_output, after_miss_report.
    by destruct (GITHUB_OUTPUT E) as [[| ? ?] |].
Qed.

Lemma github_output_after_response (E : environ) (self : CacheHandler)
    (request : Request) (redirect_url : string) (status : Z)
    (response_headers : multidict) (chunks : list bytes) (w : world) :
  github_output
    (after_response E self request redirect_url status response_headers chunks w)
  = github_output w.
Proof.
  unfold after_response, after_save, after_file_write, looked_up, hashed.
  destruct (is_2xx status); [| by destruct (db self)].
  destruct (file_cache_mode self =? "write").
  - destruct (write_fault E _) as [[? | ? ?] |]; by destruct (db self).
  - by destruct (db self).
Qed.

Lemma github_output_looked_up (self : CacheHandler) (request : Request)
    (redirect_url : string) (w : world) :
  github_output (looked_up self request redirect_url w) = github_output w.
Proof. unfold looked_up, hashed. by destruct (db self). Qed.

(** X15. A miss in read-only mode is reported for GitHub Actions. When the
    snapshot file of the key is absent or cannot be decoded, the handler
    raises [RuntimeError] with the message made of the key and the
    canonical string; when [GITHUB_OUTPUT] is set to a name that is not
    empty, the message and a line feed are appended to what that file
    held, and when it is unset or empty nothing is appended. *)
Theorem miss_is_reported_to_github_output (E : environ) (self : CacheHandler)
    (request : Request) (w : world) (redirect_url : string) :
  file_cache_mode self = "read" ->
  routing_header request = Some redirect_url ->
  stored_entry self (cache_key_of self request redirect_url) w = None ->
  let message :=
    miss_message (cache_key_of self request redirect_url)
      (_hash_request self (method request) (path_qs request) (req_body request)
         redirect_url).2 in
  let w' := (handle_request E self request w).1 in
  (handle_request E self request w).2 = Raise (RuntimeError message)
  /\ (GITHUB_OUTPUT E = None \/ GITHUB_OUTPUT E = Some EmptyString ->
      github_output w' = github_output w)
  /\ (forall name, GITHUB_OUTPUT E = Some name -> name <> EmptyString ->
      github_output w'
      = (github_output w ++ [(message ++ String newline EmptyString)%string])%list).
Proof.
  intros Hmode Hroute Hnone message w'. subst w'.
  rewrite (handle_request_read_run E self request w redirect_url Hmode Hroute).
  rewrite Hnone. cbn [fst snd]. split; [done |].
  unfold stored_entry in Hnone. rewrite Hmode in Hnone. simpl in Hnone.
  unfold after_read, after_miss_report, hashed. fold message.
  destruct (files w !! _) as [c |].
  - destruct (load_snapshot c) as [hit | e]; [done |]. split.
    + by intros [-> | ->].
    + intros name -> Hname. by destruct name.
  - split.
    + by intros [-> | ->].
    + intros name -> Hname. by destruct name.
Qed.

(** X16. Nothing but a miss in read-only mode writes to the file of
    [GITHUB_OUTPUT]: after any request that file holds what it held, unless
    the handler is in read-only mode, the request names its target, the
    snapshot directory has no readable entry for its key and the variable
    is set to a name that is not empty. *)
Theorem report_is_written_on_read_only_miss_only (E : environ)
    (self : CacheHandler) (request : Request) (w : world) :
  let w' := (handle_request E self request w).1 in
  github_output w' = github_output w
  \/ (file_cache_mode self = "read"
      /\ (exists name, GITHUB_OUTPUT E = Some name /\ name <> EmptyString)
      /\ exists redirect_url,
           routing_header request = Some redirect_url
           /\ stored_entry self (cache_key_of self request redirect_url) w = None
           /\ length (github_output w') = S (length (github_output w))).
Proof.
  intros w'. subst w'.
  destruct (routing_header request) as [redirect_url |] eqn:Hroute.
  2: { left. by rewrite (handle_request_no_route _ _ _ _ Hroute). }
  destruct (String.eqb (file_cache_mode self) "read") eqn:Hmode.
  - apply String.eqb_eq in Hmode.
    rewrite (handle_request_read_run E self request w redirect_url Hmode Hroute).
    cbn [fst snd].
    unfold after_read, after_miss_report, hashed. cbv zeta.
    destruct (files w !! _) as [c |] eqn:Hfile.
    + destruct (load_snapshot c) as [hit | e] eqn:Hload; [by left |].
      destruct (GITHUB_OUTPUT E) as [[| a name] |]; [by left | | by left].
      right. split; [done |]. split; [by exists (String a name) |].
      exists redirect_url. split; [done |]. split.
      * unfold stored_entry. by rewrite Hmode, Hfile, Hload.
      * simpl. rewrite length_app. simpl. lia.
    + destruct (GITHUB_OUTPUT E) as [[| a name] |]; [by left | | by left].
      right. split; [done |]. split; [by exists (String a name) |].
      exists redirect_url. split; [done |]. split.
      * unfold stored_entry. by rewrite Hmode, Hfile.
      * simpl. rewrite length_app. simpl. lia.
  - left.
    pose proof (handle_request_handled E self request w) as Hh.
    remember (handle_request E self request w).1 as w' eqn:Hw'.
    remember (handle_request E self request w).2 as res eqn:Hres.
    clear Hw' Hres.
    destruct Hh as [Hnone | u w' Hread _ _ _ _
                    | u hit _ _ _ | u r _ _ _ _ _
                    | u e _ _ _ _ | u status hs chunks _ _ _ _].
    + done.
    + rewrite Hread in Hmode. discriminate.
    + apply github_output_looked_up.
    + apply github_output_looked_up.
    + simpl. apply github_output_looked_up.
    + apply github_output_after_response.
Qed.

(** ** Stores that only the handler wrote *)




Lemma sound_stores_frame (w w' : world) :
  cache_table w' = cache_table w -> files w' = files w ->
  sound_stores w -> sound_stores w'.
Proof. unfold sound_stores. by intros -> ->. Qed.








(** ** A snapshot write that fails after the file was opened *)


(** ** The names of the snapshot files *)

Lemma list_ascii_of_string_app (s t : string) :
  list_ascii_of_string (s ++ t)
  = (list_ascii_of_string s ++ list_ascii_of_string t)%list.
Proof.
  induction s as [| c s IH]; [done |].
  rewrite str_app_cons. simpl. by rewrite IH.
Qed.

Lemma is_hex_hex_digit (x : N) : is_hex (hex_digit (N.land x 15)) = true.
Proof.
  assert (N.land x 15 < 16)%N as Hlt.
  { change 15%N with (N.ones 4). rewrite N.land_ones. by apply N.mod_lt. }
  pose proof (for_all_spec
                (fun m => if (m <? 16)%N then is_hex (hex_digit m) else true)
                (N.land x 15)) as Hall.
  cbv beta in Hall. apply N.ltb_lt in Hlt as Hltb. rewrite Hltb in Hall.
  apply Hall; [by vm_compute | lia].
Qed.

Lemma hex4_digits (n : N) :
  String.length (hex4 n) = 4%nat
  /\ Forall (fun c => is_hex c = true) (list_ascii_of_string (hex4 n)).
Proof.
  split; [done |]. unfold hex4. simpl.
  repeat (constructor; [apply is_hex_hex_digit |]). constructor.
Qed.

Lemma hex8_digits (x : Z) :
  String.length (Sha256.hex8 x) = 8%nat
  /\ Forall (fun c => is_hex c = true) (list_ascii_of_string (Sha256.hex8 x)).
Proof.
  unfold Sha256.hex8.
  destruct (hex4_digits (N.shiftr (Z.to_N x) 16)) as [Hlen1 Hhex1].
  destruct (hex4_digits (N.land (Z.to_N x) 65535)) as [Hlen2 Hhex2].
  split.
  - by rewrite str_length_app, Hlen1, Hlen2.
  - rewrite list_ascii_of_string_app. by apply Forall_app.
Qed.

Lemma concat_hex8_digits (ws : list Z) :
  String.length (String.concat EmptyString (Sha256.hex8 <$> ws)) = (8 * length ws)%nat
  /\ Forall (fun c => is_hex c = true)
            (list_ascii_of_string (String.concat EmptyString (Sha256.hex8 <$> ws))).
Proof.
  induction ws as [| x ws [IHlen IHhex]]; [by split; [| constructor] |].
  destruct (hex8_digits x) as [Hlen Hhex].
  destruct ws as [| y ws]; [by split |].
  change (String.concat EmptyString (Sha256.hex8 <$> x :: y :: ws))
    with (Sha256.hex8 x
          ++ EmptyString ++ String.concat EmptyString (Sha256.hex8 <$> y :: ws)).
  rewrite str_app_nil_l. split.
  - rewrite str_length_app, Hlen, IHlen. simpl. lia.
  - rewrite list_ascii_of_string_app. by apply Forall_app.
Qed.

Lemma length_compress (hs block : list Z) :
  length hs = 8%nat -> length (Sha256.compress hs block) = 8%nat.
Proof.
  intros Hlen. unfold Sha256.compress. rewrite length_zip_with, Hlen.
  by destruct (fold_left _ _ _) as [[[[[[[a b] c] d] e] f] g] h].
Qed.

Lemma length_blocks (n : nat) (hs bs : list Z) :
  length hs = 8%nat -> length (Sha256.blocks n hs bs) = 8%nat.
Proof.
  revert hs bs. induction n as [| n IH]; intros hs bs Hlen; [done |].
  simpl. apply IH. by apply length_compress.
Qed.

Lemma hexdigest_digits (b : bytes) :
  String.length (Sha256.hexdigest b) = 64%nat
  /\ Forall (fun c => is_hex c = true) (list_ascii_of_string (Sha256.hexdigest b)).
Proof.
  unfold Sha256.hexdigest.
  destruct (concat_hex8_digits
              (Sha256.digest ((fun x => Z.of_N (Byte.to_N x)) <$> b)))
    as [Hlen Hhex].
  split; [| done]. rewrite Hlen. unfold Sha256.digest.
  by rewrite length_blocks.
Qed.

Lemma cache_key_is_snapshot_path (self : CacheHandler) (request : Request)
    (redirect_url : string) :
  is_snapshot_path
    (_get_file_cache_path self (cache_key_of self request redirect_url)).
Proof.
  exists (cache_key_of self request redirect_url). split; [done |].
  unfold cache_key_of, _hash_request. simpl. apply hexdigest_digits.
Qed.

(** X19. The request does not choose the name of a snapshot file. Every
    path of the snapshot directory that the handler opens for a request,
    for the read of [_get_file_cached_response] or for the write of
    [_save_file_cached_response], and every snapshot file whose content
    differs after the request, is [<key>.json] directly in the snapshot
    directory, where the key is 64 characters out of [0-9a-f]: no text of
    the request (method, path, body, headers) appears in the path.  (The
    file of [GITHUB_OUTPUT] and the database are named by the environment
    and by the handler's [db_path]; they are not snapshot files.) *)
Theorem snapshot_paths_are_hashes (E : environ) (self : CacheHandler)
    (request : Request) (w : world) (file_path : string) :
  let w' := (handle_request E self request w).1 in
  In (EvFileRead file_path) (new_events w w')
  \/ In (EvFileWrite file_path) (new_events w w')
  \/ files w' !! file_path <> files w !! file_path ->
  is_snapshot_path file_path.
Proof.
  intros w'. subst w'.
  pose proof (cache_key_is_snapshot_path self request) as Hkey.
  pose proof (handle_request_handled E self request w) as Hh.
  remember (handle_request E self request w).1 as w' eqn:Hw'.
  remember (handle_request E self request w).2 as res eqn:Hres.
  clear Hw' Hres.
  destruct Hh as [Hroute | u w' Hread Hroute Htab Hfiles Htrace
                  | u hit Hread Hroute Hhit | u r Hread Hroute Hdb Hrow Hbad
                  | u e Hread Hroute Hmiss Hup | u status hs chunks Hread Hroute Hmiss Hup].
  - rewrite new_events_nil. intros [[] | [[] | Hne]]. by destruct Hne.
  - new_events_of Htrace. rewrite Hfiles. simpl.
    intros [[[=] | [[= <-] | []]] | [[[=] | [[=] | []]] | Hne]];
      [apply Hkey | by destruct Hne].
  - destruct (looked_up_frame self request u w) as (_ & -> & _).
    unfold looked_up. destruct (db self); new_events_of Hroute; simpl;
      intros [Hin | [Hin | Hne]]; try (by destruct Hne);
      intuition discriminate.
  - destruct (looked_up_frame self request u w) as (_ & -> & _).
    unfold looked_up. destruct (db self); new_events_of Hroute; simpl;
      intros [Hin | [Hin | Hne]]; try (by destruct Hne);
      intuition discriminate.
  - change (files (add_event ?ev ?w0)) with (files w0).
    destruct (looked_up_frame self request u w) as (_ & -> & _).
    unfold looked_up. destruct (db self); new_events_of Hroute; simpl;
      intros [Hin | [Hin | Hne]]; try (by destruct Hne);
      intuition discriminate.
  - rewrite files_after_response.
    intros [Hin | [Hin | Hne]].
    + exfalso. revert Hin.
      unfold after_response, after_save, looked_up, after_file_write.
      destruct (is_2xx status); destruct (db self);
        destruct (file_cache_mode self =? "write");
        try destruct (write_fault E _) as [[? | ? ?] |];
        new_events_of Hroute; simpl; intuition discriminate.
    + revert Hin.
      unfold after_response, after_save, looked_up, after_file_write.
      destruct (is_2xx status); destruct (db self);
        destruct (file_cache_mode self =? "write");
        try destruct (write_fault E _) as [[? | ? ?] |];
        new_events_of Hroute; simpl; intros Hin;
        repeat (destruct Hin as [Hin | Hin];
                [try discriminate Hin; injection Hin as <-; by apply Hkey |]);
        destruct Hin.
    + destruct (is_2xx status && _); [| by destruct Hne].
      destruct (write_fault E _) as [[? | ? ?] |]; [by destruct Hne | |];
        (destruct (decide (file_path
                           = _get_file_cache_path self (cache_key_of self request u)))
           as [-> | Hother]; [apply Hkey |];
         rewrite lookup_insert_ne in Hne by done; by destruct Hne).
Qed.

(** ** The canonical string determines the request *)

Lemma all_below_spec (k : nat) (P : N -> bool) (n : N) :
  Scan.all_below k P = true -> (n < N.of_nat k)%N -> P n = true.
Proof.
  unfold Scan.all_below. rewrite forallb_forall.
  intros Hall Hn. apply Hall.
  apply in_map_iff. exists (N.to_nat n). split; [apply N2Nat.id |].
  apply in_seq. lia.
Qed.

Lemma ord_chr (n : N) : (n < 256)%N -> ord (chr n) = n.
Proof. apply N_ascii_embedding. Qed.

Lemma ord_lt (c : ascii) : (ord c < 256)%N.
Proof. apply N_ascii_bounded. Qed.

Lemma hex_val_hex_digit (x : N) : (x < 16)%N -> hex_val (hex_digit x) = Some x.
Proof.
  intros Hlt.
  pose proof (all_below_spec 16
                (fun m => match hex_val (hex_digit m) with
                          | Some v => (v =? m)%N
                          | None => false
                          end) x) as Hall.
  cbv beta in Hall.
  destruct (hex_val (hex_digit x)) as [v |].
  - f_equal. apply N.eqb_eq. apply Hall; [by vm_compute | lia].
  - discriminate Hall; [by vm_compute | lia].
Qed.

Lemma nibbles (n : N) :
  (n < 65536)%N ->
  (((N.land (N.shiftr n 12) 15 * 16 + N.land (N.shiftr n 8) 15) * 16
    + N.land (N.shiftr n 4) 15) * 16 + N.land n 15 = n)%N.
Proof.
  intros Hlt.
  change 15%N with (N.ones 4). rewrite !N.land_ones, !N.shiftr_div_pow2.
  change (2 ^ 4)%N with 16%N. change (2 ^ 8)%N with 256%N.
  change (2 ^ 12)%N with 4096%N.
  zify. Z.to_euclidean_division_equations. lia.
Qed.

Lemma nibble_lt (x : N) : (N.land x 15 < 16)%N.
Proof. change 15%N with (N.ones 4). rewrite N.land_ones. by apply N.mod_lt. Qed.

Lemma hex4_val_hex4 (n : N) (s : string) :
  (n < 65536)%N -> Scan.hex4_val (hex4 n ++ s) = Some (n, s).
Proof.
  intros Hlt. unfold hex4. str_norm. unfold Scan.hex4_val.
  rewrite !hex_val_hex_digit by apply nibble_lt.
  by rewrite nibbles.
Qed.

Lemma surrogate_halves (m : N) :
  (m < 1048576)%N ->
  let hi := N.lor 55296 (N.land (N.shiftr m 10) 1023) in
  let lo := N.lor 56320 (N.land m 1023) in
  Scan.is_high hi = true /\ Scan.is_low lo = true /\ (hi < 65536)%N /\ (lo < 65536)%N
  /\ ((hi - 55296) * 1024 + (lo - 56320) = m)%N.
Proof.
  intros Hlt hi lo.
  assert (forall x, (x < 1024)%N ->
            N.lor 55296 x = (55296 + x)%N /\ N.lor 56320 x = (56320 + x)%N) as Hlor.
  { intros x Hx.
    pose proof (all_below_spec 1024
                  (fun x => (N.lor 55296 x =? 55296 + x)%N
                            && (N.lor 56320 x =? 56320 + x)%N) x) as Hall.
    cbv beta in Hall. apply andb_true_iff in Hall as [H1 H2];
      [| by vm_compute | lia].
    by apply N.eqb_eq in H1, H2. }
  assert (N.land (N.shiftr m 10) 1023 = m / 1024)%N as Hhi.
  { change 1023%N with (N.ones 10). rewrite N.land_ones, N.shiftr_div_pow2.
    change (2 ^ 10)%N with 1024%N. apply N.mod_small.
    zify. Z.to_euclidean_division_equations. lia. }
  assert (N.land m 1023 = m mod 1024)%N as Hlo.
  { change 1023%N with (N.ones 10). by rewrite N.land_ones. }
  subst hi lo. rewrite Hhi, Hlo.
  destruct (Hlor (m / 1024)%N) as [-> _].
  { zify. Z.to_euclidean_division_equations. lia. }
  destruct (Hlor (m mod 1024)%N) as [_ ->].
  { zify. Z.to_euclidean_division_equations. lia. }
  unfold Scan.is_high, Scan.is_low.
  rewrite !andb_true_iff, !N.leb_le.
  zify. Z.to_euclidean_division_equations. lia.
Qed.

Lemma scan_one_escape (n : N) (s : string) :
  Scan.is_scalar n = true -> Scan.scan_one (json_escape n ++ s) = Some (n, s).
Proof.
  intros Hscalar. unfold json_escape.
  destruct (n =? 34)%N eqn:H34; [apply N.eqb_eq in H34 as ->; by str_norm |].
  destruct (n =? 92)%N eqn:H92; [apply N.eqb_eq in H92 as ->; by str_norm |].
  destruct (n =? 10)%N eqn:H10; [apply N.eqb_eq in H10 as ->; by str_norm |].
  destruct (n =? 13)%N eqn:H13; [apply N.eqb_eq in H13 as ->; by str_norm |].
  destruct (n =? 9)%N eqn:H9; [apply N.eqb_eq in H9 as ->; by str_norm |].
  destruct (n =? 8)%N eqn:H8; [apply N.eqb_eq in H8 as ->; by str_norm |].
  destruct (n =? 12)%N eqn:H12; [apply N.eqb_eq in H12 as ->; by str_norm |].
  apply N.eqb_neq in H34, H92.
  destruct ((32 <=? n)%N && (n <=? 126)%N) eqn:Hprint.
  - apply andb_true_iff in Hprint as [Hlo%N.leb_le Hhi%N.leb_le].
    str_norm. unfold Scan.scan_one.
    assert (Ascii.eqb (chr n) dquote = false) as ->.
    { apply Ascii.eqb_neq. intros Heq. apply (f_equal ord) in Heq.
      rewrite ord_chr in Heq by lia. by apply H34. }
    assert (Ascii.eqb (chr n) backslash = false) as ->.
    { apply Ascii.eqb_neq. intros Heq. apply (f_equal ord) in Heq.
      rewrite ord_chr in Heq by lia. by apply H92. }
    by rewrite ord_chr by lia.
  - unfold Scan.is_scalar in Hscalar.
    destruct (n <? 65536)%N eqn:Hbmp.
    + apply N.ltb_lt in Hbmp. unfold bs. str_norm. unfold Scan.scan_one.
      change (Ascii.eqb backslash dquote) with false.
      change (Ascii.eqb backslash backslash) with true.
      change (Ascii.eqb "u" "u") with true. cbv iota.
      rewrite hex4_val_hex4 by done.
      assert (Scan.is_high n = false) as ->; [| done].
      unfold Scan.is_high. apply andb_false_iff.
      rewrite N.leb_gt, N.leb_gt.
      apply orb_true_iff in Hscalar as [Hs%N.ltb_lt | Hs%andb_true_iff].
      * by left.
      * right. destruct Hs as [Hs%N.leb_le _]. lia.
    + apply N.ltb_ge in Hbmp.
      assert (n - 65536 < 1048576)%N as Hm.
      { apply orb_true_iff in Hscalar as [Hs%N.ltb_lt | Hs%andb_true_iff]; [lia |].
        destruct Hs as [_ Hs%N.ltb_lt]. lia. }
      destruct (surrogate_halves _ Hm) as (Hhigh & Hlow & Hhi & Hlo & Hsum).
      unfold bs. str_norm. unfold Scan.scan_one.
      change (Ascii.eqb backslash dquote) with false.
      change (Ascii.eqb backslash backslash) with true.
      change (Ascii.eqb "u" "u") with true. cbv iota.
      rewrite hex4_val_hex4 by done. rewrite Hhigh.
      unfold Scan.low_half.
      change (Ascii.eqb backslash backslash) with true.
      change (Ascii.eqb "u" "u") with true. cbv iota. simpl andb. cbv iota.
      rewrite hex4_val_hex4 by done. rewrite Hlow.
      do 2 f_equal. lia.
Qed.

Lemma scan_one_quote (s : string) : Scan.scan_one (String dquote s) = None.
Proof. done. Qed.

Lemma json_escape_all_inj (u u' : ustr) (s s' : string) :
  Forall (fun n => Scan.is_scalar n = true) u ->
  Forall (fun n => Scan.is_scalar n = true) u' ->
  json_escape_all u ++ String dquote s = json_escape_all u' ++ String dquote s' ->
  u = u' /\ s = s'.
Proof.
  intros Hu. revert u'. induction Hu as [| n u Hn Hu IH]; intros u' Hu' Heq.
  - destruct Hu' as [| n' u' Hn' Hu']; simpl in Heq.
    + rewrite !str_app_nil_l in Heq. by injection Heq as <-.
    + apply (f_equal Scan.scan_one) in Heq. revert Heq. str_norm.
      by rewrite scan_one_escape.
  - destruct Hu' as [| n' u' Hn' Hu']; simpl in Heq.
    + apply (f_equal Scan.scan_one) in Heq. revert Heq. str_norm.
      by rewrite scan_one_escape.
    + apply (f_equal Scan.scan_one) in Heq. revert Heq. str_norm.
      rewrite !scan_one_escape by done. intros [= <- Heq].
      destruct (IH u' Hu' Heq) as [<- <-]. done.
Qed.

Lemma json_str_inj (u u' : ustr) (s s' : string) :
  Forall (fun n => Scan.is_scalar n = true) u ->
  Forall (fun n => Scan.is_scalar n = true) u' ->
  json_str u ++ s = json_str u' ++ s' ->
  u = u' /\ s = s'.
Proof.
  intros Hu Hu'. unfold json_str. str_norm. intros [= Heq].
  by apply json_escape_all_inj.
Qed.

Lemma ustr_of_str_scalar (s : string) :
  Forall (fun n => Scan.is_scalar n = true) (ustr_of_str s).
Proof.
  unfold ustr_of_str. apply Forall_fmap, Forall_forall. intros c _. simpl.
  unfold Scan.is_scalar. apply orb_true_iff. left.
  apply N.ltb_lt. pose proof (ord_lt c). lia.
Qed.

Lemma ustr_of_str_inj (s s' : string) : ustr_of_str s = ustr_of_str s' -> s = s'.
Proof.
  unfold ustr_of_str. intros Heq.
  rewrite <- (string_of_list_ascii_of_string s),
          <- (string_of_list_ascii_of_string s').
  f_equal. revert Heq. generalize (list_ascii_of_string s') as l'.
  induction (list_ascii_of_string s) as [| c l IH]; intros [| c' l']; try done.
  simpl. intros [= Hc Hl]. f_equal; [| by apply IH].
  rewrite <- (ascii_N_embedding c), <- (ascii_N_embedding c'). by f_equal.
Qed.

Ltac to_props :=
  repeat match goal with
         | H : negb _ = true |- _ => apply negb_true_iff in H
         | H : negb _ = false |- _ => apply negb_false_iff in H
         | H : (_ && _) = true |- _ => apply andb_true_iff in H as [? ?]
         | H : (_ || _) = false |- _ => apply orb_false_iff in H as [? ?]
         | H : (_ <? _)%N = true |- _ => apply N.ltb_lt in H
         | H : (_ <? _)%N = false |- _ => apply N.ltb_ge in H
         | H : (_ <=? _)%N = true |- _ => apply N.leb_le in H
         | H : (_ <=? _)%N = false |- _ => apply N.leb_gt in H
         | H : (_ =? _)%N = true |- _ => apply N.eqb_eq in H
         | H : (_ =? _)%N = false |- _ => apply N.eqb_neq in H
         end.

Lemma second_ok_spec (b0 b1 : N) :
  second_ok b0 b1 = true ->
  (128 <= b1 <= 191)%N
  /\ (b0 = 237 -> b1 <= 159)%N /\ (b0 = 240 -> 144 <= b1)%N
  /\ (b0 = 244 -> b1 <= 143)%N.
Proof.
  unfold second_ok, is_cont.
  destruct (b0 =? 224)%N eqn:H224; [intros; to_props; lia |].
  destruct (b0 =? 237)%N eqn:H237; [intros; to_props; lia |].
  destruct (b0 =? 240)%N eqn:H240; [intros; to_props; lia |].
  destruct (b0 =? 244)%N eqn:H244; intros; to_props; lia.
Qed.

Lemma is_scalar_spec (n : N) :
  Scan.is_scalar n = true <-> (n < 55296 \/ 57344 <= n < 1114112)%N.
Proof.
  unfold Scan.is_scalar.
  rewrite orb_true_iff, andb_true_iff, !N.ltb_lt, N.leb_le. tauto.
Qed.

Lemma land_low_bits (b : N) :
  N.land b 63 = (b mod 64)%N /\ N.land b 31 = (b mod 32)%N
  /\ N.land b 15 = (b mod 16)%N /\ N.land b 7 = (b mod 8)%N.
Proof.
  change 63%N with (N.ones 6). change 31%N with (N.ones 5).
  change 15%N with (N.ones 4). change 7%N with (N.ones 3).
  by rewrite !N.land_ones.
Qed.

Ltac low_bits :=
  unfold low6;
  repeat match goal with
         | |- context [N.land ?b 63] =>
             rewrite (proj1 (land_low_bits b))
         | |- context [N.land ?b 31] =>
             rewrite (proj1 (proj2 (land_low_bits b)))
         | |- context [N.land ?b 15] =>
             rewrite (proj1 (proj2 (proj2 (land_low_bits b))))
         | |- context [N.land ?b 7] =>
             rewrite (proj2 (proj2 (proj2 (land_low_bits b))))
         end;
  zify; Z.to_euclidean_division_equations; lia.

Lemma utf8_decode_ignore_scalar (bs : list N) :
  Forall (fun n => Scan.is_scalar n = true) (utf8_decode_ignore bs).
Proof.
  remember (length bs) as k eqn:Hk.
  assert (length bs <= k)%nat as Hlen by lia. clear Hk.
  revert bs Hlen. induction k as [| k IH]; intros bs Hlen.
  { destruct bs; [constructor | simpl in Hlen; lia]. }
  destruct bs as [| b0 r0]; [constructor |]. simpl in Hlen.
  cbn [utf8_decode_ignore].
  destruct (b0 <? 128)%N eqn:Hlt128.
  { constructor; [| apply IH; lia].
    to_props. unfold Scan.is_scalar. apply orb_true_iff. left.
    apply N.ltb_lt. lia. }
  destruct ((b0 <? 194) || (244 <? b0))%N eqn:Hstart; [apply IH; lia |].
  destruct r0 as [| b1 r1]; [constructor |]. simpl in Hlen.
  destruct (negb (second_ok b0 b1)) eqn:Hsecond; [apply IH; simpl; lia |].
  apply negb_false_iff, second_ok_spec in Hsecond as (Hb1 & H237 & H240 & H244).
  to_props.
  destruct (b0 <? 224)%N eqn:Hlt224.
  { constructor; [| apply IH; lia].
    to_props. apply is_scalar_spec. left. low_bits. }
  destruct r1 as [| b2 r2]; [constructor |]. simpl in Hlen.
  destruct (negb (is_cont b2)) eqn:Hb2; [apply IH; simpl; lia |].
  unfold is_cont in Hb2. to_props.
  destruct (b0 <? 240)%N eqn:Hlt240.
  { constructor; [| apply IH; lia].
    to_props. apply is_scalar_spec.
    destruct (decide (b0 = 237%N)) as [H13 | H13].
    - specialize (H237 H13). left. low_bits.
    - destruct (decide (b0 < 237)%N); [left | right]; low_bits. }
  destruct r2 as [| b3 r3]; [constructor |]. simpl in Hlen.
  destruct (negb (is_cont b3)) eqn:Hb3; [apply IH; simpl; lia |].
  unfold is_cont in Hb3. to_props.
  constructor; [| apply IH; lia].
  apply is_scalar_spec. right.
  destruct (decide (b0 = 240%N)) as [H16 | H16].
  { specialize (H240 H16). low_bits. }
  destruct (decide (b0 = 244%N)) as [H20 | H20].
  { specialize (H244 H20). low_bits. }
  low_bits.
Qed.

Lemma decoded_body (body : bytes) :
  match body with [] => [] | _ => decode_utf8_ignore body end
  = decode_utf8_ignore body.
Proof. by destruct body. Qed.

(** X21. The canonical string is unambiguous. Two requests have the same
    canonical string exactly when they have the same method, the same path
    and query, the same target and bodies that decode to the same text: no
    choice of quotes, backslashes, commas or control characters in one field
    makes the string of another request, so two keys are equal only for
    such requests or by a collision of SHA-256. *)
Theorem canonical_string_determines_the_request (self self' : CacheHandler)
    (method path : string) (body : bytes) (redirect_url : string)
    (method' path' : string) (body' : bytes) (redirect_url' : string) :
  (_hash_request self method path body redirect_url).2
    = (_hash_request self' method' path' body' redirect_url').2
  <-> (method = method' /\ path = path' /\ redirect_url = redirect_url'
       /\ decode_utf8_ignore body = decode_utf8_ignore body').
Proof.
  unfold _hash_request, json_dumps_sort_keys. cbn [snd].
  rewrite !request_data_sorted, !decoded_body.
  split; [| by intros (-> & -> & -> & ->)].
  unfold json_object, json_member. cbn [fmap list_fmap String.concat fst snd].
  rewrite !str_app_assoc. intros Heq.
  do 3 apply (inj (String.app _)) in Heq.
  apply json_str_inj in Heq as [Hbody Heq];
    [| apply utf8_decode_ignore_scalar | apply utf8_decode_ignore_scalar].
  do 3 apply (inj (String.app _)) in Heq.
  apply json_str_inj in Heq as [Hmethod%ustr_of_str_inj Heq];
    [| apply ustr_of_str_scalar | apply ustr_of_str_scalar].
  do 3 apply (inj (String.app _)) in Heq.
  apply json_str_inj in Heq as [Hpath%ustr_of_str_inj Heq];
    [| apply ustr_of_str_scalar | apply ustr_of_str_scalar].
  do 3 apply (inj (String.app _)) in Heq.
  apply json_str_inj in Heq as [Hurl%ustr_of_str_inj _];
    [| apply ustr_of_str_scalar | apply ustr_of_str_scalar].
  done.
Qed.

Lemma miss_is_reported_witness :
  let E := Samples.env_actions in
  let self := Demo.handler "read" in
  let message :=
    miss_message (cache_key_of self Demo.request "http://stub/")
      (_hash_request self "POST" "/v1/thing" Demo.body_a1 "http://stub/").2 in
  (file_cache_mode self = "read"
   /\ routing_header Demo.request = Some "http://stub/"
   /\ stored_entry self (cache_key_of self Demo.request "http://stub/")
        Demo.empty_world = None
   /\ GITHUB_OUTPUT E
      = Some "/home/runner/work/_temp/_runner_file_commands/set_output")
  /\ github_output (handle_request E self Demo.request Demo.empty_world).1
     = [(message ++ String newline EmptyString)%string].
Proof.
  intros E self message.
  assert (file_cache_mode self = "read") as h1 by reflexivity.
  assert (routing_header Demo.request = Some "http://stub/") as h2 by reflexivity.
  assert (stored_entry self (cache_key_of self Demo.request "http://stub/")
            Demo.empty_world = None) as h3 by (vm_compute; reflexivity).
  assert (GITHUB_OUTPUT E
          = Some "/home/runner/work/_temp/_runner_file_commands/set_output") as h4
    by reflexivity.
  split; [tauto |].
  refine (proj2 (proj2 (miss_is_reported_to_github_output E self Demo.request
                          Demo.empty_world "http://stub/" h1 h2 h3)) _ h4 _).
  discriminate.
Defined.



Lemma snapshot_paths_witness :
  let E := Demo.env (Some "write") 200 in
  let self := Demo.handler "write" in
  let file_path := _get_file_cache_path self Demo.cache_key in
  In (EvFileWrite file_path)
     (new_events Demo.empty_world
        (handle_request E self Demo.request Demo.empty_world).1)
  /\ is_snapshot_path file_path.
Proof.
  intros E self file_path.
  assert (In (EvFileWrite file_path)
             (new_events Demo.empty_world
                (handle_request E self Demo.request Demo.empty_world).1)) as h1.
  { vm_compute. do 4 right. left. reflexivity. }
  split; [exact h1 |].
  exact (snapshot_paths_are_hashes E self Demo.request Demo.empty_world file_path
           (or_intror (or_introl h1))).
Defined.

(** ** From the environment to the handler *)

(** X22. [FILE_CACHE] set to [read] in any letter case puts the server in
    read-only mode. The application is built without error, and the handler
    it routes every request to sends nothing upstream and leaves the table
    and the snapshot files as they are, whatever the request and the
    surroundings at the time of the request. *)
Theorem read_toggle_in_any_case_stops_forwarding (E E' : environ)
    (cache_db toggle : string) (w0 : world) (request : Request) (w : world) :
  FILE_CACHE E = Some toggle ->
  lower toggle = "read" ->
  exists self,
    create_cache_app E cache_db w0 = (w0, Ok self)
    /\ db self = Some (Connect cache_db)
    /\ upstream_calls (trace (handle_request E' self request w).1)
       = upstream_calls (trace w)
    /\ cache_table (handle_request E' self request w).1 = cache_table w
    /\ files (handle_request E' self request w).1 = files w.
Proof.
  intros Htoggle Hlower.
  exists {| db_path := cache_db; db := Some (Connect cache_db);
            file_cache_mode := "read" |}.
  split.
  { unfold create_cache_app, __init__. rewrite Htoggle. simpl. by rewrite Hlower. }
  split; [done |].
  set (self := {| db_path := cache_db; db := Some (Connect cache_db);
                  file_cache_mode := "read" |}).
  pose proof (handle_request_handled E' self request w) as Hh.
  remember (handle_request E' self request w).1 as w' eqn:Hw'.
  remember (handle_request E' self request w).2 as res eqn:Hres.
  clear Hw' Hres.
  destruct Hh as [Hnone | u w' _ _ Htab Hfiles Htrace
                  | u hit Hm _ _ | u r Hm _ _ _ _
                  | u e Hm _ _ _ | u status hs chunks Hm _ _ _]; try done.
  split; [| done]. rewrite Htrace. unfold hashed. simpl.
  rewrite !upstream_calls_app. unfold upstream_calls. simpl. lia.
Qed.

Lemma read_toggle_witness :
  let E := Demo.env (Some "READ") 200 in
  (FILE_CACHE E = Some "READ" /\ lower "READ" = "read")
  /\ exists self,
       create_cache_app E "cache.sqlite" Demo.empty_world
         = (Demo.empty_world, Ok self)
       /\ upstream_calls
            (trace (handle_request E self Demo.request Demo.empty_world).1)
          = upstream_calls (trace Demo.empty_world).
Proof.
  intros E.
  assert (FILE_CACHE E = Some "READ") as h1 by reflexivity.
  assert (lower "READ" = "read") as h2 by reflexivity.
  split; [tauto |].
  destruct (read_toggle_in_any_case_stops_forwarding E E "cache.sqlite" "READ"
              Demo.empty_world Demo.request Demo.empty_world h1 h2)
    as (self & Happ & _ & Hcalls & _).
  exists self. exact (conj Happ Hcalls).
Defined.

